(** * Compliance Copilot: the scoring and risk aggregation engine

    A shallow embedding of the four scoring pipelines of the backend

      - [compliance/compliance.service.ts], module [Compliance];
      - [regulatory/regulatory-knowledge.service.ts], module [Regulatory];
      - [third-party-apps/third-party-app-risk.service.ts], module
        [ThirdPartyApps];
      - [monitoring/monitoring.service.ts], module [Monitoring];

    together with the statements the specification makes about them.  The
    modules of the services come first, each followed by the specification's
    reading of its scores; the modules of proofs come after them.

    Around the pipelines, the reports of the compliance service (modules
    [ComplianceReports] and [ComplianceDetails]), the scan of the installed
    apps ([AppScan], [AppAssessment]) and the alert service with the
    monitoring metrics and the daily health checks
    ([monitoring/alert.service.ts], module [Alerts]) are embedded the same
    way.

    Conventions for JavaScript values.
      - A [number] that only ever holds an exact integer of small magnitude
        (a counter, a length, a deduction, a millisecond timestamp) is a [Z]:
        binary64 arithmetic is exact on such values.
      - A [number] that goes through a fractional weight or a division is a
        binary64 [float] (Rocq's primitive floats), so that rounding is the
        one the program performs.
      - [null] / [undefined] are [None]; string unions and enums are
        inductive types.
      - An [async] method is a computation in the monad [Async] below:
        [await] is bind, a rejected promise is [Rejected]. *)

From Stdlib Require Import ZArith List String Ascii Bool Lia Sorted.
From Stdlib Require Import DecimalString QArith Qround Floats.
Import ListNotations.

Set Warnings "-inexact-float".

Local Open Scope string_scope.
Local Open Scope Z_scope.

(* ================================================================== *)
(** * JavaScript built-ins used by the services *)
(* ================================================================== *)

Module JS.

(** ** Numbers *)

(** The binary64 value of a small integer ([|z| < 2^53] is exact). *)
Definition Z2F (z : Z) : float :=
  if z <? 0
  then PrimFloat.opp (PrimFloat.of_uint63 (Uint63.of_Z (- z)))
  else PrimFloat.of_uint63 (Uint63.of_Z z).

(** [floor (v * 2^e + 1/2)] computed exactly, for [e < 0]. *)
Definition round_half_up (v e : Z) : Z :=
  (2 * v + 2 ^ (- e)) / 2 ^ (1 - e).

(** [Math.round]: the integer closest to [x], ties going towards
    [+Infinity]; [NaN], the infinities and the zeros are returned as they
    are, and so is every float whose exponent says it is an integer
    already.  (The sign of a zero result is not tracked.) *)
Definition Math_round (x : float) : float :=
  match Prim2SF x with
  | S754_finite s m e =>
      if 0 <=? e then x
      else Z2F (round_half_up (if s then Z.neg m else Z.pos m) e)
  | _ => x
  end.

(** [Math.max] and [Math.min] on two arguments: [NaN] is contagious. *)
Definition Math_max (a b : float) : float :=
  if PrimFloat.is_nan a || PrimFloat.is_nan b then PrimFloat.nan
  else if PrimFloat.ltb a b then b else a.

Definition Math_min (a b : float) : float :=
  if PrimFloat.is_nan a || PrimFloat.is_nan b then PrimFloat.nan
  else if PrimFloat.ltb b a then b else a.

(** [a >= b] and [a > b] on numbers. *)
Definition ge (a b : float) : bool := PrimFloat.leb b a.
Definition gt (a b : float) : bool := PrimFloat.ltb b a.

(** ** Strings *)

(** [`${n}`] for a non-negative integer. *)
Definition toString (n : nat) : string :=
  NilZero.string_of_uint (Nat.to_uint n).

(** [s.includes(pat)]: [pat] occurs in [s] as a substring. *)
Fixpoint includes (s pat : string) : bool :=
  String.prefix pat s ||
  match s with
  | EmptyString => false
  | String _ s' => includes s' pat
  end.

Definition lower_ascii (c : ascii) : ascii :=
  let n := nat_of_ascii c in
  if (Nat.leb 65 n && Nat.leb n 90)%bool then ascii_of_nat (n + 32) else c.

(** [s.toLowerCase()] on ASCII text. *)
Fixpoint toLowerCase (s : string) : string :=
  match s with
  | EmptyString => EmptyString
  | String c s' => String (lower_ascii c) (toLowerCase s')
  end.

(** The text on which [toLowerCase] above is [String.prototype.toLowerCase]:
    every character is below 128.  Outside ASCII the built-in also maps
    letters this function leaves alone (the Kelvin sign U+212A becomes "k"),
    so a statement about the lower case of a text the program does not
    write itself is made for ASCII text. *)
Definition is_ascii (s : string) : bool :=
  forallb (fun c => Nat.ltb (nat_of_ascii c) 128) (list_ascii_of_string s).

(** ** Arrays *)

(** [arr.includes(x)] on an array of strings. *)
Definition Array_includes (arr : list string) (x : string) : bool :=
  existsb (String.eqb x) arr.

(** [Array.prototype.sort(cmp)].  ECMAScript (2019 and later) requires the
    sort to be stable, and under a consistent comparator the result of a
    stable sort is determined; it is modelled as insertion sort.  An
    element [x] that stood before every element of the sorted tail goes in
    front of the first [y] with [cmp x y <= 0]. *)
Section Sort.
Context {A : Type} (cmp : A -> A -> Z).

Fixpoint sort_insert (x : A) (l : list A) : list A :=
  match l with
  | [] => [x]
  | y :: ys => if cmp x y <=? 0 then x :: y :: ys else y :: sort_insert x ys
  end.

Definition Array_sort (l : list A) : list A :=
  fold_right sort_insert [] l.
End Sort.

(** [arr.slice(0, n)]. *)
Definition slice0 {A : Type} (n : nat) (l : list A) : list A := firstn n l.

End JS.

(* ================================================================== *)
(** * Asynchronous, fallible computations over a store *)
(* ================================================================== *)

Module Effects.

(** A thrown [Error]: only its [message] is observed by the services. *)
Record Error := mkError { message : string }.

Inductive Outcome (A : Type) : Type :=
| Resolved (a : A)
| Rejected (e : Error).
Arguments Resolved {A} a.
Arguments Rejected {A} e.

(** A computation reads and updates a store [S] and either resolves to a
    value or rejects with an error; the store at the point of rejection is
    kept, as in JavaScript. *)
Definition Async (S A : Type) : Type := S -> Outcome A * S.

Definition ret {S A} (a : A) : Async S A := fun s => (Resolved a, s).

Definition throw {S A} (e : Error) : Async S A := fun s => (Rejected e, s).

Definition bind {S A B} (m : Async S A) (k : A -> Async S B) : Async S B :=
  fun s =>
    match m s with
    | (Resolved a, s') => k a s'
    | (Rejected e, s') => (Rejected e, s')
    end.

(** [try { body } catch (error) { handler }] *)
Definition try_catch {S A} (body : Async S A) (handler : Error -> Async S A)
  : Async S A :=
  fun s =>
    match body s with
    | (Resolved a, s') => (Resolved a, s')
    | (Rejected e, s') => handler e s'
    end.

Definition gets {S A} (f : S -> A) : Async S A := fun s => (Resolved (f s), s).

Definition modify {S} (f : S -> S) : Async S unit := fun s => (Resolved tt, f s).

(** Lift the stored outcome of a repository read. *)
Definition settle {S A} (f : S -> Outcome A) : Async S A := fun s => (f s, s).

Module Notations.
Notation "x <- m ;; k" := (bind m (fun x => k))
  (at level 61, m at next level, right associativity).
Notation "m ;;; k" := (bind m (fun _ => k))
    (at level 61, right associativity).
End Notations.

End Effects.

(* ================================================================== *)
(** * compliance/compliance.service.ts *)
(* ================================================================== *)

Module Compliance.
Import Effects Effects.Notations.

(** ** Interfaces and entities *)

Inductive Severity := low | medium | high | critical.
Inductive Priority := priority_low | priority_medium | priority_high | urgent.
Inductive Status := compliant | non_compliant | under_review.

Record AuditFinding := mkFinding {
  category : string;
  severity : Severity;
  description : string;
  impact : string
}.

Record AuditRecommendation := mkRecommendation {
  priority : Priority;
  title : string;
  recommendation_description : string;
  actionItems : list string;
  estimatedEffort : string
}.

Record AuditResult := mkAuditResult {
  score : Z;
  status : Status;
  findings : list AuditFinding;
  recommendations : list AuditRecommendation
}.

(** The object [{ findings, recommendations, deduction }] every check
    returns. *)
Record CheckResult := mkCheck {
  check_findings : list AuditFinding;
  check_recommendations : list AuditRecommendation;
  deduction : Z
}.

(** Only the [status] column of a privacy policy is read. *)
Record PrivacyPolicy := mkPolicy { policy_status : string }.

(** Only [legalBasis] and [retentionPeriod] of a data collection point
    are read; both may be missing. *)
Record DataCollectionPoint := mkPoint {
  legalBasis : option string;
  retentionPeriod : option Z
}.

Record Merchant := mkMerchant {
  merchant_id : string;
  complianceScore : Z
}.

(** [auditData] is only ever set to [{ error: message }]. *)
Record AuditData := mkAuditData { error : string }.

Record ComplianceAudit := mkAudit {
  audit_id : option nat;           (* generated by the first save *)
  merchant : Merchant;
  auditType : string;
  audit_status : string;
  riskScore : option Z;
  audit_findings : option (list AuditFinding);
  audit_recommendations : option (list AuditRecommendation);
  auditData : option AuditData;
  completedAt : option Z
}.

(** ** The store behind the injected repositories

    The two tables the service writes ([merchants], [audits]) are kept as
    rows, and writes succeed.  The reads of the checks are given by their
    outcome, so that any of them may reject: the policy read by merchant
    id, and the reads of data collection points by merchant id and by the
    number of such reads made so far (the three checks read the table one
    after the other).  [scoreUpdates] records the calls of
    [updateComplianceScore], [now] is what [new Date()] returns. *)
Record World := mkWorld {
  merchants : list Merchant;
  audits : list ComplianceAudit;
  policyRows : string -> Outcome (list PrivacyPolicy);
  dataPointRows : nat -> string -> Outcome (list DataCollectionPoint);
  dataPointReads : nat;
  now : Z;
  scoreUpdates : list (string * Z)
}.

Definition set_audits (rows : list ComplianceAudit) (w : World) : World :=
  mkWorld (merchants w) rows (policyRows w) (dataPointRows w)
          (dataPointReads w) (now w) (scoreUpdates w).

Definition set_merchants (rows : list Merchant) (w : World) : World :=
  mkWorld rows (audits w) (policyRows w) (dataPointRows w)
          (dataPointReads w) (now w) (scoreUpdates w).

Definition count_read (w : World) : World :=
  mkWorld (merchants w) (audits w) (policyRows w) (dataPointRows w)
          (S (dataPointReads w)) (now w) (scoreUpdates w).

Definition log_update (u : string * Z) (w : World) : World :=
  mkWorld (merchants w) (audits w) (policyRows w) (dataPointRows w)
          (dataPointReads w) (now w) (scoreUpdates w ++ [u])%list.

(** [policyRepository.find({ where: { merchant: { id } }, order: ... })] *)
Definition policyRepository_find (merchantId : string)
  : Async World (list PrivacyPolicy) :=
  settle (fun w => policyRows w merchantId).

(** [dataPointRepository.find({ where: { merchant: { id } } })] *)
Definition dataPointRepository_find (merchantId : string)
  : Async World (list DataCollectionPoint) :=
  fun w => (dataPointRows w (dataPointReads w) merchantId, count_read w).

(** [merchantsService.findById] *)
Definition merchantsService_findById (id : string) : Async World Merchant :=
  fun w =>
    match find (fun m => String.eqb (merchant_id m) id) (merchants w) with
    | Some m => (Resolved m, w)
    | None =>
        (Rejected (mkError ("Merchant with ID " ++ id ++ " not found")), w)
    end.

(** [merchantsService.updateComplianceScore] *)
Definition merchantsService_updateComplianceScore
    (merchantId : string) (newScore : Z) : Async World unit :=
  modify (fun w =>
    log_update (merchantId, newScore)
      (set_merchants
         (map (fun m => if String.eqb (merchant_id m) merchantId
                        then mkMerchant (merchant_id m) newScore else m)
              (merchants w)) w)).

(** [auditRepository.create({ merchant, auditType, status })] *)
Definition auditRepository_create
    (m : Merchant) (type st : string) : ComplianceAudit :=
  mkAudit None m type st None None None None None.

Definition fresh_id (rows : list ComplianceAudit) : nat :=
  S (fold_right (fun r acc =>
                   match audit_id r with
                   | Some i => Nat.max i acc
                   | None => acc
                   end) 0%nat rows).

Definition with_id (i : nat) (a : ComplianceAudit) : ComplianceAudit :=
  mkAudit (Some i) (merchant a) (auditType a) (audit_status a) (riskScore a)
          (audit_findings a) (audit_recommendations a) (auditData a)
          (completedAt a).

(** [auditRepository.save(audit)]: insert with a generated id when the
    entity has none, update the row of that id otherwise. *)
Definition auditRepository_save (audit : ComplianceAudit)
  : Async World ComplianceAudit :=
  fun w =>
    match audit_id audit with
    | None =>
        let saved := with_id (fresh_id (audits w)) audit in
        (Resolved saved, set_audits (audits w ++ [saved])%list w)
    | Some i =>
        (Resolved audit,
         set_audits
           (map (fun r => match audit_id r with
                          | Some j => if Nat.eqb i j then audit else r
                          | None => r
                          end) (audits w)) w)
    end.

(** ** The checks *)

(** [!point.legalBasis] and [!point.retentionPeriod] *)
Definition no_string (s : option string) : bool :=
  match s with
  | None => true
  | Some s => String.eqb s ""
  end.

Definition no_number (n : option Z) : bool :=
  match n with
  | None => true
  | Some n => n =? 0
  end.

Definition checkPrivacyPolicy (merchantId : string)
  : Async World CheckResult :=
  policies <- policyRepository_find merchantId ;;
  ret
    match policies with
    | [] =>
        mkCheck
          [ mkFinding "Privacy Policy" critical "No privacy policy found"
              "Legal requirement violation - GDPR Article 13/14" ]
          [ mkRecommendation urgent "Create Privacy Policy"
              "Generate a GDPR-compliant privacy policy"
              [ "Use AI policy generator"; "Review legal requirements";
                "Publish policy" ]
              "2-4 hours" ]
          30
    | latestPolicy :: _ =>
        if negb (String.eqb (policy_status latestPolicy) "published")
        then
          mkCheck
            [ mkFinding "Privacy Policy" high
                "Privacy policy exists but is not published"
                "Policy not accessible to data subjects" ]
            [] 15
        else mkCheck [] [] 0
    end.

Definition checkDataMapping (merchantId : string)
  : Async World CheckResult :=
  dataPoints <- dataPointRepository_find merchantId ;;
  ret
    (if Nat.eqb (List.length dataPoints) 0
     then
       mkCheck
         [ mkFinding "Data Mapping" high "No data collection points mapped"
             "Cannot demonstrate data processing compliance" ]
         [ mkRecommendation priority_high "Map Data Collection Points"
             "Identify and document all personal data collection"
             [ "Audit data collection forms";
               "Document processing purposes"; "Define legal basis" ]
             "4-8 hours" ]
         25
     else mkCheck [] [] 0).

Definition checkLegalBasis (merchantId : string)
  : Async World CheckResult :=
  dataPoints <- dataPointRepository_find merchantId ;;
  let pointsWithoutBasis :=
    filter (fun point => no_string (legalBasis point)) dataPoints in
  ret
    (if Nat.ltb 0 (List.length pointsWithoutBasis)
     then
       mkCheck
         [ mkFinding "Legal Basis" critical
             (JS.toString (List.length pointsWithoutBasis)
                ++ " data collection points lack legal basis")
             "GDPR Article 6 violation - unlawful processing" ]
         [] 20
     else mkCheck [] [] 0).

Definition checkRetentionPolicies (merchantId : string)
  : Async World CheckResult :=
  dataPoints <- dataPointRepository_find merchantId ;;
  let pointsWithoutRetention :=
    filter (fun point => no_number (retentionPeriod point)) dataPoints in
  ret
    (if Nat.ltb 0 (List.length pointsWithoutRetention)
     then
       mkCheck
         [ mkFinding "Data Retention" medium
             (JS.toString (List.length pointsWithoutRetention)
                ++ " data points lack retention policies")
             "GDPR Article 5(1)(e) - storage limitation principle" ]
         [] 10
     else mkCheck [] [] 0).

Definition determineComplianceStatus (score : Z) : Status :=
  if 80 <=? score then compliant
  else if 60 <=? score then under_review
  else non_compliant.

Definition performAuditChecks (merchantId : string)
  : Async World AuditResult :=
  let findings : list AuditFinding := [] in
  let recommendations : list AuditRecommendation := [] in
  let totalScore := 100 in
  (* Check privacy policy *)
  policyCheck <- checkPrivacyPolicy merchantId ;;
  let findings := (findings ++ check_findings policyCheck)%list in
  let recommendations :=
    (recommendations ++ check_recommendations policyCheck)%list in
  let totalScore := totalScore - deduction policyCheck in
  (* Check data mapping *)
  dataCheck <- checkDataMapping merchantId ;;
  let findings := (findings ++ check_findings dataCheck)%list in
  let recommendations :=
    (recommendations ++ check_recommendations dataCheck)%list in
  let totalScore := totalScore - deduction dataCheck in
  (* Check legal basis coverage *)
  legalCheck <- checkLegalBasis merchantId ;;
  let findings := (findings ++ check_findings legalCheck)%list in
  let recommendations :=
    (recommendations ++ check_recommendations legalCheck)%list in
  let totalScore := totalScore - deduction legalCheck in
  (* Check retention policies *)
  retentionCheck <- checkRetentionPolicies merchantId ;;
  let findings := (findings ++ check_findings retentionCheck)%list in
  let recommendations :=
    (recommendations ++ check_recommendations retentionCheck)%list in
  let totalScore := totalScore - deduction retentionCheck in
  let finalScore := Z.max 0 (Z.min 100 totalScore) in
  let status := determineComplianceStatus finalScore in
  ret (mkAuditResult finalScore status findings recommendations).

(** The assignments of the success path and of the [catch] block. *)
Definition completed (audit : ComplianceAudit) (r : AuditResult) (date : Z)
  : ComplianceAudit :=
  mkAudit (audit_id audit) (merchant audit) (auditType audit)
          "completed" (Some (100 - score r)) (Some (findings r))
          (Some (recommendations r)) (auditData audit) (Some date).

Definition failed (audit : ComplianceAudit) (e : Error) : ComplianceAudit :=
  mkAudit (audit_id audit) (merchant audit) (auditType audit)
          "failed" (riskScore audit) (audit_findings audit)
          (audit_recommendations audit) (Some (mkAuditData (message e)))
          (completedAt audit).

(** In the [try] block only [performAuditChecks] can reject (the writes
    that follow it succeed), so the [audit] the handler sees is the one
    saved before the block. *)
Definition runComplianceAudit (merchantId : string)
  : Async World ComplianceAudit :=
  merchant <- merchantsService_findById merchantId ;;
  (* Create new audit record *)
  let audit := auditRepository_create merchant "comprehensive" "processing" in
  audit <- auditRepository_save audit ;;
  try_catch
    ((* Run audit checks *)
     auditResult <- performAuditChecks merchantId ;;
     (* Update audit with results *)
     date <- gets now ;;
     let audit := completed audit auditResult date in
     auditRepository_save audit ;;;
     (* Update merchant compliance score *)
     merchantsService_updateComplianceScore merchantId (score auditResult) ;;;
     ret audit)
    (fun error =>
       let audit := failed audit error in
       auditRepository_save audit ;;;
       throw error).

(** ** The aggregate in the specification's words *)

(** The deduction each check contributes when its condition holds: no policy
    30, a latest policy that is not published 15, no data collection point
    25, a point without a legal basis 20, a point without a retention
    period 10. *)
Definition spec_policy_deduction (policies : list PrivacyPolicy) : Z :=
  match policies with
  | [] => 30
  | latest :: _ =>
      if String.eqb (policy_status latest) "published" then 0 else 15
  end.

Definition spec_mapping_deduction (points : list DataCollectionPoint) : Z :=
  match points with
  | [] => 25
  | _ :: _ => 0
  end.

Definition spec_legal_deduction (points : list DataCollectionPoint) : Z :=
  if existsb (fun p => no_string (legalBasis p)) points then 20 else 0.

Definition spec_retention_deduction (points : list DataCollectionPoint) : Z :=
  if existsb (fun p => no_number (retentionPeriod p)) points then 10 else 0.

Definition clamp (x lo hi : Z) : Z := Z.max lo (Z.min hi x).

(** The merchant row [findById] returns. *)
Definition merchantRow (w : World) (id : string) : option Merchant :=
  find (fun m => String.eqb (merchant_id m) id) (merchants w).

End Compliance.

(* ================================================================== *)
(** * regulatory/regulatory-knowledge.service.ts *)
(* ================================================================== *)

Module Regulatory.

Inductive RegulationType := GDPR | CCPA | PIPEDA | UK_GDPR | LGPD | PDPA.

Inductive RuleCategory :=
| DATA_COLLECTION | CONSENT_MANAGEMENT | DATA_RETENTION | DATA_SUBJECT_RIGHTS
| CROSS_BORDER_TRANSFER | BREACH_NOTIFICATION | PRIVACY_POLICY
| COOKIE_MANAGEMENT.

(** The string value of each member of the [RuleCategory] enum. *)
Definition RuleCategory_value (c : RuleCategory) : string :=
  match c with
  | DATA_COLLECTION => "data_collection"
  | CONSENT_MANAGEMENT => "consent_management"
  | DATA_RETENTION => "data_retention"
  | DATA_SUBJECT_RIGHTS => "data_subject_rights"
  | CROSS_BORDER_TRANSFER => "cross_border_transfer"
  | BREACH_NOTIFICATION => "breach_notification"
  | PRIVACY_POLICY => "privacy_policy"
  | COOKIE_MANAGEMENT => "cookie_management"
  end.

Inductive ComplianceRequirement := MANDATORY | RECOMMENDED | OPTIONAL.

(** The columns of a rule the analysis reads. *)
Record RegulatoryRule := mkRule {
  regulation : RegulationType;
  category : RuleCategory;
  title : string;
  requirement : ComplianceRequirement
}.

Record RegulatoryQueryDto := mkQuery {
  query_regulation : option RegulationType;
  query_category : option RuleCategory;
  query_businessType : option string;
  query_jurisdiction : option string;
  query_dataTypes : option (list string)
}.

Inductive CurrentStatus := compliant | partial | non_compliant.
Inductive RiskLevel := low | medium | high | critical.

Record ComplianceGap := mkGap {
  rule : RegulatoryRule;
  currentStatus : CurrentStatus;
  riskLevel : RiskLevel;
  actionRequired : string;
  deadline : option Z              (* milliseconds since the epoch *)
}.

Record ComplianceGapAnalysis := mkAnalysis {
  merchantId : string;
  applicableRules : list RegulatoryRule;
  gaps : list ComplianceGap;
  overallComplianceScore : float;
  priorityActions : list string
}.

Record MerchantData := mkMerchantData {
  businessType : string;
  jurisdiction : string;
  dataTypes : list string;
  currentPolicies : list string;
  implementedControls : list string
}.

Definition CurrentStatus_eqb (a b : CurrentStatus) : bool :=
  match a, b with
  | compliant, compliant | partial, partial | non_compliant, non_compliant =>
      true
  | _, _ => false
  end.

Definition RiskLevel_eqb (a b : RiskLevel) : bool :=
  match a, b with
  | low, low | medium, medium | high, high | critical, critical => true
  | _, _ => false
  end.

Definition getRuleWeight (requirement : ComplianceRequirement) : Z :=
  match requirement with
  | MANDATORY => 10
  | RECOMMENDED => 5
  | OPTIONAL => 1
  end.

Definition getRiskScore (riskLevel : RiskLevel) : Z :=
  match riskLevel with
  | critical => 4
  | high => 3
  | medium => 2
  | low => 1
  end.

Section Service.

(** The query of [findApplicableRules] against the rule table, and the
    instant [new Date()] returns. *)
Variable findApplicableRules : RegulatoryQueryDto -> list RegulatoryRule.
Variable now : Z.

Definition calculateDeadline (rule : RegulatoryRule) (status : CurrentStatus)
  : option Z :=
  if CurrentStatus_eqb status compliant then None
  else
    let daysToAdd :=
      match requirement rule with
      | MANDATORY => if CurrentStatus_eqb status non_compliant then 15 else 30
      | _ => 60
      end in
    Some (now + daysToAdd * 24 * 60 * 60 * 1000).

(** The three locals the [switch] on the category assigns. *)
Definition classify (rule : RegulatoryRule) (merchantData : MerchantData)
  : CurrentStatus * RiskLevel * string :=
  let currentStatus := non_compliant in
  let riskLevel := medium in
  let actionRequired := ("Implement " ++ title rule)%string in
  match category rule with
  | PRIVACY_POLICY =>
      if JS.Array_includes (currentPolicies merchantData) "privacy_policy"
      then (compliant, low, "Review and update privacy policy regularly")
      else (currentStatus, critical,
            "Create and publish privacy policy immediately")
  | CONSENT_MANAGEMENT =>
      if JS.Array_includes (implementedControls merchantData)
           "consent_management"
      then (compliant, low, actionRequired)
      else (currentStatus, high, "Implement consent management system")
  | DATA_SUBJECT_RIGHTS =>
      if JS.Array_includes (implementedControls merchantData) "dsar_workflow"
      then (partial, medium, "Enhance data subject rights workflow")
      else (currentStatus, high, "Implement data subject rights management")
  | COOKIE_MANAGEMENT =>
      if JS.Array_includes (implementedControls merchantData) "cookie_consent"
      then (compliant, low, actionRequired)
      else (currentStatus, medium, "Implement cookie consent management")
  | c =>
      if JS.Array_includes (implementedControls merchantData)
           (JS.toLowerCase (RuleCategory_value c))
      then (partial, medium, actionRequired)
      else (currentStatus, riskLevel, actionRequired)
  end.

Definition analyzeRuleCompliance
    (rule : RegulatoryRule) (merchantData : MerchantData) : ComplianceGap :=
  let '(currentStatus, riskLevel, actionRequired) :=
    classify rule merchantData in
  (* Adjust risk based on requirement level *)
  let riskLevel :=
    match requirement rule with
    | MANDATORY =>
        if CurrentStatus_eqb currentStatus non_compliant
        then
          if RiskLevel_eqb riskLevel low then medium
          else if RiskLevel_eqb riskLevel medium then high
          else critical
        else riskLevel
    | _ => riskLevel
    end in
  mkGap rule currentStatus riskLevel actionRequired
        (calculateDeadline rule currentStatus).

(** The running totals of the scoring loop.  [totalScore] only ever holds a
    multiple of one half; it is kept exactly, counted in halves. *)
Record Totals := mkTotals {
  loop_gaps : list ComplianceGap;
  totalScore_halves : Z;
  maxScore : Z
}.

Definition scoreStep (merchantData : MerchantData)
    (acc : Totals) (rule : RegulatoryRule) : Totals :=
  let analysis := analyzeRuleCompliance rule merchantData in
  let gaps := (loop_gaps acc ++ [analysis])%list in
  (* Calculate scores *)
  let maxScore := maxScore acc + getRuleWeight (requirement rule) in
  let totalScore :=
    match currentStatus analysis with
    | compliant =>
        totalScore_halves acc + 2 * getRuleWeight (requirement rule)
    | partial =>
        totalScore_halves acc + getRuleWeight (requirement rule)
    | non_compliant => totalScore_halves acc
    end in
  mkTotals gaps totalScore maxScore.

Definition scoreLoop (applicableRules : list RegulatoryRule)
    (merchantData : MerchantData) : Totals :=
  fold_left (scoreStep merchantData) applicableRules (mkTotals [] 0 0).

(** The number [totalScore] as the program holds it. *)
Definition totalScore (t : Totals) : float :=
  (JS.Z2F (totalScore_halves t) / 2)%float.

(** [maxScore > 0 ? Math.round((totalScore / maxScore) * 100) : 100] *)
Definition scoreOf (t : Totals) : float :=
  if 0 <? maxScore t
  then JS.Math_round ((totalScore t / JS.Z2F (maxScore t)) * 100)%float
  else 100%float.

(** The chain [filter], [sort], [slice] before the final [map]. *)
Definition priorityGaps (gaps : list ComplianceGap) : list ComplianceGap :=
  JS.slice0 5
    (JS.Array_sort
       (fun a b => getRiskScore (riskLevel b) - getRiskScore (riskLevel a))
       (filter (fun gap => RiskLevel_eqb (riskLevel gap) critical
                           || RiskLevel_eqb (riskLevel gap) high)
               gaps)).

Definition performGapAnalysis (merchantId : string)
    (merchantData : MerchantData) : ComplianceGapAnalysis :=
  (* Find applicable rules based on merchant data *)
  let applicableRules :=
    findApplicableRules
      (mkQuery None None (Some (businessType merchantData))
               (Some (jurisdiction merchantData))
               (Some (dataTypes merchantData))) in
  let totals := scoreLoop applicableRules merchantData in
  let overallComplianceScore := scoreOf totals in
  (* Generate priority actions *)
  let priorityActions := map actionRequired (priorityGaps (loop_gaps totals)) in
  mkAnalysis merchantId applicableRules (loop_gaps totals)
             overallComplianceScore priorityActions.

End Service.

(** ** The scoring rules in the specification's words *)

(** [weight(requirement)]: mandatory 10, recommended 5, optional 1. *)
Definition spec_weight (r : ComplianceRequirement) : Q :=
  match r with
  | MANDATORY => 10
  | RECOMMENDED => 5
  | OPTIONAL => 1
  end%Q.

Definition Qsum (l : list Q) : Q := fold_right Qplus 0%Q l.

(** [maxScore]: the sum of the weights of all applicable rules. *)
Definition spec_maxScore (rules : list RegulatoryRule) : Q :=
  Qsum (map (fun r => spec_weight (requirement r)) rules).

(** [totalScore]: the weight of each compliant rule, half the weight of each
    partial rule, nothing for a non-compliant one. *)
Definition spec_totalScore (now : Z) (rules : list RegulatoryRule)
    (merchantData : MerchantData) : Q :=
  Qsum (map (fun r =>
               match currentStatus (analyzeRuleCompliance now r merchantData)
               with
               | compliant => spec_weight (requirement r)
               | partial => spec_weight (requirement r) * (1 # 2)
               | non_compliant => 0
               end%Q) rules).

(** [round(totalScore / maxScore * 100)], 100 when [maxScore] is 0, read as
    arithmetic on exact numbers, halves going up. *)
Definition spec_exactScore (totalScore maxScore : Q) : Z :=
  if Qeq_bool maxScore 0 then 100
  else Qfloor (totalScore / maxScore * 100 + (1 # 2))%Q.

(** The same formula as the program evaluates it,
    [Math.round((totalScore / maxScore) * 100)] on binary64 numbers:
    [totalScore], a multiple of one half, and [maxScore], an integer, are
    held exactly; the quotient is rounded to a binary64 number, and so is
    its product with 100. *)
Definition spec_binary64Score (totalScore maxScore : Q) : float :=
  if Qeq_bool maxScore 0 then 100%float
  else JS.Math_round
         ((JS.Z2F (Qfloor (2 * totalScore)%Q) / 2 / JS.Z2F (Qfloor maxScore))
          * 100)%float.




Definition high_or_critical (g : ComplianceGap) : bool :=
  RiskLevel_eqb (riskLevel g) critical || RiskLevel_eqb (riskLevel g) high.

(** The comparator of the sort, and the two risk tiers it orders. *)
Definition byRisk (a b : ComplianceGap) : Z :=
  getRiskScore (riskLevel b) - getRiskScore (riskLevel a).

Definition is_critical (g : ComplianceGap) : bool :=
  RiskLevel_eqb (riskLevel g) critical.

Definition is_high (g : ComplianceGap) : bool :=
  RiskLevel_eqb (riskLevel g) high.

(** Descending by [riskRank]. *)
Definition riskOrder (a b : ComplianceGap) : Prop :=
  getRiskScore (riskLevel a) >= getRiskScore (riskLevel b).

End Regulatory.

(* ================================================================== *)
(** * third-party-apps/third-party-app-risk.service.ts *)
(* ================================================================== *)

Module ThirdPartyApps.

Inductive RiskLevel := LOW | MEDIUM | HIGH | CRITICAL.
Inductive DataAccessLevel := READ_ONLY | READ_WRITE | FULL_ACCESS | ADMIN.
Inductive Severity := low | medium | high | critical.
Inductive Priority := priority_low | priority_medium | priority_high | urgent.

(** The [jsonb] columns of an app, as far as the analysis reads them. *)
Record Permissions := mkPermissions { scopes : list string }.

Record RiskFactors := mkRiskFactors {
  dataTypes : option (list string);
  encryptionStatus : string;
  privacyPolicyUrl : option string;
  dataRetentionPeriod : option string
}.

Record ComplianceIssue := mkIssue {
  issue_severity : Severity;
  issue_category : string;
  issue_description : string;
  issue_recommendation : string;
  resolved : bool
}.

Record ThirdPartyApp := mkApp {
  app_appId : string;
  app_appName : string;
  developer : option string;
  permissions : option Permissions;
  dataAccessLevel : DataAccessLevel;
  app_riskLevel : RiskLevel;
  app_riskScore : float;
  app_riskFactors : option RiskFactors;
  complianceIssues : list ComplianceIssue;
  lastRiskAssessment : option Z
}.

Record RiskFactor := mkFactor {
  category : string;
  severity : Severity;
  description : string;
  impact : string
}.

Record AppComplianceGap := mkAppGap {
  regulation : string;
  requirement : string;
  gap_description : string;
  remediation : string
}.

Record AppRiskAnalysis := mkAnalysis {
  appId : string;
  appName : string;
  riskLevel : RiskLevel;
  riskScore : float;
  riskFactors : list RiskFactor;
  recommendations : list string;
  complianceGaps : list AppComplianceGap
}.

(** What each sub-analysis returns: [{ factors, score }].  A sub-score is a
    sum of a few of the integers 30, 40, 60, 70, 80. *)
Record SubRisk := mkSub { factors : list RiskFactor; score : Z }.

Record Recommendation := mkRecommendation {
  rec_priority : Priority;
  rec_category : string;
  rec_description : string;
  rec_actionItems : list string;
  rec_affectedApps : list string
}.

Record FleetGap := mkFleetGap {
  fleet_regulation : string;
  fleet_requirement : string;
  fleet_affectedApps : list string;
  fleet_riskLevel : RiskLevel;
  fleet_remediation : string
}.

Record RiskBreakdown := mkBreakdown {
  dataAccess : float;
  permissionsRisk : float;
  compliance : float;
  security : float;
  reputation : float
}.

Record AppRiskAssessment := mkAssessment {
  merchantId : string;
  totalApps : Z;
  highRiskApps : Z;
  mediumRiskApps : Z;
  lowRiskApps : Z;
  overallRiskScore : float;
  riskBreakdown : RiskBreakdown;
  assessment_recommendations : list Recommendation;
  assessment_complianceGaps : list FleetGap
}.

(** Risk scoring weights *)
Definition riskWeights : RiskBreakdown :=
  mkBreakdown 0.3%float 0.25%float 0.2%float 0.15%float 0.1%float.

(** Known high-risk permission patterns *)
Definition highRiskPermissions : list string :=
  [ "read_customers"; "write_customers"; "read_orders"; "write_orders";
    "read_all_orders"; "write_all_orders"; "read_users"; "write_users";
    "read_script_tags"; "write_script_tags" ].

Definition DataAccessLevel_eqb (a b : DataAccessLevel) : bool :=
  match a, b with
  | READ_ONLY, READ_ONLY | READ_WRITE, READ_WRITE
  | FULL_ACCESS, FULL_ACCESS | ADMIN, ADMIN => true
  | _, _ => false
  end.

(** [!s] for a string that may be missing. *)
Definition no_string (s : option string) : bool :=
  match s with
  | None => true
  | Some s => String.eqb s ""
  end.

(** [s === lit] for a string that may be missing. *)
Definition is_string (s : option string) (lit : string) : bool :=
  match s with
  | None => false
  | Some s => String.eqb s lit
  end.

Definition analyzeDataAccessRisk (app : ThirdPartyApp) : SubRisk :=
  let factors := [] in
  let score := 0 in
  let '(factors, score) :=
    if DataAccessLevel_eqb (dataAccessLevel app) FULL_ACCESS
    then ((factors ++ [ mkFactor "Data Access" critical
                          "App has full access to store data"
                          "Complete data exposure risk" ])%list,
          score + 80)
    else if DataAccessLevel_eqb (dataAccessLevel app) READ_WRITE
    then ((factors ++ [ mkFactor "Data Access" high
                          "App can read and modify store data"
                          "Data modification and exposure risk" ])%list,
          score + 60)
    else (factors, score) in
  (* Check for sensitive data access *)
  let sensitiveData :=
    match app_riskFactors app with
    | Some rf =>
        match dataTypes rf with
        | Some types =>
            Some (filter (fun type =>
                            JS.Array_includes
                              [ "personal_data"; "payment_information" ] type)
                         types)
        | None => None
        end
    | None => None
    end in
  let '(factors, score) :=
    match sensitiveData with
    | Some (_ :: _) =>
        ((factors ++ [ mkFactor "Sensitive Data" high
                         "App accesses sensitive personal or payment data"
                         "Privacy and security compliance risk" ])%list,
         score + 40)
    | _ => (factors, score)
    end in
  mkSub factors score.

Definition analyzePermissionRisk (app : ThirdPartyApp) : SubRisk :=
  let scopes :=
    match permissions app with
    | Some p => scopes p
    | None => []
    end in
  let highRiskCount :=
    Z.of_nat
      (List.length
         (filter (fun scope =>
                    existsb (fun pattern => JS.includes scope pattern)
                            highRiskPermissions)
                 scopes)) in
  if 3 <? highRiskCount
  then mkSub [ mkFactor "Permissions" high
                 "App requests excessive high-risk permissions"
                 "Broad access to sensitive operations" ] 70
  else if 0 <? highRiskCount
  then mkSub [ mkFactor "Permissions" medium
                 "App requests some high-risk permissions"
                 "Limited access to sensitive operations" ] 40
  else mkSub [] 0.

Definition analyzeComplianceRisk (app : ThirdPartyApp) : SubRisk :=
  let factors := [] in
  let score := 0 in
  let '(factors, score) :=
    if no_string (match app_riskFactors app with
                  | Some rf => privacyPolicyUrl rf
                  | None => None
                  end)
    then ((factors ++ [ mkFactor "Compliance" high "App lacks privacy policy"
                          "GDPR compliance risk" ])%list,
          score + 60)
    else (factors, score) in
  let '(factors, score) :=
    if is_string (match app_riskFactors app with
                  | Some rf => dataRetentionPeriod rf
                  | None => None
                  end) "unknown"
    then ((factors ++ [ mkFactor "Data Retention" medium
                          "Data retention period not specified"
                          "Data minimization compliance risk" ])%list,
          score + 30)
    else (factors, score) in
  mkSub factors score.

Definition analyzeSecurityRisk (app : ThirdPartyApp) : SubRisk :=
  if is_string (match app_riskFactors app with
                | Some rf => Some (encryptionStatus rf)
                | None => None
                end) "unknown"
  then mkSub [ mkFactor "Security" medium "Encryption status unknown"
                 "Data security risk" ] 30
  else mkSub [] 0.

Definition analyzeReputationRisk (app : ThirdPartyApp) : SubRisk :=
  if no_string (developer app) || is_string (developer app) "Unknown Developer"
  then mkSub [ mkFactor "Developer Reputation" medium
                 "Unknown or unverified developer"
                 "Trust and reliability concerns" ] 40
  else mkSub [] 0.

Definition calculateRiskLevel (score : float) : RiskLevel :=
  if JS.ge score 80 then CRITICAL
  else if JS.ge score 60 then HIGH
  else if JS.ge score 40 then MEDIUM
  else LOW.

Definition generateAppRecommendations
    (app : ThirdPartyApp) (riskFactors : list RiskFactor) : list string :=
  ((if existsb (fun f => String.eqb (category f) "Data Access") riskFactors
    then [ "Review and minimize app data access permissions" ] else [])
   ++ (if no_string (match app_riskFactors app with
                     | Some rf => privacyPolicyUrl rf
                     | None => None
                     end)
       then [ "Request privacy policy from app developer" ] else [])
   ++ (if JS.gt (app_riskScore app) 70
       then [ "Consider removing or replacing this high-risk app" ]
       else []))%list.

Definition identifyAppComplianceGaps (app : ThirdPartyApp)
  : list AppComplianceGap :=
  if no_string (match app_riskFactors app with
                | Some rf => privacyPolicyUrl rf
                | None => None
                end)
  then [ mkAppGap "GDPR" "Article 28 - Processor agreements"
           "Third-party processor lacks privacy policy"
           "Obtain data processing agreement and privacy policy" ]
  else [].

(** The weighted sum, accumulated in the order of the source. *)
Definition weightedScore (d p c s r : Z) : float :=
  let riskScore := 0%float in
  let riskScore := (riskScore + JS.Z2F d * dataAccess riskWeights)%float in
  let riskScore := (riskScore + JS.Z2F p * permissionsRisk riskWeights)%float in
  let riskScore := (riskScore + JS.Z2F c * compliance riskWeights)%float in
  let riskScore := (riskScore + JS.Z2F s * security riskWeights)%float in
  let riskScore := (riskScore + JS.Z2F r * reputation riskWeights)%float in
  riskScore.

Definition analyzeAppRisk (app : ThirdPartyApp) : AppRiskAnalysis :=
  (* Analyze data access permissions *)
  let dataAccessRisk := analyzeDataAccessRisk app in
  (* Analyze permission scope *)
  let permissionRisk := analyzePermissionRisk app in
  (* Analyze compliance posture *)
  let complianceRisk := analyzeComplianceRisk app in
  (* Analyze security factors *)
  let securityRisk := analyzeSecurityRisk app in
  (* Analyze developer reputation *)
  let reputationRisk := analyzeReputationRisk app in
  let riskFactors :=
    (factors dataAccessRisk ++ factors permissionRisk
       ++ factors complianceRisk ++ factors securityRisk
       ++ factors reputationRisk)%list in
  let riskScore :=
    weightedScore (score dataAccessRisk) (score permissionRisk)
                  (score complianceRisk) (score securityRisk)
                  (score reputationRisk) in
  let finalRiskScore :=
    JS.Math_min 100 (JS.Math_max 0 (JS.Math_round riskScore)) in
  let riskLevel := calculateRiskLevel finalRiskScore in
  mkAnalysis (app_appId app) (app_appName app) riskLevel finalRiskScore
             riskFactors
             (generateAppRecommendations app riskFactors)
             (identifyAppComplianceGaps app).

Definition generateRecommendations (analyses : list AppRiskAnalysis)
  : list Recommendation :=
  let highRiskApps := filter (fun a => JS.gt (riskScore a) 70) analyses in
  if Nat.ltb 0 (List.length highRiskApps)
  then [ mkRecommendation urgent "High Risk Apps"
           (JS.toString (List.length highRiskApps)
              ++ " apps pose high security risks")%string
           [ "Review high-risk app permissions";
             "Consider removing unnecessary apps";
             "Implement additional monitoring" ]
           (map appName highRiskApps) ]
  else [].

Definition identifyComplianceGaps (analyses : list AppRiskAnalysis)
  : list FleetGap :=
  let appsWithoutPrivacyPolicy :=
    filter (fun a =>
              negb (existsb (fun g => String.eqb (regulation g) "GDPR")
                            (complianceGaps a)))
           analyses in
  if Nat.ltb 0 (List.length appsWithoutPrivacyPolicy)
  then [ mkFleetGap "GDPR" "Data Processing Agreements"
           (map appName appsWithoutPrivacyPolicy) HIGH
           "Obtain data processing agreements from all third-party apps" ]
  else [].

(** [Math.round(analyses.reduce((sum, a) => sum + a.riskScore * w, 0)
                / analyses.length)] *)
Definition breakdownOf (w : float) (analyses : list AppRiskAnalysis) : float :=
  JS.Math_round
    (fold_left (fun sum a => (sum + riskScore a * w)%float) analyses 0%float
     / JS.Z2F (Z.of_nat (List.length analyses)))%float.

Definition calculateRiskBreakdown (analyses : list AppRiskAnalysis)
  : RiskBreakdown :=
  mkBreakdown (breakdownOf 0.3%float analyses)
              (breakdownOf 0.25%float analyses)
              (breakdownOf 0.2%float analyses)
              (breakdownOf 0.15%float analyses)
              (breakdownOf 0.1%float analyses).

(** The running state of the loop over the apps. *)
Record Tally := mkTally {
  riskAnalyses : list AppRiskAnalysis;
  savedApps : list ThirdPartyApp;
  totalRiskScore : float;
  tally_high : Z;
  tally_medium : Z;
  tally_low : Z
}.

Definition assessStep (date : Z) (t : Tally) (app : ThirdPartyApp) : Tally :=
  let analysis := analyzeAppRisk app in
  (* Update app with risk assessment *)
  let app :=
    mkApp (app_appId app) (app_appName app) (developer app) (permissions app)
          (dataAccessLevel app) (riskLevel analysis) (riskScore analysis)
          (app_riskFactors app)
          (map (fun factor =>
                  mkIssue (severity factor) (category factor)
                          (description factor)
                          ("Address " ++ JS.toLowerCase (category factor)
                             ++ " risk")%string
                          false)
               (riskFactors analysis))
          (Some date) in
  (* Count by risk level *)
  let '(h, m, l) :=
    match riskLevel analysis with
    | HIGH | CRITICAL => (tally_high t + 1, tally_medium t, tally_low t)
    | MEDIUM => (tally_high t, tally_medium t + 1, tally_low t)
    | LOW => (tally_high t, tally_medium t, tally_low t + 1)
    end in
  mkTally (riskAnalyses t ++ [analysis])%list (savedApps t ++ [app])%list
          (totalRiskScore t + riskScore analysis)%float h m l.

(** [apps] is what the repository returns for the merchant's active apps;
    the result is the saved assessment and the apps as saved. *)
Definition performRiskAssessment (date : Z) (merchantId : string)
    (apps : list ThirdPartyApp) : AppRiskAssessment * list ThirdPartyApp :=
  let t := fold_left (assessStep date) apps
                     (mkTally [] [] 0%float 0 0 0) in
  let overallRiskScore :=
    if Nat.ltb 0 (List.length apps)
    then (totalRiskScore t / JS.Z2F (Z.of_nat (List.length apps)))%float
    else 0%float in
  (* Generate recommendations *)
  let recommendations := generateRecommendations (riskAnalyses t) in
  (* Identify compliance gaps *)
  let complianceGaps := identifyComplianceGaps (riskAnalyses t) in
  (* Calculate risk breakdown *)
  let riskBreakdown := calculateRiskBreakdown (riskAnalyses t) in
  (mkAssessment merchantId (Z.of_nat (List.length apps))
                (tally_high t) (tally_medium t) (tally_low t)
                (JS.Math_round overallRiskScore) riskBreakdown
                recommendations complianceGaps,
   savedApps t).

(** ** The composite score in the specification's words *)

(** [clamp(round(sum of subscore_i * weight_i), 0, 100)] with the weights
    0.30, 0.25, 0.20, 0.15, 0.10 as exact rationals, [round] to the nearest
    integer with halves going up. *)
Definition spec_weightedSum (d p c s r : Z) : Q :=
  (inject_Z d * (30 # 100) + inject_Z p * (25 # 100) + inject_Z c * (20 # 100)
   + inject_Z s * (15 # 100) + inject_Z r * (10 # 100))%Q.

Definition spec_round (q : Q) : Z := Qfloor (q + (1 # 2))%Q.

Definition spec_clamp (x lo hi : Z) : Z := Z.max lo (Z.min hi x).

Definition spec_riskScore (d p c s r : Z) : Z :=
  spec_clamp (spec_round (spec_weightedSum d p c s r)) 0 100.

(** [riskLevelFromScore]: at least 80 critical, at least 60 high, at least
    40 medium, low below. *)
Definition spec_riskLevel (score : Z) : RiskLevel :=
  if 80 <=? score then CRITICAL
  else if 60 <=? score then HIGH
  else if 40 <=? score then MEDIUM
  else LOW.

End ThirdPartyApps.

(* ================================================================== *)
(** * monitoring/monitoring.service.ts *)
(* ================================================================== *)

Module Monitoring.
Import Effects.

Inductive AlertSeverity := LOW | MEDIUM | HIGH | CRITICAL.

Record Issue := mkIssue {
  type : string;
  severity : AlertSeverity;
  description : string;
  recommendation : string
}.

Record ComplianceHealthCheck := mkHealthCheck {
  merchantId : string;
  overallScore : Z;
  issues : list Issue;
  lastAuditDate : option Z;
  nextAuditDue : option Z
}.

(** A number of days, or [Infinity]. *)
Inductive Days := Finite (d : Z) | Infinity.

(** [days > n] *)
Definition Days_gt (days : Days) (n : Z) : bool :=
  match days with
  | Finite d => n <? d
  | Infinity => true
  end.

(** What the health check reads: whether the merchant row exists, the
    [createdAt] of the merchant's latest audit (in milliseconds), the four
    counts the repositories return, [Date.now()] when the age of the audit
    is taken and [new Date()] when the result is built. *)
Record Readings := mkReadings {
  merchantFound : string -> bool;
  lastAuditCreatedAt : string -> option Z;
  Date_now : Z;
  pendingDSRCount : string -> Z;
  overdueDSRCount : string -> Z;
  recentWithdrawalCount : string -> Z;
  recentBreachCount : string -> Z;
  new_Date : Z
}.

Definition count_text (n : Z) : string := JS.toString (Z.to_nat n).

Definition performComplianceHealthCheck (w : Readings) (merchantId : string)
  : Outcome ComplianceHealthCheck :=
  if negb (merchantFound w merchantId)
  then Rejected (mkError ("Merchant with ID " ++ merchantId ++ " not found"))
  else
    let issues : list Issue := [] in
    let overallScore := 100 in
    (* Check for recent audits *)
    let lastAudit := lastAuditCreatedAt w merchantId in
    let daysSinceLastAudit :=
      match lastAudit with
      | Some createdAt =>
          Finite ((Date_now w - createdAt) / (1000 * 60 * 60 * 24))
      | None => Infinity
      end in
    let '(issues, overallScore) :=
      if Days_gt daysSinceLastAudit 90
      then ((issues ++ [ mkIssue "audit_overdue" HIGH
                           "Compliance audit is overdue"
                           "Schedule and complete a compliance audit immediately"
                       ])%list,
            overallScore - 20)
      else if Days_gt daysSinceLastAudit 60
      then ((issues ++ [ mkIssue "audit_due_soon" MEDIUM
                           "Compliance audit due soon"
                           "Schedule a compliance audit within the next 30 days"
                       ])%list,
            overallScore - 10)
      else (issues, overallScore) in
    (* Check for pending data subject requests *)
    let pendingDSRs := pendingDSRCount w merchantId in
    let '(issues, overallScore) :=
      if 0 <? pendingDSRs
      then
        let overdueCount := overdueDSRCount w merchantId in
        if 0 <? overdueCount
        then ((issues ++ [ mkIssue "overdue_dsr" CRITICAL
                             (count_text overdueCount
                                ++ " data subject requests are overdue")
                             "Process overdue data subject requests immediately"
                         ])%list,
              overallScore - 30)
        else if 5 <? pendingDSRs
        then ((issues ++ [ mkIssue "high_pending_dsr" HIGH
                             (count_text pendingDSRs
                                ++ " pending data subject requests")
                             "Review and process pending requests" ])%list,
              overallScore - 15)
        else (issues, overallScore)
      else (issues, overallScore) in
    (* Check for recent consent withdrawals *)
    let recentWithdrawals := recentWithdrawalCount w merchantId in
    let '(issues, overallScore) :=
      if 10 <? recentWithdrawals
      then ((issues ++ [ mkIssue "high_consent_withdrawals" MEDIUM
                           (count_text recentWithdrawals
                              ++ " consent withdrawals in the last 30 days")
                           "Review consent collection practices and user experience"
                       ])%list,
            overallScore - 15)
      else (issues, overallScore) in
    (* Check for recent breach incidents *)
    let recentBreaches := recentBreachCount w merchantId in
    let '(issues, overallScore) :=
      if 0 <? recentBreaches
      then ((issues ++ [ mkIssue "recent_breaches" CRITICAL
                           (count_text recentBreaches
                              ++ " breach incidents in the last 30 days")
                           "Review breach response procedures and implement additional security measures"
                       ])%list,
            overallScore - 40)
      else (issues, overallScore) in
    (* Ensure score doesn't go below 0 *)
    let overallScore := Z.max 0 overallScore in
    let nextAuditDue :=
      match lastAudit with
      | Some createdAt => createdAt + 90 * 24 * 60 * 60 * 1000
      | None => new_Date w
      end in
    Resolved (mkHealthCheck merchantId overallScore issues lastAudit
                            (Some nextAuditDue)).

(** ** The other three checks in the specification's words *)

(** Pending requests: when any exist, an overdue one costs 30 (critical);
    otherwise more than five pending cost 15 (high). *)
Definition spec_dsr (w : Readings) (m : string) : list Issue * Z :=
  if (0 <? pendingDSRCount w m) && (0 <? overdueDSRCount w m)
  then ([ mkIssue "overdue_dsr" CRITICAL
            (count_text (overdueDSRCount w m)
               ++ " data subject requests are overdue")
            "Process overdue data subject requests immediately" ], 30)
  else if 5 <? pendingDSRCount w m
  then ([ mkIssue "high_pending_dsr" HIGH
            (count_text (pendingDSRCount w m)
               ++ " pending data subject requests")
            "Review and process pending requests" ], 15)
  else ([], 0).

(** More than ten withdrawals in the window cost 15 (medium). *)
Definition spec_withdrawals (w : Readings) (m : string) : list Issue * Z :=
  if 10 <? recentWithdrawalCount w m
  then ([ mkIssue "high_consent_withdrawals" MEDIUM
            (count_text (recentWithdrawalCount w m)
               ++ " consent withdrawals in the last 30 days")
            "Review consent collection practices and user experience" ], 15)
  else ([], 0).

(** Any breach in the window costs 40 (critical). *)
Definition spec_breaches (w : Readings) (m : string) : list Issue * Z :=
  if 0 <? recentBreachCount w m
  then ([ mkIssue "recent_breaches" CRITICAL
            (count_text (recentBreachCount w m)
               ++ " breach incidents in the last 30 days")
            "Review breach response procedures and implement additional security measures"
        ], 40)
  else ([], 0).

Definition other_issues (w : Readings) (m : string) : list Issue :=
  (fst (spec_dsr w m) ++ fst (spec_withdrawals w m)
     ++ fst (spec_breaches w m))%list.

Definition other_deductions (w : Readings) (m : string) : Z :=
  snd (spec_dsr w m) + snd (spec_withdrawals w m) + snd (spec_breaches w m).

(** Whole days between the latest audit and [Date.now()]. *)
Definition daysSince (w : Readings) (createdAt : Z) : Z :=
  (Date_now w - createdAt) / 86400000.

Definition audit_overdue : Issue :=
  mkIssue "audit_overdue" HIGH "Compliance audit is overdue"
    "Schedule and complete a compliance audit immediately".

Definition audit_due_soon : Issue :=
  mkIssue "audit_due_soon" MEDIUM "Compliance audit due soon"
    "Schedule a compliance audit within the next 30 days".

(** The staleness check: an audit more than 90 days old (or none at all)
    costs 20 (high); one more than 60 days old costs 10 (medium). *)
Definition spec_staleness (days : Days) : list Issue * Z :=
  if Days_gt days 90 then ([audit_overdue], 20)
  else if Days_gt days 60 then ([audit_due_soon], 10)
  else ([], 0).

End Monitoring.

(* ================================================================== *)
(** * Sample stores and inputs *)
(* ================================================================== *)

Module Samples.
Import Effects.

(** A merchant with no privacy policy and no data collection point. *)
Definition shop : Compliance.Merchant := Compliance.mkMerchant "shop-1" 85.

Definition emptyWorld : Compliance.World :=
  Compliance.mkWorld [shop] [] (fun _ => Resolved []) (fun _ _ => Resolved [])
                     0 1700000000000 [].

(** A draft policy and one data collection point that has neither a legal
    basis nor a retention period. *)
Definition draftWorld : Compliance.World :=
  Compliance.mkWorld [shop] []
    (fun _ => Resolved [Compliance.mkPolicy "draft"])
    (fun _ _ => Resolved [Compliance.mkPoint None None])
    0 1700000000000 [].



(** A merchant profile with a privacy policy and no control in place, a
    mandatory privacy-policy rule, an optional cookie rule and a mandatory
    consent rule. *)
Definition profile : Regulatory.MerchantData :=
  Regulatory.mkMerchantData "ecommerce" "EU" ["personal_data"]
                            ["privacy_policy"] [].

Definition policyRule : Regulatory.RegulatoryRule :=
  Regulatory.mkRule Regulatory.GDPR Regulatory.PRIVACY_POLICY
                    "Privacy Policy Publication" Regulatory.MANDATORY.

Definition cookieRule : Regulatory.RegulatoryRule :=
  Regulatory.mkRule Regulatory.GDPR Regulatory.COOKIE_MANAGEMENT
                    "Cookie Consent" Regulatory.OPTIONAL.


(** A profile and seven rules that earn 11.5 of 20 points: the mandatory
    privacy-policy rule is met (10 of 10), the recommended consent rule is
    not (0 of 5), and of five optional rules one is met (cookies, 1), one
    is partly met (data subject rights, 0.5) and three are not. *)
Definition halfwayProfile : Regulatory.MerchantData :=
  Regulatory.mkMerchantData "ecommerce" "EU" ["personal_data"]
                            ["privacy_policy"]
                            ["cookie_consent"; "dsar_workflow"].

Definition halfwayRules : list Regulatory.RegulatoryRule :=
  [ Regulatory.mkRule Regulatory.GDPR Regulatory.PRIVACY_POLICY
      "Privacy Policy Publication" Regulatory.MANDATORY;
    Regulatory.mkRule Regulatory.GDPR Regulatory.CONSENT_MANAGEMENT
      "Consent Records" Regulatory.RECOMMENDED;
    Regulatory.mkRule Regulatory.GDPR Regulatory.COOKIE_MANAGEMENT
      "Cookie Consent" Regulatory.OPTIONAL;
    Regulatory.mkRule Regulatory.GDPR Regulatory.DATA_SUBJECT_RIGHTS
      "Access Requests" Regulatory.OPTIONAL;
    Regulatory.mkRule Regulatory.GDPR Regulatory.DATA_RETENTION
      "Retention Schedule" Regulatory.OPTIONAL;
    Regulatory.mkRule Regulatory.GDPR Regulatory.DATA_COLLECTION
      "Collection Notice" Regulatory.OPTIONAL;
    Regulatory.mkRule Regulatory.GDPR Regulatory.BREACH_NOTIFICATION
      "Breach Register" Regulatory.OPTIONAL ].

(** An app on which every sub-analysis fires at its worst, and a harmless
    one. *)
Definition worstApp : ThirdPartyApps.ThirdPartyApp :=
  ThirdPartyApps.mkApp "app_789" "Custom Analytics Dashboard"
    (Some "Unknown Developer")
    (Some (ThirdPartyApps.mkPermissions
             [ "read_all_orders"; "read_customers"; "write_customers";
               "write_script_tags" ]))
    ThirdPartyApps.FULL_ACCESS ThirdPartyApps.MEDIUM 50%float
    (Some (ThirdPartyApps.mkRiskFactors
             (Some [ "personal_data"; "transaction_data" ]) "unknown" None
             (Some "unknown")))
    [] None.

Definition quietApp : ThirdPartyApps.ThirdPartyApp :=
  ThirdPartyApps.mkApp "app_1" "Stock Sync" (Some "Acme")
    (Some (ThirdPartyApps.mkPermissions [ "read_products" ]))
    ThirdPartyApps.READ_ONLY ThirdPartyApps.MEDIUM 50%float
    (Some (ThirdPartyApps.mkRiskFactors
             (Some [ "product_data" ]) "aes-256"
             (Some "https://acme.example/privacy") (Some "30 days")))
    [] None.

(** A read-write app with two high-risk scopes, no privacy policy, unknown
    retention and encryption, and an unknown developer: its weighted sum is
    18 + 10 + 18 + 4.5 + 4 = 54.5. *)
Definition midApp : ThirdPartyApps.ThirdPartyApp :=
  ThirdPartyApps.mkApp "app_456" "Mailer" None
    (Some (ThirdPartyApps.mkPermissions [ "read_orders"; "write_orders" ]))
    ThirdPartyApps.READ_WRITE ThirdPartyApps.MEDIUM 50%float
    (Some (ThirdPartyApps.mkRiskFactors
             (Some [ "transaction_data" ]) "unknown" None (Some "unknown")))
    [] None.

(** Readings for a merchant whose latest audit is a given number of whole
    days old, with nothing else to report. *)
Definition auditedDaysAgo (days : Z) : Monitoring.Readings :=
  Monitoring.mkReadings (fun _ => true)
    (fun _ => Some (1700000000000 - days * 86400000))
    1700000000000 (fun _ => 0) (fun _ => 0) (fun _ => 0) (fun _ => 0)
    1700000000500.

End Samples.

(* ================================================================== *)
(** * compliance/compliance.service.ts: the reports *)
(* ================================================================== *)

Module ComplianceReports.
Import Effects Effects.Notations Compliance.

(** ** [getDataMapping] *)

(** A data collection point with the two further columns the mapping
    reads; [point] is what the audit checks see of it. *)
Record DataPointRow := mkRow {
  point : DataCollectionPoint;
  dataCategories : list string;
  purpose : string
}.

Record CategorizedData := mkCategorized {
  personal : Z;
  sensitive : Z;
  marketing : Z;
  analytics : Z
}.

Record LegalBasisCoverage := mkCoverage {
  consent : Z;
  contract : Z;
  legalObligation : Z;
  vitalInterests : Z;
  publicTask : Z;
  legitimateInterests : Z
}.

Record RetentionCompliance := mkRetention {
  defined : Z;
  undefined : Z;
  excessive : Z
}.

Record DataMappingResult := mkMapping {
  totalDataPoints : Z;
  categorizedData : CategorizedData;
  legalBasisCoverage : LegalBasisCoverage;
  retentionCompliance : RetentionCompliance
}.

(** The three counter objects the [forEach] updates. *)
Definition Counters : Type :=
  (CategorizedData * LegalBasisCoverage * RetentionCompliance)%type.

Definition countPoint (acc : Counters) (row : DataPointRow) : Counters :=
  let '(categorizedData, legalBasisCoverage, retentionCompliance) := acc in
  (* Categorize data types *)
  let categorizedData :=
    if existsb (fun cat => JS.includes cat "email" || JS.includes cat "name")
               (dataCategories row)
    then mkCategorized (personal categorizedData + 1)
           (sensitive categorizedData) (marketing categorizedData)
           (analytics categorizedData)
    else categorizedData in
  let categorizedData :=
    if existsb (fun cat => JS.includes cat "sensitive") (dataCategories row)
    then mkCategorized (personal categorizedData)
           (sensitive categorizedData + 1) (marketing categorizedData)
           (analytics categorizedData)
    else categorizedData in
  let categorizedData :=
    if JS.includes (JS.toLowerCase (purpose row)) "marketing"
    then mkCategorized (personal categorizedData)
           (sensitive categorizedData) (marketing categorizedData + 1)
           (analytics categorizedData)
    else categorizedData in
  let categorizedData :=
    if JS.includes (JS.toLowerCase (purpose row)) "analytics"
    then mkCategorized (personal categorizedData)
           (sensitive categorizedData) (marketing categorizedData)
           (analytics categorizedData + 1)
    else categorizedData in
  (* Count legal basis *)
  let legalBasisCoverage :=
    if no_string (legalBasis (point row)) then legalBasisCoverage
    else
      let basis :=
        JS.toLowerCase match legalBasis (point row) with
                       | Some b => b
                       | None => ""
                       end in
      let c := legalBasisCoverage in
      if JS.includes basis "consent"
      then mkCoverage (consent c + 1) (contract c) (legalObligation c)
             (vitalInterests c) (publicTask c) (legitimateInterests c)
      else if JS.includes basis "contract"
      then mkCoverage (consent c) (contract c + 1) (legalObligation c)
             (vitalInterests c) (publicTask c) (legitimateInterests c)
      else if JS.includes basis "legal"
      then mkCoverage (consent c) (contract c) (legalObligation c + 1)
             (vitalInterests c) (publicTask c) (legitimateInterests c)
      else if JS.includes basis "vital"
      then mkCoverage (consent c) (contract c) (legalObligation c)
             (vitalInterests c + 1) (publicTask c) (legitimateInterests c)
      else if JS.includes basis "public"
      then mkCoverage (consent c) (contract c) (legalObligation c)
             (vitalInterests c) (publicTask c + 1) (legitimateInterests c)
      else if JS.includes basis "legitimate"
      then mkCoverage (consent c) (contract c) (legalObligation c)
             (vitalInterests c) (publicTask c) (legitimateInterests c + 1)
      else c in
  (* Check retention *)
  let retentionCompliance :=
    let r := retentionCompliance in
    if no_number (retentionPeriod (point row))
    then mkRetention (defined r) (undefined r + 1) (excessive r)
    else
      match retentionPeriod (point row) with
      | Some days =>
          if 2555 <? days                         (* > 7 years in days *)
          then mkRetention (defined r) (undefined r) (excessive r + 1)
          else mkRetention (defined r + 1) (undefined r) (excessive r)
      | None => r
      end in
  (categorizedData, legalBasisCoverage, retentionCompliance).

(** The rows whose purpose and legal basis, the two texts [countPoint]
    puts in lower case, are ASCII text. *)
Definition ascii_row (row : DataPointRow) : bool :=
  JS.is_ascii (purpose row)
  && match legalBasis (point row) with
     | Some basis => JS.is_ascii basis
     | None => true
     end.

(** [read] is the outcome of [dataPointRepository.find] for the merchant. *)
Definition getDataMapping (read : Outcome (list DataPointRow))
  : Outcome DataMappingResult :=
  match read with
  | Rejected e => Rejected e
  | Resolved dataPoints =>
      let '(categorizedData, legalBasisCoverage, retentionCompliance) :=
        fold_left countPoint dataPoints
                  (mkCategorized 0 0 0 0, mkCoverage 0 0 0 0 0 0,
                   mkRetention 0 0 0) in
      Resolved (mkMapping (Z.of_nat (List.length dataPoints)) categorizedData
                          legalBasisCoverage retentionCompliance)
  end.

(** ** [getAuditById] and the dashboard *)

(** An audit as a read with [relations: ['merchant']] returns it: the
    columns of its row, and the row of the merchant table that its
    [merchant_id] column refers to, as that table holds it at the time of
    the read ([None] when it holds none).  The [merchant] field of the
    columns stands for the [merchant_id] column. *)
Record LoadedAudit := mkLoaded {
  columns : ComplianceAudit;
  merchantRelation : option Merchant
}.

(** [auditRepository.findOne({ where: { id }, relations: ['merchant'] })]
    on the audit table. *)
Definition auditRepository_findOneById (auditId : nat)
  : Async World (option LoadedAudit) :=
  gets (fun w =>
          match find (fun a => match audit_id a with
                               | Some i => Nat.eqb i auditId
                               | None => false
                               end) (audits w) with
          | Some a =>
              Some (mkLoaded a (merchantRow w (merchant_id (merchant a))))
          | None => None
          end).

Definition getAuditById (auditId : nat) : Async World LoadedAudit :=
  audit <- auditRepository_findOneById auditId ;;
  match audit with
  | None =>
      throw (mkError ("Audit with ID " ++ JS.toString auditId ++ " not found"))
  | Some audit => ret audit
  end.

(** [auditRepository.findOne({ where: { merchant: { id } },
    order: { createdAt: 'DESC' } })]: rows are kept in the order of their
    insertion, so the latest is the last one of the merchant. *)
Definition auditRepository_findLatest (merchantId : string)
  : Async World (option ComplianceAudit) :=
  gets (fun w =>
          find (fun a => String.eqb (merchant_id (merchant a)) merchantId)
               (rev (audits w))).

(** [dataPointRepository.count] and [policyRepository.count] read the same
    tables as the [find] of the checks: they count the rows that read
    returns, and reject when it rejects. *)
Definition dataPointRepository_count (merchantId : string) : Async World Z :=
  rows <- dataPointRepository_find merchantId ;;
  ret (Z.of_nat (List.length rows)).

Definition policyRepository_countPublished (merchantId : string)
  : Async World Z :=
  rows <- policyRepository_find merchantId ;;
  ret (Z.of_nat
         (List.length
            (filter (fun p => String.eqb (policy_status p) "published") rows))).

(** [lastAuditDate] is either the [Date] of the audit or an ISO string of
    the current time. *)
Inductive Stamp := date_object (t : Z) | iso_string (t : Z).

Record Dashboard := mkDashboard {
  complianceScore : Z;
  dashboard_status : string;
  lastAuditDate : Stamp;
  criticalIssues : Z;
  totalIssues : Z;
  cookieCompliance : Z;
  privacyPolicyStatus : string;
  thirdPartyApps : Z;
  riskLevel : string
}.

Definition getMockDashboardData : Async World Dashboard :=
  date <- gets now ;;
  ret (mkDashboard 75 "warning" (iso_string date) 2 8 85 "compliant" 12
                   "medium").

(** [n || fallback] on numbers. *)
Definition or_number (n fallback : Z) : Z := if n =? 0 then fallback else n.

Definition is_critical (f : AuditFinding) : bool :=
  match severity f with
  | critical => true
  | _ => false
  end.

Definition getDashboardData (merchantId : string) : Async World Dashboard :=
  try_catch
    (if String.eqb merchantId "" then getMockDashboardData
     else
       merchant <- merchantsService_findById merchantId ;;
       latestAudit <- auditRepository_findLatest merchantId ;;
       dataPoints <- dataPointRepository_count merchantId ;;
       policies <- policyRepository_countPublished merchantId ;;
       date <- gets now ;;
       ret (mkDashboard
              match latestAudit with
              | Some a =>
                  match riskScore a with
                  | Some r => if r =? 0 then 75 else 100 - r
                  | None => 75
                  end
              | None => 75
              end
              match latestAudit with
              | Some a =>
                  if String.eqb (audit_status a) "completed"
                  then "compliant" else "warning"
              | None => "warning"
              end
              match latestAudit with
              | Some a =>
                  match completedAt a with
                  | Some d => date_object d
                  | None => iso_string date
                  end
              | None => iso_string date
              end
              match latestAudit with
              | Some a =>
                  match audit_findings a with
                  | Some fs =>
                      or_number
                        (Z.of_nat (List.length (filter is_critical fs))) 2
                  | None => 2
                  end
              | None => 2
              end
              match latestAudit with
              | Some a =>
                  match audit_findings a with
                  | Some fs => or_number (Z.of_nat (List.length fs)) 8
                  | None => 8
                  end
              | None => 8
              end
              85
              (if 0 <? policies then "compliant" else "needs_attention")
              12 "medium"))
    (fun error => getMockDashboardData).

End ComplianceReports.

(* ================================================================== *)
(** * Sample stores for the reports *)
(* ================================================================== *)

Module ReportSamples.
Import Effects.

(** A published policy and one fully documented data collection point:
    nothing for the audit to find. *)
Definition perfectWorld : Compliance.World :=
  Compliance.mkWorld [Samples.shop] []
    (fun _ => Resolved [Compliance.mkPolicy "published"])
    (fun _ _ => Resolved [Compliance.mkPoint (Some "consent") (Some 365)])
    0 1700000000000 [].

Definition rows : list ComplianceReports.DataPointRow :=
  [ ComplianceReports.mkRow (Compliance.mkPoint (Some "Consent") (Some 365))
      [ "email"; "name" ] "Marketing campaigns";
    ComplianceReports.mkRow
      (Compliance.mkPoint (Some "legitimate interests") (Some 3000))
      [ "analytics" ] "Website analytics";
    ComplianceReports.mkRow (Compliance.mkPoint (Some "contract") None)
      [ "sensitive" ] "Order processing" ].

End ReportSamples.

(* ================================================================== *)
(** * third-party-app-risk.service.ts: scanning the installed apps *)
(* ================================================================== *)

Module AppScan.
Import ThirdPartyApps.

Inductive AppCategory :=
| ANALYTICS | MARKETING | CUSTOMER_SERVICE | INVENTORY | SHIPPING | PAYMENT
| SOCIAL_MEDIA | REVIEWS | EMAIL_MARKETING | ACCOUNTING | OTHER.

Record Developer := mkDeveloper { name : string; website : option string }.

Record Webhook := mkWebhook { topic : string; endpoint : string }.

(** [ShopifyAppData], without the fields the service never reads and
    without [installation_date] (a date in text, parsed by [new Date]). *)
Record ShopifyAppData := mkAppData {
  id : string;
  title : string;
  handle : string;
  description : option string;
  developer : option Developer;
  privacy_policy_url : option string;
  webhooks : option (list Webhook);
  requested_access_scopes : option (list string)
}.

(** What [processShopifyApp] stores: the columns of [ThirdPartyApp] the risk
    analyses read, and beside them the category, the data access labels and
    the webhook topics. *)
Record ScannedApp := mkScanned {
  entity : ThirdPartyApp;
  category : AppCategory;
  dataAccess : list string;
  webhookTopics : list string
}.

(** [arr.indexOf(x)] *)
Fixpoint indexOf (arr : list string) (x : string) : Z :=
  match arr with
  | [] => -1
  | y :: ys =>
      if String.eqb y x then 0
      else let i := indexOf ys x in if i <? 0 then -1 else i + 1
  end.

(** [arr.filter((item, index) => f(item, index))], from index [i] on. *)
Fixpoint filter_from {A : Type} (f : A -> Z -> bool) (i : Z) (l : list A)
  : list A :=
  match l with
  | [] => []
  | x :: xs =>
      if f x i then x :: filter_from f (i + 1) xs
      else filter_from f (i + 1) xs
  end.

Definition categorizeApp (title : string) (description : option string)
  : AppCategory :=
  let text :=
    JS.toLowerCase
      (title ++ " " ++ match description with
                       | Some d => d
                       | None => ""
                       end)%string in
  if JS.includes text "analytics" || JS.includes text "tracking"
  then ANALYTICS
  else if JS.includes text "marketing" || JS.includes text "email"
  then MARKETING
  else if JS.includes text "customer" || JS.includes text "support"
  then CUSTOMER_SERVICE
  else if JS.includes text "inventory" || JS.includes text "stock"
  then INVENTORY
  else if JS.includes text "shipping" || JS.includes text "fulfillment"
  then SHIPPING
  else if JS.includes text "payment" || JS.includes text "checkout"
  then PAYMENT
  else if JS.includes text "social" || JS.includes text "facebook"
          || JS.includes text "instagram"
  then SOCIAL_MEDIA
  else if JS.includes text "review" || JS.includes text "rating"
  then REVIEWS
  else if JS.includes text "accounting" || JS.includes text "finance"
  then ACCOUNTING
  else OTHER.

Definition determineDataAccessLevel (scopes : list string) : DataAccessLevel :=
  let writeScopes := filter (fun scope => JS.includes scope "write") scopes in
  let readAllScopes :=
    filter (fun scope => JS.includes scope "read_all") scopes in
  if Nat.ltb 3 (List.length writeScopes)
     || Nat.ltb 0 (List.length readAllScopes)
  then FULL_ACCESS
  else if Nat.ltb 0 (List.length writeScopes) then READ_WRITE
  else READ_ONLY.

(** The label [extractDataAccess] gives a scope. *)
Definition dataAccessLabel (scope : string) : string :=
  if JS.includes scope "customers" then "customer_data"
  else if JS.includes scope "orders" then "order_data"
  else if JS.includes scope "products" then "product_data"
  else if JS.includes scope "inventory" then "inventory_data"
  else if JS.includes scope "users" then "user_data"
  else scope.

Definition extractDataAccess (scopes : list string) : list string :=
  let arr := map dataAccessLabel scopes in
  filter_from (fun item index => indexOf arr item =? index) 0 arr.

Definition extractDataTypes (scopes : list string) : list string :=
  ((if existsb (fun s => JS.includes s "customers") scopes
    then [ "personal_data"; "contact_information" ] else [])
   ++ (if existsb (fun s => JS.includes s "orders") scopes
       then [ "transaction_data"; "payment_information" ] else [])
   ++ (if existsb (fun s => JS.includes s "products") scopes
       then [ "product_data" ] else []))%list.

(** [appData.requested_access_scopes || []] *)
Definition scopesOf (appData : ShopifyAppData) : list string :=
  match requested_access_scopes appData with
  | Some scopes => scopes
  | None => []
  end.

(** The entity as created and saved; [riskLevel] and [riskScore] are not
    set and take the defaults of their columns, medium and 50. *)
Definition processShopifyApp (appData : ShopifyAppData) : ScannedApp :=
  let category := categorizeApp (title appData) (description appData) in
  let dataAccessLevel := determineDataAccessLevel (scopesOf appData) in
  mkScanned
    (mkApp (id appData) (title appData)
           match developer appData with
           | Some d => Some (name d)
           | None => None
           end
           (Some (mkPermissions (scopesOf appData)))
           dataAccessLevel MEDIUM 50%float
           (Some (mkRiskFactors (Some (extractDataTypes (scopesOf appData)))
                                "unknown" (privacy_policy_url appData)
                                (Some "unknown")))
           [] None)
    category
    (extractDataAccess (scopesOf appData))
    match webhooks appData with
    | Some ws => map topic ws
    | None => []
    end.

(** The three apps [simulateShopifyAppScan] returns. *)
Definition simulateShopifyAppScan : list ShopifyAppData :=
  [ mkAppData "app_123" "Google Analytics Enhanced Ecommerce"
      "google-analytics"
      (Some "Track your store performance with Google Analytics")
      (Some (mkDeveloper "Google" (Some "https://google.com")))
      (Some "https://policies.google.com/privacy")
      (Some [ mkWebhook "orders/create" "https://analytics.google.com/webhook" ])
      (Some [ "read_orders"; "read_customers"; "read_products";
              "write_script_tags" ]);
    mkAppData "app_456" "Mailchimp Email Marketing" "mailchimp"
      (Some "Email marketing and automation platform")
      (Some (mkDeveloper "Mailchimp" (Some "https://mailchimp.com")))
      (Some "https://mailchimp.com/legal/privacy/")
      (Some [ mkWebhook "customers/create" "https://mailchimp.com/webhook" ])
      (Some [ "read_customers"; "write_customers"; "read_orders" ]);
    mkAppData "app_789" "Custom Analytics Dashboard" "custom-analytics"
      (Some "Custom analytics solution")
      (Some (mkDeveloper "Unknown Developer" None))
      None None
      (Some [ "read_all_orders"; "read_customers"; "read_products";
              "read_inventory"; "write_script_tags" ]) ].

(** [scanShopifyApps]: the apps of the merchant are replaced by the
    processed result of the scan. *)
Definition scanShopifyApps : list ScannedApp :=
  map processShopifyApp simulateShopifyAppScan.

(** The order of the access levels the scan can produce. *)
Definition accessRank (l : DataAccessLevel) : Z :=
  match l with
  | READ_ONLY => 0
  | READ_WRITE => 1
  | FULL_ACCESS => 2
  | ADMIN => 3
  end.

End AppScan.

(* ================================================================== *)
(** * third-party-app-risk.service.ts: what an assessment reads and writes *)
(* ================================================================== *)

Module AppAssessment.
Import ThirdPartyApps.

(** The app as one turn of the loop of [performRiskAssessment] saves it. *)
Definition assessedApp (date : Z) (app : ThirdPartyApp) : ThirdPartyApp :=
  let analysis := analyzeAppRisk app in
  mkApp (app_appId app) (app_appName app) (developer app) (permissions app)
        (dataAccessLevel app) (riskLevel analysis) (riskScore analysis)
        (app_riskFactors app)
        (map (fun factor =>
                mkIssue (severity factor) (category factor)
                        (description factor)
                        ("Address " ++ JS.toLowerCase (category factor)
                           ++ " risk")%string
                        false)
             (riskFactors analysis))
        (Some date).

(** An analysis without the recommendations for the app, the one part of it
    that reads the score stored with the app. *)
Definition withoutRecommendations (a : AppRiskAnalysis) : AppRiskAnalysis :=
  mkAnalysis (appId a) (appName a) (riskLevel a) (riskScore a) (riskFactors a)
             [] (complianceGaps a).

(** The number of analyses that satisfy [f]. *)
Definition count (f : AppRiskAnalysis -> bool) (l : list AppRiskAnalysis) : Z :=
  Z.of_nat (List.length (filter f l)).

Definition at_high (a : AppRiskAnalysis) : bool :=
  match riskLevel a with
  | HIGH | CRITICAL => true
  | _ => false
  end.

Definition at_medium (a : AppRiskAnalysis) : bool :=
  match riskLevel a with
  | MEDIUM => true
  | _ => false
  end.

Definition at_low (a : AppRiskAnalysis) : bool :=
  match riskLevel a with
  | LOW => true
  | _ => false
  end.

(** The apps [identifyComplianceGaps] reports: those whose privacy policy
    URL is present. *)
Definition has_privacy_policy (app : ThirdPartyApp) : bool :=
  negb (no_string (match app_riskFactors app with
                   | Some rf => privacyPolicyUrl rf
                   | None => None
                   end)).

End AppAssessment.

(* ================================================================== *)
(** * monitoring/alert.service.ts and the metrics of monitoring.service.ts *)
(* ================================================================== *)

Module Alerts.
Import Effects Effects.Notations.

Inductive AlertType :=
| COMPLIANCE_VIOLATION | DATA_BREACH | POLICY_UPDATE_REQUIRED | CONSENT_EXPIRY
| DATA_RETENTION_VIOLATION | AUDIT_FAILURE | SYSTEM_ERROR.

Inductive AlertStatus := ACTIVE | ACKNOWLEDGED | RESOLVED | DISMISSED.

(** A row of [alerts].  The primary key is a uuid the database generates on
    insert, different from the key of every row of the table; it is a
    number here.  [metadata], [sourceId] and [sourceType] are stored and
    never read, and are left out, and so is the [merchant] object that
    [getAlertById] loads beside the columns. *)
Record Alert := mkAlert {
  alert_id : option nat;
  type : AlertType;
  severity : Monitoring.AlertSeverity;
  status : AlertStatus;
  title : string;
  description : string;
  acknowledgedBy : option string;
  acknowledgedAt : option Z;
  resolvedBy : option string;
  resolvedAt : option Z;
  resolutionNotes : option string;
  expiresAt : option Z;
  merchantId : string
}.

Record CreateAlertDto := mkCreateDto {
  dto_type : AlertType;
  dto_severity : Monitoring.AlertSeverity;
  dto_title : string;
  dto_description : string;
  dto_merchantId : string;
  dto_expiresAt : option Z
}.

(** A key of an object: absent, or present with a value that may be
    [undefined] ([present None]).  [resolveAlert(id, by)] builds an update
    whose key [resolutionNotes] is present and [undefined]. *)
Inductive Key (A : Type) : Type :=
| absent
| present (value : option A).
Arguments absent {A}.
Arguments present {A} value.

Record UpdateAlertDto := mkUpdateDto {
  upd_status : Key AlertStatus;
  upd_acknowledgedBy : Key string;
  upd_resolvedBy : Key string;
  upd_resolutionNotes : Key string
}.

(** A property of an entity in memory: [undefined], or a value as the
    column holds it. *)
Inductive Property (A : Type) : Type :=
| undefined
| defined (value : A).
Arguments undefined {A}.
Arguments defined {A} value.

(** The alert [updateAlert] holds in memory and returns: the row as loaded,
    with the two dates it may have stamped, and beside it the four
    properties [Object.assign] may have overwritten, with [undefined] where
    the update carried an undefined value. *)
Record AlertEntity := mkEntity {
  row : Alert;
  entity_status : Property AlertStatus;
  entity_acknowledgedBy : Property (option string);
  entity_resolvedBy : Property (option string);
  entity_resolutionNotes : Property (option string)
}.

(** The two tables the alert service uses, and the clock [new Date()]
    reads.  The single-row statements of [createAlert], [getAlertById] and
    [updateAlert] are carried out; the queries of [getAlertStats], of
    [cleanupExpiredAlerts] and of the metrics may be rejected by the
    database, see [query] below. *)
Record Store := mkStore {
  merchantIds : list string;
  alerts : list Alert;
  clock : Z
}.

Definition set_alerts (rows : list Alert) (s : Store) : Store :=
  mkStore (merchantIds s) rows (clock s).

Definition AlertStatus_eqb (a b : AlertStatus) : bool :=
  match a, b with
  | ACTIVE, ACTIVE | ACKNOWLEDGED, ACKNOWLEDGED
  | RESOLVED, RESOLVED | DISMISSED, DISMISSED => true
  | _, _ => false
  end.

(** The value read from a key: [undefined] when the key is absent. *)
Definition value_of {A : Type} (k : Key A) : option A :=
  match k with
  | absent => None
  | present v => v
  end.

(** [dto.status === lit] *)
Definition status_is (s : Key AlertStatus) (lit : AlertStatus) : bool :=
  match value_of s with
  | Some s => AlertStatus_eqb s lit
  | None => false
  end.

(** [!x] for a date that may be missing. *)
Definition no_date (d : option Z) : bool :=
  match d with
  | Some _ => false
  | None => true
  end.

(** [s || fallback] for a string that may be missing. *)
Definition or_string (s : option string) (fallback : string) : string :=
  match s with
  | Some s => if String.eqb s "" then fallback else s
  | None => fallback
  end.

(** A merchant id that is given and not empty. *)
Definition truthy (merchantId : option string) : option string :=
  match merchantId with
  | Some m => if String.eqb m "" then None else Some m
  | None => None
  end.

(** [merchantRepository.findOne({ where: { id } })] *)
Definition merchantRepository_findOne (id : string)
  : Async Store (option string) :=
  gets (fun s => find (String.eqb id) (merchantIds s)).

(** [alertRepository.create({ ...createAlertDto, status })] *)
Definition alertRepository_create (dto : CreateAlertDto) (status : AlertStatus)
  : Alert :=
  mkAlert None (dto_type dto) (dto_severity dto) status (dto_title dto)
          (dto_description dto) None None None None None (dto_expiresAt dto)
          (dto_merchantId dto).

Definition fresh_id (rows : list Alert) : nat :=
  S (fold_right (fun r acc =>
                   match alert_id r with
                   | Some i => Nat.max i acc
                   | None => acc
                   end) 0%nat rows).

Definition with_id (i : nat) (a : Alert) : Alert :=
  mkAlert (Some i) (type a) (severity a) (status a) (title a) (description a)
          (acknowledgedBy a) (acknowledgedAt a) (resolvedBy a) (resolvedAt a)
          (resolutionNotes a) (expiresAt a) (merchantId a).

(** [alertRepository.save(alert)]: insert with a generated id when the
    entity has none, update the row of that id otherwise. *)
Definition alertRepository_save (alert : Alert) : Async Store Alert :=
  fun s =>
    match alert_id alert with
    | None =>
        let saved := with_id (fresh_id (alerts s)) alert in
        (Resolved saved, set_alerts (alerts s ++ [saved])%list s)
    | Some i =>
        (Resolved alert,
         set_alerts
           (map (fun r => match alert_id r with
                          | Some j => if Nat.eqb i j then alert else r
                          | None => r
                          end) (alerts s)) s)
    end.

(** The [try] block rethrows what it catches, after logging it. *)
Definition createAlert (createAlertDto : CreateAlertDto) : Async Store Alert :=
  try_catch
    ((* Verify merchant exists *)
     merchant <- merchantRepository_findOne (dto_merchantId createAlertDto) ;;
     match merchant with
     | None =>
         throw (mkError ("Merchant with ID " ++ dto_merchantId createAlertDto
                           ++ " not found"))
     | Some _ =>
         let alert := alertRepository_create createAlertDto ACTIVE in
         savedAlert <- alertRepository_save alert ;;
         ret savedAlert
     end)
    (fun error => throw error).

Definition getAlertById (id : nat) : Async Store Alert :=
  fun s =>
    match find (fun a => match alert_id a with
                         | Some j => Nat.eqb id j
                         | None => false
                         end) (alerts s) with
    | Some alert => (Resolved alert, s)
    | None =>
        (Rejected (mkError ("Alert with ID " ++ JS.toString id ++ " not found")),
         s)
    end.

(** The property [Object.assign] leaves for one key of the update: the
    value as loaded when the key is absent, the value of the key, be it
    [undefined], when it is present. *)
Definition assigned {A B : Type} (inject : A -> B) (k : Key A) (loaded : B)
  : Property B :=
  match k with
  | absent => defined loaded
  | present None => undefined
  | present (Some v) => defined (inject v)
  end.

(** [Object.assign(alert, updateAlertDto)] *)
Definition Object_assign (alert : Alert) (dto : UpdateAlertDto) : AlertEntity :=
  mkEntity alert
           (assigned (fun s => s) (upd_status dto) (status alert))
           (assigned Some (upd_acknowledgedBy dto) (acknowledgedBy alert))
           (assigned Some (upd_resolvedBy dto) (resolvedBy alert))
           (assigned Some (upd_resolutionNotes dto) (resolutionNotes alert)).

(** The column [save] writes for a property: a property that is
    [undefined] is skipped, and the column keeps what it held. *)
Definition column {A : Type} (p : Property A) (held : A) : A :=
  match p with
  | undefined => held
  | defined v => v
  end.

(** The row [alertRepository.save(alert)] leaves for the entity. *)
Definition saved_row (e : AlertEntity) : Alert :=
  let a := row e in
  mkAlert (alert_id a) (type a) (severity a)
          (column (entity_status e) (status a))
          (title a) (description a)
          (column (entity_acknowledgedBy e) (acknowledgedBy a))
          (acknowledgedAt a)
          (column (entity_resolvedBy e) (resolvedBy a))
          (resolvedAt a)
          (column (entity_resolutionNotes e) (resolutionNotes a))
          (expiresAt a) (merchantId a).

(** [alertRepository.save(alert)] on a loaded entity: the row of its id is
    updated, and the entity itself is returned. *)
Definition alertRepository_update (e : AlertEntity) : Async Store AlertEntity :=
  a <- alertRepository_save (saved_row e) ;;
  ret e.

Definition updateAlert (id : nat) (updateAlertDto : UpdateAlertDto)
  : Async Store AlertEntity :=
  alert <- getAlertById id ;;
  date <- gets clock ;;
  let '(updateAlertDto, alert) :=
    if status_is (upd_status updateAlertDto) ACKNOWLEDGED
       && no_date (acknowledgedAt alert)
    then (mkUpdateDto (upd_status updateAlertDto)
                      (present
                         (Some (or_string
                                  (value_of (upd_acknowledgedBy updateAlertDto))
                                  "system")))
                      (upd_resolvedBy updateAlertDto)
                      (upd_resolutionNotes updateAlertDto),
          mkAlert (alert_id alert) (type alert) (severity alert) (status alert)
                  (title alert) (description alert) (acknowledgedBy alert)
                  (Some date) (resolvedBy alert) (resolvedAt alert)
                  (resolutionNotes alert) (expiresAt alert) (merchantId alert))
    else (updateAlertDto, alert) in
  let '(updateAlertDto, alert) :=
    if status_is (upd_status updateAlertDto) RESOLVED
       && no_date (resolvedAt alert)
    then (mkUpdateDto (upd_status updateAlertDto)
                      (upd_acknowledgedBy updateAlertDto)
                      (present
                         (Some (or_string
                                  (value_of (upd_resolvedBy updateAlertDto))
                                  "system")))
                      (upd_resolutionNotes updateAlertDto),
          mkAlert (alert_id alert) (type alert) (severity alert) (status alert)
                  (title alert) (description alert) (acknowledgedBy alert)
                  (acknowledgedAt alert) (resolvedBy alert) (Some date)
                  (resolutionNotes alert) (expiresAt alert) (merchantId alert))
    else (updateAlertDto, alert) in
  let alert := Object_assign alert updateAlertDto in
  updatedAlert <- alertRepository_update alert ;;
  ret updatedAlert.

(** The three callers build the update as an object literal: every key
    they name is present, also when its value is [undefined]. *)
Definition acknowledgeAlert (id : nat) (acknowledgedBy : option string)
  : Async Store AlertEntity :=
  updateAlert id
    (mkUpdateDto (present (Some ACKNOWLEDGED)) (present acknowledgedBy)
                 absent absent).

Definition resolveAlert (id : nat) (resolvedBy : option string)
    (resolutionNotes : option string) : Async Store AlertEntity :=
  updateAlert id
    (mkUpdateDto (present (Some RESOLVED)) absent (present resolvedBy)
                 (present resolutionNotes)).

Definition dismissAlert (id : nat) : Async Store AlertEntity :=
  updateAlert id (mkUpdateDto (present (Some DISMISSED)) absent absent absent).

Record SeverityCounts := mkSeverityCounts {
  low : Z;
  medium : Z;
  high : Z;
  critical : Z
}.

Record TypeCounts := mkTypeCounts {
  compliance_violation : Z;
  data_breach : Z;
  policy_update_required : Z;
  consent_expiry : Z;
  data_retention_violation : Z;
  audit_failure : Z;
  system_error : Z
}.

Record AlertStats := mkStats {
  total : Z;
  active : Z;
  acknowledged : Z;
  resolved : Z;
  dismissed : Z;
  bySeverity : SeverityCounts;
  byType : TypeCounts
}.

(** One turn of [alerts.forEach]. *)
Definition countAlert (stats : AlertStats) (alert : Alert) : AlertStats :=
  (* Count by status *)
  let '(a, k, r, d) :=
    match status alert with
    | ACTIVE =>
        (active stats + 1, acknowledged stats, resolved stats, dismissed stats)
    | ACKNOWLEDGED =>
        (active stats, acknowledged stats + 1, resolved stats, dismissed stats)
    | RESOLVED =>
        (active stats, acknowledged stats, resolved stats + 1, dismissed stats)
    | DISMISSED =>
        (active stats, acknowledged stats, resolved stats, dismissed stats + 1)
    end in
  (* Count by severity *)
  let s := bySeverity stats in
  let s :=
    match severity alert with
    | Monitoring.LOW =>
        mkSeverityCounts (low s + 1) (medium s) (high s) (critical s)
    | Monitoring.MEDIUM =>
        mkSeverityCounts (low s) (medium s + 1) (high s) (critical s)
    | Monitoring.HIGH =>
        mkSeverityCounts (low s) (medium s) (high s + 1) (critical s)
    | Monitoring.CRITICAL =>
        mkSeverityCounts (low s) (medium s) (high s) (critical s + 1)
    end in
  (* Count by type *)
  let t := byType stats in
  let t :=
    match type alert with
    | COMPLIANCE_VIOLATION =>
        mkTypeCounts (compliance_violation t + 1) (data_breach t)
          (policy_update_required t) (consent_expiry t)
          (data_retention_violation t) (audit_failure t) (system_error t)
    | DATA_BREACH =>
        mkTypeCounts (compliance_violation t) (data_breach t + 1)
          (policy_update_required t) (consent_expiry t)
          (data_retention_violation t) (audit_failure t) (system_error t)
    | POLICY_UPDATE_REQUIRED =>
        mkTypeCounts (compliance_violation t) (data_breach t)
          (policy_update_required t + 1) (consent_expiry t)
          (data_retention_violation t) (audit_failure t) (system_error t)
    | CONSENT_EXPIRY =>
        mkTypeCounts (compliance_violation t) (data_breach t)
          (policy_update_required t) (consent_expiry t + 1)
          (data_retention_violation t) (audit_failure t) (system_error t)
    | DATA_RETENTION_VIOLATION =>
        mkTypeCounts (compliance_violation t) (data_breach t)
          (policy_update_required t) (consent_expiry t)
          (data_retention_violation t + 1) (audit_failure t) (system_error t)
    | AUDIT_FAILURE =>
        mkTypeCounts (compliance_violation t) (data_breach t)
          (policy_update_required t) (consent_expiry t)
          (data_retention_violation t) (audit_failure t + 1) (system_error t)
    | SYSTEM_ERROR =>
        mkTypeCounts (compliance_violation t) (data_breach t)
          (policy_update_required t) (consent_expiry t)
          (data_retention_violation t) (audit_failure t) (system_error t + 1)
    end in
  mkStats (total stats) a k r d s t.

(** The rows the query of [getAlertStats] returns: those of the merchant
    when a merchant id is given and not empty, every row otherwise. *)
Definition alertsOf (merchantId : option string) (s : Store) : list Alert :=
  match truthy merchantId with
  | Some m => filter (fun a => String.eqb (Alerts.merchantId a) m) (alerts s)
  | None => alerts s
  end.

(** A query the service sends with no handler around it: it is carried
    out, or the database rejects it with [failure] and nothing is read or
    written. *)
Definition query {A : Type} (failure : option Error) (run : Async Store A)
  : Async Store A :=
  match failure with
  | Some e => throw e
  | None => run
  end.

(** [failure] is the rejection of [queryBuilder.getMany()], if any. *)
Definition getAlertStats (failure : option Error) (merchantId : option string)
  : Async Store AlertStats :=
  alerts <- query failure (gets (alertsOf merchantId)) ;;
  let stats :=
    mkStats (Z.of_nat (List.length alerts)) 0 0 0 0
            (mkSeverityCounts 0 0 0 0) (mkTypeCounts 0 0 0 0 0 0 0) in
  ret (fold_left countAlert alerts stats).

(** [cleanupExpiredAlerts]: the rows with an expiry date before [new Date()]
    are deleted, and their number is returned. *)
Definition expired (now : Z) (a : Alert) : bool :=
  match expiresAt a with
  | Some e => e <? now
  | None => false
  end.

(** [failure] is the rejection of the delete statement, if any. *)
Definition cleanupExpiredAlerts (failure : option Error) : Async Store Z :=
  query failure
    (fun s =>
       let affected :=
         Z.of_nat (List.length (filter (expired (clock s)) (alerts s))) in
       (Resolved (if affected =? 0 then 0 else affected),
        set_alerts (filter (fun a => negb (expired (clock s) a)) (alerts s))
                   s)).

(** [MonitoringService.cleanupExpiredAlerts]: the cleanup of the alert
    service inside a [try] whose handler logs the error. *)
Definition monitoring_cleanupExpiredAlerts (failure : option Error)
  : Async Store unit :=
  try_catch
    (cleanedCount <- cleanupExpiredAlerts failure ;;
     ret tt)
    (fun error => ret tt).

(** ** monitoring.service.ts *)

Record AlertCounts := mkAlertCounts {
  counts_active : Z;
  counts_critical : Z;
  counts_high : Z;
  counts_medium : Z;
  counts_low : Z
}.

Record MonitoringMetrics := mkMetrics {
  totalMerchants : Z;
  activeAudits : Z;
  pendingRequests : Z;
  withdrawnConsents : Z;
  breachIncidents : Z;
  complianceScore : Z;
  alertCounts : AlertCounts
}.

(** What the [count] queries of the other repositories return, for the rows
    of one merchant or, on [None], of all: a number, or a rejection. *)
Record Counters := mkCounters {
  merchantCount : Outcome Z;
  activeAuditCount : option string -> Outcome Z;
  pendingRequestCount : option string -> Outcome Z;
  withdrawnConsentCount : option string -> Outcome Z;
  breachIncidentCount : option string -> Outcome Z
}.

Definition calculateComplianceScore
    (activeAudits pendingRequests withdrawnConsents breachIncidents : Z)
    (alertStats : AlertStats) : Z :=
  let score := 100 in
  (* Deduct points for various issues *)
  let score := score - pendingRequests * 2 in
  let score := score - withdrawnConsents * 1 in
  let score := score - breachIncidents * 10 in
  let score := score - critical (bySeverity alertStats) * 15 in
  let score := score - high (bySeverity alertStats) * 10 in
  let score := score - medium (bySeverity alertStats) * 5 in
  let score := score - low (bySeverity alertStats) * 1 in
  (* Ensure score is between 0 and 100 *)
  Z.max 0 (Z.min 100 score).

(** [Promise.all] of the six reads, with no handler: the metrics reject
    when a read does.  The reads are taken in the order of the array, so
    that of several rejections the first in that order is reported;
    [failure] is the rejection of the query of [getAlertStats], if any. *)
Definition getMonitoringMetrics (c : Counters) (failure : option Error)
    (merchantId : option string) : Async Store MonitoringMetrics :=
  let whereClause := truthy merchantId in
  totalMerchants <-
    match truthy merchantId with
    | Some _ => ret 1
    | None => settle (fun _ => merchantCount c)
    end ;;
  activeAudits <- settle (fun _ => activeAuditCount c whereClause) ;;
  pendingRequests <- settle (fun _ => pendingRequestCount c whereClause) ;;
  withdrawnConsents <- settle (fun _ => withdrawnConsentCount c whereClause) ;;
  breachIncidents <- settle (fun _ => breachIncidentCount c whereClause) ;;
  alertStats <- getAlertStats failure merchantId ;;
  (* Calculate compliance score based on various factors *)
  let complianceScore :=
    calculateComplianceScore activeAudits pendingRequests withdrawnConsents
                             breachIncidents alertStats in
  ret (mkMetrics totalMerchants activeAudits pendingRequests withdrawnConsents
                 breachIncidents complianceScore
                 (mkAlertCounts (active alertStats)
                                (critical (bySeverity alertStats))
                                (high (bySeverity alertStats))
                                (medium (bySeverity alertStats))
                                (low (bySeverity alertStats)))).

(** [for (const x of l) { await body(x) }] *)
Fixpoint for_of {S A : Type} (l : list A) (body : A -> Async S unit)
  : Async S unit :=
  match l with
  | [] => ret tt
  | x :: xs => body x ;;; for_of xs body
  end.

Definition Severity_is_critical (s : Monitoring.AlertSeverity) : bool :=
  match s with
  | Monitoring.CRITICAL => true
  | _ => false
  end.

(** [performDailyHealthChecks]: [w] is what the health checks read.  An
    error thrown inside the [try] block is logged and not rethrown. *)
Definition performDailyHealthChecks (w : Monitoring.Readings)
  : Async Store unit :=
  try_catch
    (merchants <- gets merchantIds ;;
     for_of merchants (fun merchant =>
       healthCheck <-
         settle (fun _ => Monitoring.performComplianceHealthCheck w merchant) ;;
       (* Create alerts for critical issues *)
       for_of (Monitoring.issues healthCheck) (fun issue =>
         if Severity_is_critical (Monitoring.severity issue)
         then
           createAlert
             (mkCreateDto COMPLIANCE_VIOLATION (Monitoring.severity issue)
                          ("Compliance Issue: " ++ Monitoring.type issue)
                          (Monitoring.description issue) merchant None) ;;;
           ret tt
         else ret tt)))
    (fun error => ret tt).

(** The critical issues of a merchant's health check, and what the alert
    raised for an issue shows of it. *)
Definition criticalIssues (w : Monitoring.Readings) (merchant : string)
  : list Monitoring.Issue :=
  match Monitoring.performComplianceHealthCheck w merchant with
  | Resolved healthCheck =>
      filter (fun issue => Severity_is_critical (Monitoring.severity issue))
             (Monitoring.issues healthCheck)
  | Rejected _ => []
  end.

Definition summary (a : Alert) : string * string * string :=
  (merchantId a, title a, description a).

Definition issueSummary (merchant : string) (issue : Monitoring.Issue)
  : string * string * string :=
  (merchant, "Compliance Issue: " ++ Monitoring.type issue,
   Monitoring.description issue).

(** An alert as the daily health checks raise it. *)
Definition raised_by_health_check (a : Alert) : Prop :=
  status a = ACTIVE /\ severity a = Monitoring.CRITICAL /\
  type a = COMPLIANCE_VIOLATION /\ expiresAt a = None.

(** [s'] is [s] with alerts of that kind appended. *)
Definition extends (s s' : Store) : Prop :=
  merchantIds s' = merchantIds s /\ clock s' = clock s /\
  exists new, alerts s' = (alerts s ++ new)%list /\
              Forall raised_by_health_check new.

(** ** Counting in the specification's style *)

Definition count {A : Type} (f : A -> bool) (l : list A) : Z :=
  Z.of_nat (List.length (filter f l)).

Definition has_status (s : AlertStatus) (a : Alert) : bool :=
  AlertStatus_eqb (status a) s.

Definition has_severity (v : Monitoring.AlertSeverity) (a : Alert) : bool :=
  match severity a, v with
  | Monitoring.LOW, Monitoring.LOW
  | Monitoring.MEDIUM, Monitoring.MEDIUM
  | Monitoring.HIGH, Monitoring.HIGH
  | Monitoring.CRITICAL, Monitoring.CRITICAL => true
  | _, _ => false
  end.

(** The sum of the counters by type. *)
Definition typeSum (t : TypeCounts) : Z :=
  compliance_violation t + data_breach t + policy_update_required t
  + consent_expiry t + data_retention_violation t + audit_failure t
  + system_error t.

End Alerts.

(* ================================================================== *)
(** * Sample alerts *)
(* ================================================================== *)

Module AlertSamples.
Import Alerts.

(** A resolved critical alert and an active high one of the same merchant,
    and a low one of another. *)
Definition breachAlert : Alert :=
  mkAlert (Some 1%nat) DATA_BREACH Monitoring.CRITICAL RESOLVED
          "Breach" "Customer records exposed" None None (Some "ops")
          (Some 1699990000000) None None "shop-1".

Definition violationAlert : Alert :=
  mkAlert (Some 2%nat) COMPLIANCE_VIOLATION Monitoring.HIGH ACTIVE
          "Violation" "Consent banner missing" None None None None None None
          "shop-1".

Definition expiringAlert : Alert :=
  mkAlert (Some 3%nat) CONSENT_EXPIRY Monitoring.LOW ACTIVE
          "Consent expiry" "Consents expire soon" None None None None None
          (Some 1699999999999) "shop-2".

(** Readings with one recent breach at "shop-1" and nothing else to report
    but the missing audits. *)
Definition breachedReadings : Monitoring.Readings :=
  Monitoring.mkReadings (fun _ => true) (fun _ => None) 1700000000000
    (fun _ => 0) (fun _ => 0) (fun _ => 0)
    (fun m => if String.eqb m "shop-1" then 1 else 0) 1700000000500.

Definition twoAlerts : Store :=
  mkStore [ "shop-1"; "shop-2" ]
          [ breachAlert; violationAlert; expiringAlert ] 1700000000000.

End AlertSamples.

(* ================================================================== *)
(** * compliance.service.ts: the detailed compliance data *)
(* ================================================================== *)

Module ComplianceDetails.
Import Effects Effects.Notations Compliance ComplianceReports.










End ComplianceDetails.

(* ================================================================== *)
(** * The built-ins on sample values *)
(* ================================================================== *)

Module JSProofs.

(** [Math.round] goes to the nearest integer and sends halves upwards, also
    below zero; it keeps [NaN]. *)
Example Math_round_samples :
  map JS.Math_round
      [ 2.5; 2.4; -2.5; -2.6; 4.5; 0.49999999999999994; 14.499999999999998;
        90.909090909090907; 0; 1e300 ]%float
  = [ 3; 2; -2; -3; 5; 0; 14; 91; 0; 1e300 ]%float /\
  PrimFloat.is_nan (JS.Math_round (0 / 0)) = true.
Proof. vm_compute. split; reflexivity. Qed.

Example Math_min_max_samples :
  JS.Math_min 100 (JS.Math_max 0 120) = 100%float /\
  JS.Math_min 100 (JS.Math_max 0 (-3)) = 0%float /\
  JS.Math_min 100 (JS.Math_max 0 55) = 55%float /\
  PrimFloat.is_nan (JS.Math_min 100 (JS.Math_max 0 (0 / 0))) = true.
Proof. vm_compute. repeat split. Qed.

Example includes_samples :
  JS.includes "read_all_orders" "read_all_orders" = true /\
  JS.includes "unauthenticated_read_customers" "read_customers" = true /\
  JS.includes "read_products" "read_orders" = false /\
  JS.includes "" "" = true /\
  JS.Array_includes [ "privacy_policy"; "terms" ] "privacy_policy" = true /\
  JS.Array_includes [ "privacy_policy_v2" ] "privacy_policy" = false /\
  JS.toLowerCase "Data Access" = "data access" /\
  JS.toString 12 = "12".
Proof. vm_compute. repeat split. Qed.

End JSProofs.

(* ================================================================== *)
(** * Properties of the audit pipeline *)
(* ================================================================== *)

Module ComplianceProofs.
Import Effects Effects.Notations Compliance.

Lemma filter_nonempty_existsb {A : Type} (f : A -> bool) (l : list A) :
  Nat.ltb 0 (List.length (filter f l)) = existsb f l.
Proof.
  induction l as [| x l IH]; simpl.
  - reflexivity.
  - destruct (f x); simpl; [reflexivity | exact IH].
Qed.

Lemma determineComplianceStatus_thresholds (s : Z) :
  (determineComplianceStatus s = compliant <-> 80 <= s) /\
  (determineComplianceStatus s = under_review <-> 60 <= s < 80) /\
  (determineComplianceStatus s = non_compliant <-> s < 60).
Proof.
  unfold determineComplianceStatus.
  destruct (Z.leb_spec 80 s); destruct (Z.leb_spec 60 s);
    repeat split; intros; try discriminate; try lia.
Qed.

(** Each check, run on a store whose read resolves. *)
Lemma checkPrivacyPolicy_deduction w merchantId policies :
  policyRows w merchantId = Resolved policies ->
  exists c, checkPrivacyPolicy merchantId w = (Resolved c, w) /\
            deduction c = spec_policy_deduction policies.
Proof.
  intros H. unfold checkPrivacyPolicy, policyRepository_find, bind, settle, ret.
  rewrite H. eexists; split; [reflexivity |].
  destruct policies as [| p ps]; [reflexivity |].
  unfold spec_policy_deduction.
  destruct (String.eqb (policy_status p) "published"); reflexivity.
Qed.

Lemma checkDataMapping_deduction w merchantId points :
  dataPointRows w (dataPointReads w) merchantId = Resolved points ->
  exists c, checkDataMapping merchantId w = (Resolved c, count_read w) /\
            deduction c = spec_mapping_deduction points.
Proof.
  intros H. unfold checkDataMapping, dataPointRepository_find, bind, ret.
  rewrite H. eexists; split; [reflexivity |].
  destruct points; reflexivity.
Qed.

Lemma checkLegalBasis_deduction w merchantId points :
  dataPointRows w (dataPointReads w) merchantId = Resolved points ->
  exists c, checkLegalBasis merchantId w = (Resolved c, count_read w) /\
            deduction c = spec_legal_deduction points.
Proof.
  intros H. unfold checkLegalBasis, dataPointRepository_find, bind, ret.
  rewrite H. eexists; split; [reflexivity |].
  rewrite filter_nonempty_existsb. unfold spec_legal_deduction.
  destruct (existsb _ points); reflexivity.
Qed.

Lemma checkRetentionPolicies_deduction w merchantId points :
  dataPointRows w (dataPointReads w) merchantId = Resolved points ->
  exists c, checkRetentionPolicies merchantId w = (Resolved c, count_read w) /\
            deduction c = spec_retention_deduction points.
Proof.
  intros H. unfold checkRetentionPolicies, dataPointRepository_find, bind, ret.
  rewrite H. eexists; split; [reflexivity |].
  rewrite filter_nonempty_existsb. unfold spec_retention_deduction.
  destruct (existsb _ points); reflexivity.
Qed.

(** C1.  Whatever the four reads return (so for every combination of the
    conditions that trigger the four checks), [performAuditChecks] resolves
    with [score] equal to 100 minus the deductions of the triggered checks,
    clamped to [0, 100], and [status] is [compliant] exactly when the score
    is at least 80, [under_review] exactly when it is at least 60 and below
    80, and [non_compliant] exactly when it is below 60. *)
Theorem performAuditChecks_score_status :
  forall (w : World) (merchantId : string)
         (policies : list PrivacyPolicy)
         (points1 points2 points3 : list DataCollectionPoint),
    policyRows w merchantId = Resolved policies ->
    dataPointRows w (dataPointReads w) merchantId = Resolved points1 ->
    dataPointRows w (S (dataPointReads w)) merchantId = Resolved points2 ->
    dataPointRows w (S (S (dataPointReads w))) merchantId = Resolved points3 ->
    exists (r : AuditResult) (w' : World),
      performAuditChecks merchantId w = (Resolved r, w') /\
      score r =
        clamp (100 - (spec_policy_deduction policies
                      + spec_mapping_deduction points1
                      + spec_legal_deduction points2
                      + spec_retention_deduction points3)) 0 100 /\
      (status r = compliant <-> 80 <= score r) /\
      (status r = under_review <-> 60 <= score r < 80) /\
      (status r = non_compliant <-> score r < 60).
Proof.
  intros w merchantId policies points1 points2 points3 Hp H1 H2 H3.
  destruct (checkPrivacyPolicy_deduction w merchantId policies Hp)
    as (c1 & E1 & D1).
  destruct (checkDataMapping_deduction w merchantId points1 H1)
    as (c2 & E2 & D2).
  destruct (checkLegalBasis_deduction (count_read w) merchantId points2 H2)
    as (c3 & E3 & D3).
  destruct (checkRetentionPolicies_deduction
              (count_read (count_read w)) merchantId points3 H3)
    as (c4 & E4 & D4).
  unfold performAuditChecks.
  unfold bind at 1. rewrite E1.
  unfold bind at 1. rewrite E2.
  unfold bind at 1. rewrite E3.
  unfold bind at 1. rewrite E4.
  unfold ret. eexists; eexists; split; [reflexivity |].
  cbn [score status]. split.
  - rewrite D1, D2, D3, D4. unfold clamp. f_equal. f_equal. lia.
  - apply determineComplianceStatus_thresholds.
Qed.

Lemma performAuditChecks_score_status_witness :
  exists (r : AuditResult) (w' : World),
    performAuditChecks "shop-1" Samples.draftWorld = (Resolved r, w') /\
    score r = clamp (100 - (15 + 0 + 20 + 10)) 0 100 /\
    (status r = compliant <-> 80 <= score r) /\
    (status r = under_review <-> 60 <= score r < 80) /\
    (status r = non_compliant <-> score r < 60).
Proof.
  apply (performAuditChecks_score_status Samples.draftWorld "shop-1"
           [mkPolicy "draft"] [mkPoint None None] [mkPoint None None]
           [mkPoint None None]); reflexivity.
Defined.

(** C9.  For a merchant with no privacy policy and no data collection point
    the checks resolve with score 45 (100 - 30 - 25) and status
    [non_compliant], and the findings are exactly two: the critical
    "Privacy Policy" one and the high "Data Mapping" one, in this order; the
    legal-basis and retention checks add none. *)
Theorem performAuditChecks_no_policy_no_points :
  forall (w : World) (merchantId : string),
    policyRows w merchantId = Resolved [] ->
    dataPointRows w (dataPointReads w) merchantId = Resolved [] ->
    dataPointRows w (S (dataPointReads w)) merchantId = Resolved [] ->
    dataPointRows w (S (S (dataPointReads w))) merchantId = Resolved [] ->
    exists (r : AuditResult) (w' : World),
      performAuditChecks merchantId w = (Resolved r, w') /\
      score r = 45 /\
      status r = non_compliant /\
      findings r =
        [ mkFinding "Privacy Policy" critical "No privacy policy found"
            "Legal requirement violation - GDPR Article 13/14";
          mkFinding "Data Mapping" high "No data collection points mapped"
            "Cannot demonstrate data processing compliance" ] /\
      map (fun f => (severity f, category f)) (findings r) =
        [ (critical, "Privacy Policy"); (high, "Data Mapping") ].
Proof.
  intros w merchantId Hp H1 H2 H3.
  unfold performAuditChecks, checkPrivacyPolicy, checkDataMapping,
    checkLegalBasis, checkRetentionPolicies, policyRepository_find,
    dataPointRepository_find, bind, settle, ret.
  rewrite Hp.
  rewrite H1. cbn [dataPointRows dataPointReads count_read].
  rewrite H2. cbn [dataPointRows dataPointReads count_read].
  rewrite H3.
  eexists; eexists; split; [reflexivity |].
  repeat split.
Qed.

Lemma performAuditChecks_no_policy_no_points_witness :
  exists (r : AuditResult) (w' : World),
    performAuditChecks "shop-1" Samples.emptyWorld = (Resolved r, w') /\
    score r = 45 /\
    status r = non_compliant /\
    findings r =
      [ mkFinding "Privacy Policy" critical "No privacy policy found"
          "Legal requirement violation - GDPR Article 13/14";
        mkFinding "Data Mapping" high "No data collection points mapped"
          "Cannot demonstrate data processing compliance" ] /\
    map (fun f => (severity f, category f)) (findings r) =
      [ (critical, "Privacy Policy"); (high, "Data Mapping") ].
Proof.
  apply (performAuditChecks_no_policy_no_points Samples.emptyWorld "shop-1");
    reflexivity.
Defined.

(** ** The failure path of [runComplianceAudit] *)

(** The checks only read: they leave the three written parts of the store
    as they are, whether they resolve or reject. *)
Lemma performAuditChecks_reads_only w merchantId :
  let w1 := snd (performAuditChecks merchantId w) in
  merchants w1 = merchants w /\ audits w1 = audits w /\
  scoreUpdates w1 = scoreUpdates w.
Proof.
  unfold performAuditChecks, checkPrivacyPolicy, checkDataMapping,
    checkLegalBasis, checkRetentionPolicies, policyRepository_find,
    dataPointRepository_find, bind, settle, ret.
  destruct (policyRows w merchantId); cbn; [| auto].
  destruct (dataPointRows w (dataPointReads w) merchantId); cbn; [| auto].
  destruct (dataPointRows w (S (dataPointReads w)) merchantId); cbn; [| auto].
  destruct (dataPointRows w (S (S (dataPointReads w))) merchantId); cbn; auto.
Qed.

(** Their outcome does not depend on the audit table. *)
Lemma performAuditChecks_frame rows w merchantId :
  performAuditChecks merchantId (set_audits rows w) =
  (fst (performAuditChecks merchantId w),
   set_audits rows (snd (performAuditChecks merchantId w))).
Proof.
  unfold performAuditChecks, checkPrivacyPolicy, checkDataMapping,
    checkLegalBasis, checkRetentionPolicies, policyRepository_find,
    dataPointRepository_find, bind, settle, ret.
  cbn [policyRows dataPointRows dataPointReads set_audits count_read].
  destruct (policyRows w merchantId); cbn; [| reflexivity].
  destruct (dataPointRows w (dataPointReads w) merchantId); cbn;
    [| reflexivity].
  destruct (dataPointRows w (S (dataPointReads w)) merchantId); cbn;
    [| reflexivity].
  destruct (dataPointRows w (S (S (dataPointReads w))) merchantId); cbn;
    reflexivity.
Qed.

Lemma fresh_id_above rows r j :
  In r rows -> audit_id r = Some j -> (j < fresh_id rows)%nat.
Proof.
  unfold fresh_id. induction rows as [| x rows IH]; intros Hin Hj.
  - destruct Hin.
  - cbn [fold_right]. destruct Hin as [-> | Hin].
    + rewrite Hj. lia.
    + specialize (IH Hin Hj). destruct (audit_id x); lia.
Qed.

(** Saving the entity that was inserted last updates that row only. *)
Lemma save_last_row rows a0 a :
  audit_id a0 = Some (fresh_id rows) ->
  map (fun r => match audit_id r with
                | Some j => if Nat.eqb (fresh_id rows) j then a else r
                | None => r
                end) (rows ++ [a0])%list
  = (rows ++ [a])%list.
Proof.
  intros Hid. rewrite map_app. cbn [map]. rewrite Hid, Nat.eqb_refl.
  f_equal. rewrite <- (map_id rows) at 2. apply map_ext_in.
  intros r Hin. destruct (audit_id r) as [j |] eqn:Hj; [| reflexivity].
  pose proof (fresh_id_above rows r j Hin Hj) as Hlt.
  destruct (Nat.eqb_spec (fresh_id rows) j); [lia | reflexivity].
Qed.

(** [updateComplianceScore] is called on the success path only: a run that
    rejects leaves the merchants and the record of calls untouched, a run
    that resolves has made exactly one call. *)
Lemma updateComplianceScore_only_on_success w merchantId :
  match runComplianceAudit merchantId w with
  | (Resolved _, w') =>
      exists s, scoreUpdates w' = (scoreUpdates w ++ [(merchantId, s)])%list
  | (Rejected _, w') =>
      scoreUpdates w' = scoreUpdates w /\ merchants w' = merchants w
  end.
Proof.
  unfold runComplianceAudit, merchantsService_findById.
  unfold bind at 1.
  destruct (find _ (merchants w)) as [m |]; [| split; reflexivity].
  unfold bind at 1. unfold auditRepository_save at 1.
  cbn [audit_id auditRepository_create].
  unfold try_catch. unfold bind at 1.
  rewrite performAuditChecks_frame.
  destruct (performAuditChecks_reads_only w merchantId) as (Hm & _ & Hs).
  destruct (performAuditChecks merchantId w) as [[r | e] w1]; cbn in *.
  - eexists. rewrite Hs. reflexivity.
  - split; assumption.
Qed.

(** The checks reject exactly with the error of the first read that
    rejects: the policy read, then the three reads of data collection points
    in the order data mapping, legal basis, retention. *)
Lemma performAuditChecks_rejects_with_first_failed_read w merchantId e :
  (policyRows w merchantId = Rejected e ->
   fst (performAuditChecks merchantId w) = Rejected e) /\
  (forall policies,
     policyRows w merchantId = Resolved policies ->
     dataPointRows w (dataPointReads w) merchantId = Rejected e ->
     fst (performAuditChecks merchantId w) = Rejected e) /\
  (forall policies points,
     policyRows w merchantId = Resolved policies ->
     dataPointRows w (dataPointReads w) merchantId = Resolved points ->
     dataPointRows w (S (dataPointReads w)) merchantId = Rejected e ->
     fst (performAuditChecks merchantId w) = Rejected e) /\
  (forall policies points points',
     policyRows w merchantId = Resolved policies ->
     dataPointRows w (dataPointReads w) merchantId = Resolved points ->
     dataPointRows w (S (dataPointReads w)) merchantId = Resolved points' ->
     dataPointRows w (S (S (dataPointReads w))) merchantId = Rejected e ->
     fst (performAuditChecks merchantId w) = Rejected e).
Proof.
  unfold performAuditChecks, checkPrivacyPolicy, checkDataMapping,
    checkLegalBasis, checkRetentionPolicies, policyRepository_find,
    dataPointRepository_find, bind, settle, ret.
  repeat split; intros;
    repeat match goal with
           | H : _ = Resolved _ |- _ =>
               rewrite H; clear H;
               cbn [dataPointRows dataPointReads count_read]
           | H : _ = Rejected _ |- _ => rewrite H; clear H
           end;
    reflexivity.
Qed.

(** A run that succeeds, on the store of a merchant with no policy and no
    data collection point: the audit is saved as completed with risk score
    100 - 45, and the merchant's score becomes 45. *)
Example runComplianceAudit_success_example :
  let '(outcome, w') := runComplianceAudit "shop-1" Samples.emptyWorld in
  (exists a, outcome = Resolved a /\ audits w' = [a] /\
             audit_status a = "completed" /\ riskScore a = Some 55 /\
             auditData a = None) /\
  merchants w' = [mkMerchant "shop-1" 45] /\
  scoreUpdates w' = [("shop-1", 45)].
Proof. cbv. repeat split. eexists. repeat split. Qed.



End ComplianceProofs.

(* ================================================================== *)
(** * Properties of the regulatory gap analysis *)
(* ================================================================== *)

Module RegulatoryProofs.
Import Regulatory.

Section Loop.
Variable now : Z.
Variable merchantData : MerchantData.

Let analyze (r : RegulatoryRule) : ComplianceGap :=
  analyzeRuleCompliance now r merchantData.

Lemma spec_weight_getRuleWeight (r : ComplianceRequirement) :
  spec_weight r = inject_Z (getRuleWeight r).
Proof. destruct r; reflexivity. Qed.

(** The loop invariant: the gaps are the analyses in order, [maxScore] has
    grown by the weights, [totalScore] by the contributions. *)
Lemma scoreLoop_invariant (rules : list RegulatoryRule) (acc : Totals) :
  let t := fold_left (scoreStep now merchantData) rules acc in
  loop_gaps t = (loop_gaps acc ++ map analyze rules)%list /\
  (inject_Z (maxScore t) == inject_Z (maxScore acc) + spec_maxScore rules)%Q /\
  (inject_Z (totalScore_halves t) ==
     inject_Z (totalScore_halves acc)
     + 2 * spec_totalScore now rules merchantData)%Q /\
  maxScore acc <= maxScore t.
Proof.
  revert acc. induction rules as [| r rules IH]; intros acc; cbn [fold_left].
  - cbn zeta. cbn [map]. rewrite app_nil_r.
    unfold spec_maxScore, spec_totalScore, Qsum. cbn [map fold_right].
    split; [reflexivity | split; [ring | split; [ring | lia]]].
  - destruct (IH (scoreStep now merchantData acc r)) as (Hg & Hm & Ht & Hle).
    cbn zeta. rewrite Hg, Hm, Ht. clear IH Hg Hm Ht.
    unfold spec_maxScore, spec_totalScore, Qsum. cbn [map fold_right].
    fold analyze. unfold scoreStep at 1 2 3.
    cbn [loop_gaps maxScore totalScore_halves]. fold (analyze r).
    rewrite spec_weight_getRuleWeight.
    split; [| split; [| split]].
    + rewrite <- app_assoc. reflexivity.
    + rewrite inject_Z_plus. ring.
    + destruct (currentStatus (analyze r));
        rewrite ?inject_Z_plus, ?inject_Z_mult; change (inject_Z 2) with 2%Q;
        field.
    + eapply Z.le_trans; [| exact Hle].
      unfold scoreStep. cbn [maxScore].
      destruct (requirement r); cbn [getRuleWeight]; lia.
Qed.

End Loop.

Lemma Qfloor_of_integer (q : Q) (z : Z) : (inject_Z z == q)%Q -> Qfloor q = z.
Proof.
  intros H. rewrite <- (Qfloor_comp _ _ H). apply Qfloor_Z.
Qed.

(** The rule set of [Samples.halfwayRules] earns 11.5 of 20 points.  The
    exact percentage is 57.5, which rounds to 58; the program divides
    first, [11.5 / 20] is the binary64 number just below 0.575, its product
    with 100 is just below 57.5, and [overallComplianceScore] is 57.  So the
    score is not the rounded exact percentage. *)
Lemma overallComplianceScore_57_where_exact_rounding_gives_58 :
  let result :=
    performGapAnalysis (fun _ => Samples.halfwayRules) 1700000000000 "shop-1"
                       Samples.halfwayProfile in
  let earned :=
    spec_totalScore 1700000000000 Samples.halfwayRules Samples.halfwayProfile in
  let possible := spec_maxScore Samples.halfwayRules in
  (earned == 23 # 2)%Q /\
  (possible == 20)%Q /\
  (earned / possible * 100 == 115 # 2)%Q /\
  spec_exactScore earned possible = 58 /\
  overallComplianceScore result = 57%float /\
  PrimFloat.eqb (overallComplianceScore result) (JS.Z2F 58) = false.
Proof. vm_compute. repeat split. Qed.

(** C2, amended.  For every result of the rule query and every merchant
    profile: [maxScore] is the sum of the weights (mandatory 10, recommended
    5, optional 1) of the applicable rules; [totalScore] is the sum of the
    full weight of each compliant rule and half the weight of each partial
    rule; [overallComplianceScore] is
    [Math.round((totalScore / maxScore) * 100)] of those two sums evaluated
    on binary64 numbers, the quotient being rounded before it is multiplied
    by 100, and 100 when [maxScore] is 0; and a mandatory compliant rule
    together with an optional non-compliant rule gives 91. *)
Theorem performGapAnalysis_weighted_score :
  forall (findApplicableRules : RegulatoryQueryDto -> list RegulatoryRule)
         (now : Z) (merchantId : string) (merchantData : MerchantData),
    let rules :=
      findApplicableRules
        (mkQuery None None (Some (businessType merchantData))
                 (Some (jurisdiction merchantData))
                 (Some (dataTypes merchantData))) in
    let result :=
      performGapAnalysis findApplicableRules now merchantId merchantData in
    let totals := scoreLoop now rules merchantData in
    let status r := currentStatus (analyzeRuleCompliance now r merchantData) in
    applicableRules result = rules /\
    gaps result = map (fun r => analyzeRuleCompliance now r merchantData) rules /\
    (inject_Z (maxScore totals) == spec_maxScore rules)%Q /\
    (inject_Z (totalScore_halves totals) * (1 # 2)
       == spec_totalScore now rules merchantData)%Q /\
    totalScore totals = (JS.Z2F (totalScore_halves totals) / 2)%float /\
    overallComplianceScore result =
      (if maxScore totals =? 0 then 100%float
       else JS.Math_round
              ((totalScore totals / JS.Z2F (maxScore totals)) * 100)%float) /\
    overallComplianceScore result =
      spec_binary64Score (spec_totalScore now rules merchantData)
                         (spec_maxScore rules) /\
    (forall r1 r2 : RegulatoryRule,
        rules = [r1; r2] \/ rules = [r2; r1] ->
        requirement r1 = MANDATORY -> status r1 = compliant ->
        requirement r2 = OPTIONAL -> status r2 = non_compliant ->
        overallComplianceScore result = 91%float /\
        spec_exactScore (spec_totalScore now rules merchantData)
                        (spec_maxScore rules) = 91).
Proof.
  intros findApplicableRules now merchantId merchantData rules result totals
    status.
  destruct (scoreLoop_invariant now merchantData rules (mkTotals [] 0 0))
    as (Hg & Hm & Ht & Hle).
  fold (scoreLoop now rules merchantData) in Hg, Hm, Ht, Hle.
  fold totals in Hg, Hm, Ht, Hle. cbn [loop_gaps maxScore totalScore_halves] in *.
  assert (Hmax : (inject_Z (maxScore totals) == spec_maxScore rules)%Q)
    by (rewrite Hm; ring).
  assert (Htot : (inject_Z (totalScore_halves totals)
                  == 2 * spec_totalScore now rules merchantData)%Q)
    by (rewrite Ht; ring).
  assert (Hscore : overallComplianceScore result =
                   (if maxScore totals =? 0 then 100%float
                    else JS.Math_round
                           ((totalScore totals / JS.Z2F (maxScore totals))
                            * 100)%float)).
  { subst result. unfold performGapAnalysis. cbn [overallComplianceScore].
    fold rules. fold totals. unfold scoreOf.
    destruct (Z.ltb_spec 0 (maxScore totals));
      destruct (Z.eqb_spec (maxScore totals) 0); try reflexivity; lia. }
  split; [reflexivity |].
  split; [exact Hg |].
  split; [exact Hmax |].
  split; [rewrite Ht; field |].
  split; [reflexivity |].
  split; [exact Hscore |].
  split.
  - rewrite Hscore. unfold spec_binary64Score, totalScore.
    rewrite (Qfloor_of_integer _ _ Htot), (Qfloor_of_integer _ _ Hmax).
    destruct (Z.eqb_spec (maxScore totals) 0) as [H0 | Hne].
    + assert (Hq : Qeq_bool (spec_maxScore rules) 0 = true).
      { apply Qeq_bool_iff. rewrite <- Hmax, H0. reflexivity. }
      rewrite Hq. reflexivity.
    + assert (Hq : Qeq_bool (spec_maxScore rules) 0 = false).
      { destruct (Qeq_bool (spec_maxScore rules) 0) eqn:E; [| reflexivity].
        apply Qeq_bool_iff in E. rewrite <- Hmax in E.
        exfalso. apply Hne. apply inject_Z_injective. exact E. }
      rewrite Hq. reflexivity.
  - intros r1 r2 Hrules Hq1 Hs1 Hq2 Hs2.
    subst result. unfold performGapAnalysis. cbn [overallComplianceScore].
    fold rules. fold totals. subst totals status.
    cbv beta in Hs1, Hs2.
    unfold spec_totalScore, spec_maxScore.
    destruct Hrules as [-> | ->]; unfold scoreLoop; cbn [fold_left map];
      unfold scoreStep; cbn [loop_gaps maxScore totalScore_halves];
      rewrite Hs1, Hs2, Hq1, Hq2; vm_compute; split; reflexivity.
Qed.

Lemma performGapAnalysis_weighted_score_witness :
  overallComplianceScore
    (performGapAnalysis (fun _ => [Samples.policyRule; Samples.cookieRule])
                        1700000000000 "shop-1" Samples.profile)
  = 91%float.
Proof.
  refine (proj1 (proj2 (proj2 (proj2 (proj2 (proj2 (proj2 (proj2
           (performGapAnalysis_weighted_score
              (fun _ => [Samples.policyRule; Samples.cookieRule])
              1700000000000 "shop-1" Samples.profile)))))))
           Samples.policyRule Samples.cookieRule _ _ _ _ _));
    [left |..]; reflexivity.
Defined.

(** The quotient is a binary64 number: where the exact quotient times 100
    ends in one half, the computed one may fall just below it.  With 29 of
    200 points the exact value is 14.5 and the program reports 14. *)
Remark scoreOf_rounds_the_binary64_quotient :
  totalScore (mkTotals [] 58 200) = 29%float /\
  (totalScore (mkTotals [] 58 200) / 200 * 100 <? 14.5)%float = true /\
  scoreOf (mkTotals [] 58 200) = 14%float.
Proof. vm_compute. repeat split. Qed.

(** ** Escalation *)





(** ** Priority actions *)

Lemma getRiskScore_le_4 l : getRiskScore l <= 4.
Proof. destruct l; cbn; lia. Qed.

(** A critical gap is put in front of whatever is sorted already. *)
Lemma sort_insert_critical x l :
  riskLevel x = critical -> JS.sort_insert byRisk x l = x :: l.
Proof.
  intros Hx. destruct l as [| y l]; [reflexivity |].
  cbn [JS.sort_insert]. unfold byRisk. rewrite Hx.
  pose proof (getRiskScore_le_4 (riskLevel y)).
  destruct (Z.leb_spec (getRiskScore (riskLevel y) - getRiskScore critical) 0);
    [reflexivity | cbn in *; lia].
Qed.

(** A high gap passes the critical ones and stops in front of the high
    ones. *)
Lemma sort_insert_high x cs hs :
  riskLevel x = high ->
  Forall (fun g => riskLevel g = critical) cs ->
  Forall (fun g => riskLevel g = high) hs ->
  JS.sort_insert byRisk x (cs ++ hs) = (cs ++ x :: hs)%list.
Proof.
  intros Hx Hcs Hhs. induction Hcs as [| c cs Hc Hcs IH].
  - destruct Hhs as [| h hs Hh Hhs]; [reflexivity |].
    cbn. unfold byRisk. rewrite Hx, Hh. reflexivity.
  - cbn. unfold byRisk at 1. rewrite Hx, Hc. cbn. rewrite IH. reflexivity.
Qed.

(** Sorting gaps that are all high or critical: the critical ones in their
    original order, then the high ones in their original order. *)
Lemma Array_sort_high_or_critical (l : list ComplianceGap) :
  Forall (fun g => high_or_critical g = true) l ->
  JS.Array_sort byRisk l = (filter is_critical l ++ filter is_high l)%list.
Proof.
  induction 1 as [| x l Hx Hl IH]; [reflexivity |].
  cbn [JS.Array_sort fold_right]. fold (JS.Array_sort byRisk l). rewrite IH.
  unfold high_or_critical in Hx. cbn [filter].
  destruct (riskLevel x) eqn:Ex; try discriminate.
  - assert (Hc : is_critical x = false) by (unfold is_critical; now rewrite Ex).
    assert (Hh : is_high x = true) by (unfold is_high; now rewrite Ex).
    rewrite Hc, Hh.
    apply sort_insert_high; [exact Ex | |];
      apply Forall_forall; intros g Hg; apply filter_In in Hg;
      destruct Hg as [_ Hg]; unfold is_critical, is_high in Hg;
      destruct (riskLevel g); try discriminate; reflexivity.
  - assert (Hc : is_critical x = true) by (unfold is_critical; now rewrite Ex).
    assert (Hh : is_high x = false) by (unfold is_high; now rewrite Ex).
    rewrite Hc, Hh. apply sort_insert_critical. exact Ex.
Qed.

Lemma filter_within {A : Type} (f g : A -> bool) (l : list A) :
  (forall x, f x = true -> g x = true) ->
  filter f (filter g l) = filter f l.
Proof.
  intros Hfg. induction l as [| x l IH]; [reflexivity |].
  cbn [filter]. destruct (g x) eqn:Eg; cbn [filter].
  - rewrite IH. reflexivity.
  - destruct (f x) eqn:Ef; [| exact IH].
    rewrite (Hfg x Ef) in Eg. discriminate.
Qed.

Lemma priorityGaps_characterised (gs : list ComplianceGap) :
  priorityGaps gs = firstn 5 (filter is_critical gs ++ filter is_high gs).
Proof.
  unfold priorityGaps, JS.slice0. fold byRisk. fold high_or_critical.
  change (fun gap : ComplianceGap => high_or_critical gap) with high_or_critical.
  rewrite Array_sort_high_or_critical.
  - f_equal. f_equal; apply filter_within; intros g;
      unfold is_critical, is_high, high_or_critical;
      destruct (riskLevel g); intros; try discriminate; reflexivity.
  - apply Forall_forall. intros g Hg. apply filter_In in Hg. tauto.
Qed.

Lemma In_firstn {A : Type} (n : nat) (l : list A) (x : A) :
  In x (firstn n l) -> In x l.
Proof.
  revert l. induction n as [| n IH]; intros [| y l] H; cbn in H; try contradiction.
  destruct H as [-> | H]; [left; reflexivity | right; apply IH; exact H].
Qed.

Lemma StronglySorted_firstn {A : Type} (R : A -> A -> Prop) (n : nat) (l : list A) :
  StronglySorted R l -> StronglySorted R (firstn n l).
Proof.
  intros H. revert n. induction H as [| x l Hs IH Hx]; intros [| n]; cbn;
    try constructor.
  - apply IH.
  - apply Forall_forall. intros y Hy. apply In_firstn in Hy.
    rewrite Forall_forall in Hx. apply Hx. exact Hy.
Qed.

Lemma tiers_sorted (gs : list ComplianceGap) :
  StronglySorted riskOrder (filter is_critical gs ++ filter is_high gs).
Proof.
  assert (Hc : Forall (fun g => riskLevel g = critical) (filter is_critical gs)).
  { apply Forall_forall. intros g Hg. apply filter_In in Hg.
    destruct Hg as [_ Hg]. unfold is_critical in Hg.
    destruct (riskLevel g); try discriminate; reflexivity. }
  assert (Hh : Forall (fun g => riskLevel g = high) (filter is_high gs)).
  { apply Forall_forall. intros g Hg. apply filter_In in Hg.
    destruct Hg as [_ Hg]. unfold is_high in Hg.
    destruct (riskLevel g); try discriminate; reflexivity. }
  induction Hc as [| c cs Ec Hc IH]; cbn [app].
  - induction Hh as [| h hs Eh Hh IHh]; constructor; [exact IHh |].
    apply Forall_forall. intros y Hy. rewrite Forall_forall in Hh.
    unfold riskOrder. rewrite Eh, (Hh y Hy). cbn. lia.
  - constructor; [exact IH |].
    apply Forall_forall. intros y Hy. unfold riskOrder. rewrite Ec.
    pose proof (getRiskScore_le_4 (riskLevel y)). cbn. lia.
Qed.

Lemma tiers_length (gs : list ComplianceGap) :
  List.length (filter is_critical gs ++ filter is_high gs)
  = List.length (filter high_or_critical gs).
Proof.
  rewrite length_app. induction gs as [| g gs IH]; [reflexivity |].
  cbn [filter]. unfold is_critical at 1, is_high at 1, high_or_critical at 1.
  destruct (riskLevel g); cbn; lia.
Qed.

(** C5.  [priorityActions] are the actions of the gaps chosen by the chain
    filter, sort, slice: at most five; each the action of a gap of the
    analysis whose risk level is high or critical; in descending order of
    [getRiskScore], that is the critical gaps in their original order
    followed by the high ones in their original order, cut after five; and
    none when no gap is high or critical. *)
Theorem priorityActions_capped_filtered_stable :
  forall (findApplicableRules : RegulatoryQueryDto -> list RegulatoryRule)
         (now : Z) (merchantId : string) (merchantData : MerchantData),
    let result :=
      performGapAnalysis findApplicableRules now merchantId merchantData in
    let chosen := priorityGaps (gaps result) in
    priorityActions result = map actionRequired chosen /\
    (List.length (priorityActions result) <= 5)%nat /\
    List.length (priorityActions result)
      = Nat.min 5 (List.length (filter high_or_critical (gaps result))) /\
    (forall a, In a (priorityActions result) ->
       exists g, In g (gaps result) /\
                 (riskLevel g = high \/ riskLevel g = critical) /\
                 actionRequired g = a) /\
    StronglySorted riskOrder chosen /\
    chosen = firstn 5 (filter is_critical (gaps result)
                         ++ filter is_high (gaps result)) /\
    ((forall g, In g (gaps result) ->
        riskLevel g <> high /\ riskLevel g <> critical) ->
     priorityActions result = []).
Proof.
  intros findApplicableRules now merchantId merchantData result chosen.
  assert (Hchosen : chosen = firstn 5 (filter is_critical (gaps result)
                                         ++ filter is_high (gaps result)))
    by apply priorityGaps_characterised.
  assert (Hactions : priorityActions result = map actionRequired chosen)
    by reflexivity.
  assert (Hlen : List.length (priorityActions result)
                 = Nat.min 5 (List.length (filter high_or_critical (gaps result)))).
  { rewrite Hactions, length_map, Hchosen, length_firstn, tiers_length.
    reflexivity. }
  split; [exact Hactions |].
  split; [rewrite Hlen; apply Nat.le_min_l |].
  split; [exact Hlen |].
  split; [| split; [| split; [exact Hchosen |]]].
  - intros a Ha. rewrite Hactions in Ha. apply in_map_iff in Ha.
    destruct Ha as (g & Hga & Hg). exists g.
    rewrite Hchosen in Hg. apply In_firstn in Hg. apply in_app_or in Hg.
    destruct Hg as [Hg | Hg]; apply filter_In in Hg; destruct Hg as [Hin Hg];
      unfold is_critical, is_high in Hg;
      destruct (riskLevel g); try discriminate; auto.
  - rewrite Hchosen. apply StronglySorted_firstn. apply tiers_sorted.
  - intros Hnone.
    assert (Hempty : filter high_or_critical (gaps result) = []).
    { revert Hnone. generalize (gaps result) as gs.
      induction gs as [| g gs IH]; intros Hnone; [reflexivity |].
      cbn [filter]. destruct (Hnone g (or_introl eq_refl)) as [Hh Hc].
      unfold high_or_critical at 1.
      destruct (riskLevel g); try contradiction; cbn;
        apply IH; intros g' Hg'; apply Hnone; right; exact Hg'. }
    rewrite Hempty in Hlen. cbn in Hlen.
    apply length_zero_iff_nil. exact Hlen.
Qed.

(** The sort on a mixed list: critical gaps first, ties in source order. *)
Example Array_sort_is_stable :
  let gap lv name := mkGap Samples.policyRule non_compliant lv name None in
  map actionRequired
      (JS.Array_sort byRisk
         [ gap high "h1"; gap critical "c1"; gap high "h2"; gap critical "c2" ])
  = [ "c1"; "c2"; "h1"; "h2" ].
Proof. reflexivity. Qed.

End RegulatoryProofs.

(* ================================================================== *)
(** * Properties of the third-party app risk model *)
(* ================================================================== *)

Module ThirdPartyAppsProofs.
Import ThirdPartyApps.

(** ** The values a sub-score can take *)

Lemma analyzeDataAccessRisk_scores app :
  In (score (analyzeDataAccessRisk app)) [0; 40; 60; 100; 80; 120].
Proof.
  unfold analyzeDataAccessRisk.
  destruct (dataAccessLevel app); cbn;
    (destruct (app_riskFactors app) as [rf |]; [| auto 10]);
    (destruct (dataTypes rf) as [types |]; [| auto 10]);
    destruct (filter _ types); cbn; auto 10.
Qed.

Lemma analyzePermissionRisk_scores app :
  In (score (analyzePermissionRisk app)) [0; 40; 70].
Proof.
  unfold analyzePermissionRisk.
  destruct (3 <? _); [cbn; auto |].
  destruct (0 <? _); cbn; auto.
Qed.

Lemma analyzeComplianceRisk_scores app :
  In (score (analyzeComplianceRisk app)) [0; 30; 60; 90].
Proof.
  unfold analyzeComplianceRisk.
  destruct (no_string _); destruct (is_string _ _); cbn; auto.
Qed.

Lemma analyzeSecurityRisk_scores app :
  In (score (analyzeSecurityRisk app)) [0; 30].
Proof.
  unfold analyzeSecurityRisk. destruct (is_string _ _); cbn; auto.
Qed.

Lemma analyzeReputationRisk_scores app :
  In (score (analyzeReputationRisk app)) [0; 40].
Proof.
  unfold analyzeReputationRisk. destruct (_ || _); cbn; auto.
Qed.

(** ** The composite on every combination of sub-scores *)

Ltac each_of H := cbn [In] in H; repeat (destruct H as [<- | H]); [.. | destruct H].

(** On each of the 288 combinations the binary64 computation of the program
    gives the exactly rounded and clamped weighted sum. *)
Lemma composite_table (d p c s r : Z) :
  In d [0; 40; 60; 100; 80; 120] -> In p [0; 40; 70] ->
  In c [0; 30; 60; 90] -> In s [0; 30] -> In r [0; 40] ->
  let raw := weightedScore d p c s r in
  let final := JS.Math_min 100 (JS.Math_max 0 (JS.Math_round raw)) in
  final = JS.Z2F (spec_riskScore d p c s r) /\
  calculateRiskLevel final = spec_riskLevel (spec_riskScore d p c s r) /\
  (final <=? 80)%float = true /\
  (JS.Math_round raw <=? 100)%float = true /\
  final = JS.Math_max 0 (JS.Math_round raw) /\
  Qle_bool (spec_weightedSum d p c s r) 80 = true /\
  (calculateRiskLevel final = CRITICAL ->
   final = 80%float /\ d = 120 /\ p = 70 /\ c = 90 /\ s = 30 /\ r = 40).
Proof.
  intros Hd Hp Hc Hs Hr.
  each_of Hd; each_of Hp; each_of Hc; each_of Hs; each_of Hr;
    vm_compute;
    repeat match goal with |- _ /\ _ => split end;
    try reflexivity; intros H; try discriminate H; repeat split.
Qed.

(** C3 as stated fails on its example "55 -> high": 55 is below 60, so the
    thresholds give medium.  [Samples.midApp] is an app whose composite
    score is 55; it is reported as medium. *)
Lemma riskScore_55_is_medium_not_high :
  riskScore (analyzeAppRisk Samples.midApp) = 55%float /\
  riskLevel (analyzeAppRisk Samples.midApp) = MEDIUM /\
  calculateRiskLevel 55 = MEDIUM /\
  calculateRiskLevel 55 <> HIGH.
Proof. vm_compute. repeat split. discriminate. Qed.

(** C3, amended.  For every app the composite [riskScore] is the weighted
    sum of the five sub-scores (weights 0.30, 0.25, 0.20, 0.15, 0.10)
    rounded to the nearest integer and clamped to [0, 100], and [riskLevel]
    follows from it by the thresholds: at least 80 critical, at least 60
    high, at least 40 medium, low below.  So 85 is critical, 55 and 45 are
    medium, 10 is low, and the boundaries 80, 60 and 40 belong to the upper
    level. *)
Theorem analyzeAppRisk_composite_score_and_level :
  forall app : ThirdPartyApp,
    let d := score (analyzeDataAccessRisk app) in
    let p := score (analyzePermissionRisk app) in
    let c := score (analyzeComplianceRisk app) in
    let s := score (analyzeSecurityRisk app) in
    let r := score (analyzeReputationRisk app) in
    let result := analyzeAppRisk app in
    riskScore result = JS.Z2F (spec_riskScore d p c s r) /\
    riskLevel result = spec_riskLevel (spec_riskScore d p c s r) /\
    riskLevel result = calculateRiskLevel (riskScore result) /\
    map calculateRiskLevel [85; 55; 45; 10]%float
      = [CRITICAL; MEDIUM; MEDIUM; LOW] /\
    map calculateRiskLevel [79; 80; 81; 59; 60; 61; 39; 40; 41]%float
      = [HIGH; CRITICAL; CRITICAL; MEDIUM; HIGH; HIGH; LOW; MEDIUM; MEDIUM].
Proof.
  intros app d p c s r result.
  destruct (composite_table d p c s r
              (analyzeDataAccessRisk_scores app)
              (analyzePermissionRisk_scores app)
              (analyzeComplianceRisk_scores app)
              (analyzeSecurityRisk_scores app)
              (analyzeReputationRisk_scores app))
    as (Hscore & Hlevel & _).
  split; [exact Hscore |].
  split; [exact Hlevel |].
  split; [reflexivity |].
  split; vm_compute; reflexivity.
Qed.

(** C10.  For every app the composite [riskScore] is at most 80: the
    weighted sum is at most 120*0.30 + 70*0.25 + 90*0.20 + 30*0.15 + 40*0.10
    = 80, so the clamp at 100 never changes the rounded sum; the level is
    critical only when the score is exactly 80, which takes every
    sub-analysis at its worst; and an app of that kind exists. *)
Theorem analyzeAppRisk_score_at_most_80 :
  forall app : ThirdPartyApp,
    let d := score (analyzeDataAccessRisk app) in
    let p := score (analyzePermissionRisk app) in
    let c := score (analyzeComplianceRisk app) in
    let s := score (analyzeSecurityRisk app) in
    let r := score (analyzeReputationRisk app) in
    let raw := weightedScore d p c s r in
    let result := analyzeAppRisk app in
    (riskScore result <=? 80)%float = true /\
    (JS.Math_round raw <=? 100)%float = true /\
    (spec_weightedSum d p c s r <= spec_weightedSum 120 70 90 30 40)%Q /\
    (spec_weightedSum 120 70 90 30 40 == 80)%Q /\
    d <= 120 /\ p <= 70 /\ c <= 90 /\ s <= 30 /\ r <= 40 /\
    JS.Math_min 100 (JS.Math_max 0 (JS.Math_round raw))
      = JS.Math_max 0 (JS.Math_round raw) /\
    (riskLevel result = CRITICAL ->
     riskScore result = 80%float /\
     d = 120 /\ p = 70 /\ c = 90 /\ s = 30 /\ r = 40) /\
    riskLevel (analyzeAppRisk Samples.worstApp) = CRITICAL.
Proof.
  intros app d p c s r raw result.
  pose proof (analyzeDataAccessRisk_scores app) as Hd.
  pose proof (analyzePermissionRisk_scores app) as Hp.
  pose proof (analyzeComplianceRisk_scores app) as Hc.
  pose proof (analyzeSecurityRisk_scores app) as Hs.
  pose proof (analyzeReputationRisk_scores app) as Hr.
  fold d in Hd. fold p in Hp. fold c in Hc. fold s in Hs. fold r in Hr.
  destruct (composite_table d p c s r Hd Hp Hc Hs Hr)
    as (_ & _ & H80 & H100 & Hclamp & Hsum & Hcrit).
  split; [exact H80 |].
  split; [exact H100 |].
  split.
  { apply Qle_bool_iff in Hsum.
    assert (Hmax : (spec_weightedSum 120 70 90 30 40 == 80)%Q) by reflexivity.
    rewrite Hmax. exact Hsum. }
  split; [reflexivity |].
  split; [cbn [In] in Hd; lia |].
  split; [cbn [In] in Hp; lia |].
  split; [cbn [In] in Hc; lia |].
  split; [cbn [In] in Hs; lia |].
  split; [cbn [In] in Hr; lia |].
  split; [exact Hclamp |].
  split; [exact Hcrit |].
  vm_compute. reflexivity.
Qed.

(** C7.  With no applicable rule the gap analysis reports 100 and no gap,
    and with no app the risk assessment reports zero counts and an overall
    score of 0: these two divisions are guarded.  The five components of
    [riskBreakdown] are not: each is [Math.round(0 / 0)], which is [NaN]. *)
Theorem performRiskAssessment_no_apps_breakdown_is_NaN :
  forall (date now : Z) (merchantId : string)
         (merchantData : Regulatory.MerchantData),
    let analysis :=
      Regulatory.performGapAnalysis (fun _ => []) now merchantId merchantData in
    let assessment := fst (performRiskAssessment date merchantId []) in
    Regulatory.overallComplianceScore analysis = 100%float /\
    Regulatory.gaps analysis = [] /\
    totalApps assessment = 0 /\
    highRiskApps assessment = 0 /\
    mediumRiskApps assessment = 0 /\
    lowRiskApps assessment = 0 /\
    overallRiskScore assessment = 0%float /\
    PrimFloat.is_nan (dataAccess (riskBreakdown assessment)) = true /\
    PrimFloat.is_nan (permissionsRisk (riskBreakdown assessment)) = true /\
    PrimFloat.is_nan (compliance (riskBreakdown assessment)) = true /\
    PrimFloat.is_nan (security (riskBreakdown assessment)) = true /\
    PrimFloat.is_nan (reputation (riskBreakdown assessment)) = true.
Proof.
  intros date now merchantId merchantData analysis assessment.
  repeat split; vm_compute; reflexivity.
Qed.

(** With at least one app the same components are numbers. *)
Example riskBreakdown_of_one_app :
  riskBreakdown (fst (performRiskAssessment 0 "shop-1" [Samples.worstApp]))
  = mkBreakdown 24 20 16 12 8.
Proof. vm_compute. reflexivity. Qed.

End ThirdPartyAppsProofs.

(* ================================================================== *)
(** * Properties of the compliance health check *)
(* ================================================================== *)

Module MonitoringProofs.
Import Effects Monitoring.

(** The health check in closed form: the staleness issue first, then the
    issues of the three other checks; the deductions add up and the score
    stops at 0. *)
Lemma performComplianceHealthCheck_closed_form w merchantId :
  merchantFound w merchantId = true ->
  let days :=
    match lastAuditCreatedAt w merchantId with
    | Some createdAt => Finite (daysSince w createdAt)
    | None => Infinity
    end in
  performComplianceHealthCheck w merchantId =
  Resolved
    (mkHealthCheck merchantId
       (Z.max 0 (100 - snd (spec_staleness days)
                 - other_deductions w merchantId))
       (fst (spec_staleness days) ++ other_issues w merchantId)%list
       (lastAuditCreatedAt w merchantId)
       (Some match lastAuditCreatedAt w merchantId with
             | Some createdAt => createdAt + 90 * 24 * 60 * 60 * 1000
             | None => new_Date w
             end)).
Proof.
  intros Hfound days. unfold performComplianceHealthCheck.
  rewrite Hfound. cbn [negb].
  change (1000 * 60 * 60 * 24) with 86400000.
  assert (Hdays : match lastAuditCreatedAt w merchantId with
                  | Some createdAt =>
                      Finite ((Date_now w - createdAt) / 86400000)
                  | None => Infinity
                  end = days) by reflexivity.
  rewrite Hdays. clearbody days.
  unfold spec_staleness, other_issues, other_deductions, spec_dsr,
    spec_withdrawals, spec_breaches.
  destruct (Days_gt days 90); [| destruct (Days_gt days 60)];
    destruct (Z.ltb_spec 0 (pendingDSRCount w merchantId));
    destruct (Z.ltb_spec 5 (pendingDSRCount w merchantId));
    try (exfalso; lia);
    destruct (0 <? overdueDSRCount w merchantId);
    destruct (10 <? recentWithdrawalCount w merchantId);
    destruct (0 <? recentBreachCount w merchantId);
    reflexivity.
Qed.

Lemma other_issues_are_not_about_audits w merchantId :
  Forall (fun i => type i <> "audit_overdue" /\ type i <> "audit_due_soon")
         (other_issues w merchantId).
Proof.
  unfold other_issues, spec_dsr, spec_withdrawals, spec_breaches.
  destruct (_ && _); [| destruct (5 <? _)];
    destruct (10 <? _); destruct (0 <? recentBreachCount _ _);
    cbn [fst app]; repeat constructor; discriminate.
Qed.

(** C8 as stated fails at the lower end of its range "60 to 90": an audit
    that is exactly 60 whole days old raises no issue and costs nothing. *)
Lemma audit_60_days_old_raises_no_issue :
  daysSince (Samples.auditedDaysAgo 60) (1700000000000 - 60 * 86400000) = 60 /\
  performComplianceHealthCheck (Samples.auditedDaysAgo 60) "shop-1"
  = Resolved
      (mkHealthCheck "shop-1" 100 []
         (Some (1700000000000 - 60 * 86400000))
         (Some (1700000000000 + 30 * 86400000))).
Proof. split; reflexivity. Qed.

(** C8, amended.  For an existing merchant the health check resolves, with
    a score of at least 0.  An audit more than 90 whole days old yields the
    high issue [audit_overdue] and a deduction of 20; one more than 60 and
    at most 90 days old yields the medium issue [audit_due_soon] and a
    deduction of 10; one at most 60 days old yields no issue about audits;
    a merchant with no audit is treated as the first case.  [nextAuditDue]
    is the date of the latest audit plus 90 days, or the current time when
    there is none. *)
Theorem healthCheck_staleness_and_next_audit :
  forall (w : Readings) (merchantId : string),
    merchantFound w merchantId = true ->
    exists r : ComplianceHealthCheck,
      performComplianceHealthCheck w merchantId = Resolved r /\
      0 <= overallScore r /\
      lastAuditDate r = lastAuditCreatedAt w merchantId /\
      match lastAuditCreatedAt w merchantId with
      | None =>
          issues r = audit_overdue :: other_issues w merchantId /\
          overallScore r
            = Z.max 0 (100 - 20 - other_deductions w merchantId) /\
          nextAuditDue r = Some (new_Date w)
      | Some createdAt =>
          let days := daysSince w createdAt in
          nextAuditDue r = Some (createdAt + 90 * 86400000) /\
          (90 < days ->
           issues r = audit_overdue :: other_issues w merchantId /\
           overallScore r
             = Z.max 0 (100 - 20 - other_deductions w merchantId)) /\
          (60 < days <= 90 ->
           issues r = audit_due_soon :: other_issues w merchantId /\
           overallScore r
             = Z.max 0 (100 - 10 - other_deductions w merchantId)) /\
          (days <= 60 ->
           issues r = other_issues w merchantId /\
           overallScore r = Z.max 0 (100 - other_deductions w merchantId))
      end /\
      severity audit_overdue = HIGH /\
      severity audit_due_soon = MEDIUM /\
      Forall (fun i => type i <> "audit_overdue" /\ type i <> "audit_due_soon")
             (other_issues w merchantId).
Proof.
  intros w merchantId Hfound.
  rewrite (performComplianceHealthCheck_closed_form w merchantId Hfound).
  eexists; split; [reflexivity |].
  cbn [overallScore issues lastAuditDate nextAuditDue].
  split; [apply Z.le_max_l |].
  split; [reflexivity |].
  split; [| split; [reflexivity | split; [reflexivity |]]].
  - destruct (lastAuditCreatedAt w merchantId) as [createdAt |].
    + cbn zeta. unfold spec_staleness, Days_gt.
      split; [f_equal; lia |].
      destruct (Z.ltb_spec 90 (daysSince w createdAt));
        [| destruct (Z.ltb_spec 60 (daysSince w createdAt))];
        cbn [fst snd app];
        (split; [| split]); intros Hdays; try (exfalso; lia);
        (split; [reflexivity | f_equal; lia]).
    + cbn. repeat split.
  - apply other_issues_are_not_about_audits.
Qed.

Lemma healthCheck_staleness_and_next_audit_witness :
  exists r : ComplianceHealthCheck,
    performComplianceHealthCheck (Samples.auditedDaysAgo 75) "shop-1"
      = Resolved r /\
    issues r = [audit_due_soon] /\
    overallScore r = 90 /\
    nextAuditDue r = Some (1700000000000 + 15 * 86400000).
Proof.
  destruct (healthCheck_staleness_and_next_audit
              (Samples.auditedDaysAgo 75) "shop-1" eq_refl)
    as (r & Hrun & _ & _ & Hcase & _).
  cbn in Hcase. destruct Hcase as (Hnext & _ & Hmid & _).
  destruct Hmid as (Hissues & Hscore);
    [vm_compute; split; [reflexivity | discriminate] |].
  exists r. repeat split; assumption.
Defined.

End MonitoringProofs.

(* ================================================================== *)
(** * Further properties of the audit pipeline and its reports *)
(* ================================================================== *)

Module ComplianceReportsProofs.
Import Effects Effects.Notations Compliance ComplianceReports.

(** What a resolved run of the checks has read, and what it resolves to. *)
Lemma performAuditChecks_resolved w merchantId r w1 :
  performAuditChecks merchantId w = (Resolved r, w1) ->
  exists policies points1 points2 points3,
    policyRows w merchantId = Resolved policies /\
    dataPointRows w (dataPointReads w) merchantId = Resolved points1 /\
    dataPointRows w (S (dataPointReads w)) merchantId = Resolved points2 /\
    dataPointRows w (S (S (dataPointReads w))) merchantId = Resolved points3 /\
    w1 = count_read (count_read (count_read w)) /\
    score r = 100 - (spec_policy_deduction policies
                     + spec_mapping_deduction points1
                     + spec_legal_deduction points2
                     + spec_retention_deduction points3) /\
    (findings r = [] <-> score r = 100) /\
    (List.length (recommendations r) <= List.length (findings r) <= 4)%nat /\
    (points1 = [] -> points2 = [] -> points3 = [] ->
     (List.length (findings r) <= 2)%nat) /\
    (points1 <> [] -> (List.length (findings r) <= 3)%nat).
Proof.
  unfold performAuditChecks, checkPrivacyPolicy, checkDataMapping,
    checkLegalBasis, checkRetentionPolicies, policyRepository_find,
    dataPointRepository_find, bind, settle, ret.
  destruct (policyRows w merchantId) as [policies |]; [| discriminate].
  destruct (dataPointRows w (dataPointReads w) merchantId) as [points1 |];
    [| discriminate].
  cbn [dataPointRows dataPointReads count_read].
  destruct (dataPointRows w (S (dataPointReads w)) merchantId) as [points2 |];
    [| discriminate].
  cbn [dataPointRows dataPointReads count_read].
  destruct (dataPointRows w (S (S (dataPointReads w))) merchantId)
    as [points3 |]; [| discriminate].
  cbv beta zeta. intros H. injection H as Hr Hw. subst r w1.
  exists policies, points1, points2, points3.
  do 5 (split; [reflexivity |]).
  rewrite !ComplianceProofs.filter_nonempty_existsb.
  repeat match goal with
         | |- context [mkFinding ?a ?b ?c ?d] =>
             generalize (mkFinding a b c d); intro
         | |- context [mkRecommendation ?a ?b ?c ?d ?e] =>
             generalize (mkRecommendation a b c d e); intro
         end.
  unfold spec_policy_deduction, spec_mapping_deduction, spec_legal_deduction,
    spec_retention_deduction.
  destruct policies as [| p ps];
    [| destruct (String.eqb (policy_status p) "published")];
    destruct points1 as [| q1 qs1];
    destruct (existsb _ points2) eqn:E2;
    destruct (existsb _ points3) eqn:E3;
    cbn [negb Nat.eqb List.length app check_findings check_recommendations
         deduction score findings recommendations];
    (split; [reflexivity |]);
    (split; [split; intros H; first [discriminate H | reflexivity | lia] |]);
    (split; [lia |]);
    (split; [intros H1 H2 H3; subst; try discriminate; lia
            | intros H1; try (exfalso; apply H1; reflexivity); lia]).
Qed.

Lemma find_updated_merchant merchantId newScore rows m :
  find (fun x => String.eqb (merchant_id x) merchantId) rows = Some m ->
  find (fun x => String.eqb (merchant_id x) merchantId)
       (map (fun x => if String.eqb (merchant_id x) merchantId
                      then mkMerchant (merchant_id x) newScore else x) rows)
  = Some (mkMerchant merchantId newScore).
Proof.
  induction rows as [| x rows IH]; cbn [find map]; [discriminate |].
  destruct (String.eqb (merchant_id x) merchantId) eqn:E.
  - intros _. cbn [merchant_id]. rewrite E.
    apply String.eqb_eq in E. rewrite E. reflexivity.
  - rewrite E. exact IH.
Qed.

Lemma find_last_saved rows a :
  audit_id a = Some (fresh_id rows) ->
  find (fun r => match audit_id r with
                 | Some i => Nat.eqb i (fresh_id rows)
                 | None => false
                 end) (rows ++ [a])
  = Some a.
Proof.
  intros Ha.
  assert (Hold : forall l, (forall r, In r l -> In r rows) ->
            find (fun r => match audit_id r with
                           | Some i => Nat.eqb i (fresh_id rows)
                           | None => false
                           end) (l ++ [a]) = Some a).
  { induction l as [| x l IH]; intros Hin; cbn [app find].
    - rewrite Ha, Nat.eqb_refl. reflexivity.
    - destruct (audit_id x) as [j |] eqn:Ej.
      + pose proof (ComplianceProofs.fresh_id_above rows x j
                      (Hin x (or_introl eq_refl)) Ej) as Hlt.
        destruct (Nat.eqb_spec j (fresh_id rows)); [lia |].
        apply IH. intros r Hr. apply Hin. right. exact Hr.
      + apply IH. intros r Hr. apply Hin. right. exact Hr. }
  apply Hold. auto.
Qed.

(** The store a successful run leaves, written out. *)
Lemma runComplianceAudit_resolved_run w w1 merchantId m r :
  merchantRow w merchantId = Some m ->
  performAuditChecks merchantId w = (Resolved r, w1) ->
  let a := mkAudit (Some (fresh_id (audits w))) m "comprehensive" "completed"
                   (Some (100 - score r)) (Some (findings r))
                   (Some (recommendations r)) None (Some (now w)) in
  runComplianceAudit merchantId w
  = (Resolved a,
     log_update (merchantId, score r)
       (set_merchants
          (map (fun x => if String.eqb (merchant_id x) merchantId
                         then mkMerchant (merchant_id x) (score r) else x)
               (merchants w))
          (set_audits (audits w ++ [a]) w1))).
Proof.
  intros Hm Hchecks a.
  pose proof (ComplianceProofs.performAuditChecks_reads_only w merchantId)
    as Hro.
  rewrite Hchecks in Hro. cbn [snd] in Hro. destruct Hro as (Hms & Ha & Hs).
  assert (Hnow : now w1 = now w).
  { apply performAuditChecks_resolved in Hchecks.
    destruct Hchecks as (? & ? & ? & ? & _ & _ & _ & _ & -> & _).
    reflexivity. }
  unfold runComplianceAudit, merchantsService_findById.
  unfold bind at 1. unfold merchantRow in Hm. rewrite Hm.
  unfold bind at 1. unfold auditRepository_save at 1.
  cbn [audit_id auditRepository_create].
  unfold try_catch. unfold bind at 1.
  rewrite ComplianceProofs.performAuditChecks_frame, Hchecks. cbn [fst snd].
  unfold bind, gets, auditRepository_save,
    merchantsService_updateComplianceScore, modify, ret.
  cbn [audit_id completed with_id audits set_audits now].
  rewrite ComplianceProofs.save_last_row by reflexivity.
  cbn [audits merchants scoreUpdates log_update set_merchants set_audits
       auditRepository_create with_id merchant auditType audit_status
       riskScore audit_findings audit_recommendations auditData completedAt
       now].
  rewrite Hnow, Hms. reflexivity.
Qed.

(** X1.  When the merchant exists and the checks resolve with [r],
    [runComplianceAudit] resolves with the audit it created: status
    "completed", risk score 100 minus the score, the findings and
    recommendations of [r], completed at the current time.  That audit is
    the one new row of the table, the merchant's compliance score has become
    the score of [r], and [updateComplianceScore] was called once.  The
    audit returned carries the merchant as read before the update;
    [getAuditById] with the new id gives the same columns with the merchant
    as the table now holds it, with the new score. *)
Theorem runComplianceAudit_success_path :
  forall (w w1 : World) (merchantId : string) (m : Merchant) (r : AuditResult),
    merchantRow w merchantId = Some m ->
    performAuditChecks merchantId w = (Resolved r, w1) ->
    exists (w' : World) (a : ComplianceAudit),
      runComplianceAudit merchantId w = (Resolved a, w') /\
      audits w' = (audits w ++ [a])%list /\
      a = mkAudit (Some (fresh_id (audits w))) m "comprehensive" "completed"
                  (Some (100 - score r)) (Some (findings r))
                  (Some (recommendations r)) None (Some (now w)) /\
      merchantRow w' merchantId = Some (mkMerchant merchantId (score r)) /\
      scoreUpdates w' = (scoreUpdates w ++ [(merchantId, score r)])%list /\
      merchant a = m /\
      fst (getAuditById (fresh_id (audits w)) w')
        = Resolved (mkLoaded a (Some (mkMerchant merchantId (score r)))).
Proof.
  intros w w1 merchantId m r Hm Hchecks.
  pose proof (ComplianceProofs.performAuditChecks_reads_only w merchantId)
    as Hro.
  rewrite Hchecks in Hro. cbn [snd] in Hro. destruct Hro as (_ & _ & Hs).
  rewrite (runComplianceAudit_resolved_run w w1 merchantId m r Hm Hchecks).
  eexists; eexists; split; [reflexivity |].
  cbn [audits scoreUpdates log_update set_merchants set_audits].
  split; [reflexivity |]. split; [reflexivity |].
  split; [unfold merchantRow; cbn [merchants];
          eapply find_updated_merchant; exact Hm |].
  split; [rewrite Hs; reflexivity |].
  split; [reflexivity |].
  unfold getAuditById, auditRepository_findOneById, bind, gets.
  cbn [audits fst log_update set_merchants set_audits].
  rewrite find_last_saved by reflexivity.
  cbn [merchant]. unfold merchantRow. cbn [merchants].
  assert (Hid : merchant_id m = merchantId).
  { unfold merchantRow in Hm. apply find_some in Hm.
    apply String.eqb_eq. apply Hm. }
  rewrite Hid. cbn [merchants log_update set_merchants set_audits].
  rewrite (find_updated_merchant merchantId (score r) (merchants w) m Hm).
  reflexivity.
Qed.

Lemma runComplianceAudit_success_path_witness :
  exists (w' : World) (a : ComplianceAudit),
    runComplianceAudit "shop-1" Samples.emptyWorld = (Resolved a, w') /\
    audit_status a = "completed" /\
    riskScore a = Some 55 /\
    merchantRow w' "shop-1" = Some (mkMerchant "shop-1" 45).
Proof.
  destruct (runComplianceAudit_success_path Samples.emptyWorld
              (snd (performAuditChecks "shop-1" Samples.emptyWorld)) "shop-1"
              Samples.shop
              (mkAuditResult 45 non_compliant
                 [ mkFinding "Privacy Policy" critical "No privacy policy found"
                     "Legal requirement violation - GDPR Article 13/14";
                   mkFinding "Data Mapping" high
                     "No data collection points mapped"
                     "Cannot demonstrate data processing compliance" ]
                 [ mkRecommendation urgent "Create Privacy Policy"
                     "Generate a GDPR-compliant privacy policy"
                     [ "Use AI policy generator"; "Review legal requirements";
                       "Publish policy" ]
                     "2-4 hours";
                   mkRecommendation priority_high "Map Data Collection Points"
                     "Identify and document all personal data collection"
                     [ "Audit data collection forms";
                       "Document processing purposes"; "Define legal basis" ]
                     "4-8 hours" ])
              eq_refl eq_refl)
    as (w' & a & Hrun & _ & Ha & Hm & _).
  subst a. eexists; eexists. split; [exact Hrun |].
  repeat split. exact Hm.
Defined.

(** X2.  For a merchant id with no row, [runComplianceAudit] rejects with
    "Merchant with ID <id> not found" before anything is written: no audit
    is created and the store is left as it was. *)
Theorem runComplianceAudit_unknown_merchant :
  forall (w : World) (merchantId : string),
    merchantRow w merchantId = None ->
    runComplianceAudit merchantId w
    = (Rejected (mkError ("Merchant with ID " ++ merchantId ++ " not found")),
       w).
Proof.
  intros w merchantId Hm.
  unfold runComplianceAudit, merchantsService_findById, bind.
  unfold merchantRow in Hm. rewrite Hm. reflexivity.
Qed.

Lemma runComplianceAudit_unknown_merchant_witness :
  runComplianceAudit "nobody" Samples.emptyWorld
  = (Rejected (mkError "Merchant with ID nobody not found"),
     Samples.emptyWorld).
Proof.
  apply (runComplianceAudit_unknown_merchant Samples.emptyWorld "nobody").
  reflexivity.
Defined.

Lemma performAuditChecks_resolves w merchantId policies points1 points2 points3 :
  policyRows w merchantId = Resolved policies ->
  dataPointRows w (dataPointReads w) merchantId = Resolved points1 ->
  dataPointRows w (S (dataPointReads w)) merchantId = Resolved points2 ->
  dataPointRows w (S (S (dataPointReads w))) merchantId = Resolved points3 ->
  exists r, performAuditChecks merchantId w
            = (Resolved r, count_read (count_read (count_read w))).
Proof.
  intros Hp H1 H2 H3.
  unfold performAuditChecks, checkPrivacyPolicy, checkDataMapping,
    checkLegalBasis, checkRetentionPolicies, policyRepository_find,
    dataPointRepository_find, bind, settle, ret.
  rewrite Hp.
  rewrite H1. cbn [dataPointRows dataPointReads count_read].
  rewrite H2. cbn [dataPointRows dataPointReads count_read].
  rewrite H3. eexists. reflexivity.
Qed.

(** X3.  Whenever the four reads resolve, the score is 100 minus the
    deductions with no clamping needed: it lies between 15 and 100, and is
    at least 40 when the three reads of data collection points return the
    same rows (no data point at all and a data point lacking something
    exclude each other).  The score is 100 exactly when there is no
    finding, there are at most four findings, and never more
    recommendations than findings. *)
Theorem performAuditChecks_score_range :
  forall (w : World) (merchantId : string) (policies : list PrivacyPolicy)
         (points1 points2 points3 : list DataCollectionPoint),
    policyRows w merchantId = Resolved policies ->
    dataPointRows w (dataPointReads w) merchantId = Resolved points1 ->
    dataPointRows w (S (dataPointReads w)) merchantId = Resolved points2 ->
    dataPointRows w (S (S (dataPointReads w))) merchantId = Resolved points3 ->
    exists (r : AuditResult) (w' : World),
      performAuditChecks merchantId w = (Resolved r, w') /\
      score r = 100 - (spec_policy_deduction policies
                       + spec_mapping_deduction points1
                       + spec_legal_deduction points2
                       + spec_retention_deduction points3) /\
      15 <= score r <= 100 /\
      (points2 = points1 -> points3 = points1 ->
       40 <= score r /\ (List.length (findings r) <= 3)%nat) /\
      (findings r = [] <-> score r = 100) /\
      (List.length (recommendations r) <= List.length (findings r) <= 4)%nat.
Proof.
  intros w merchantId policies points1 points2 points3 Hp H1 H2 H3.
  destruct (performAuditChecks_resolves w merchantId _ _ _ _ Hp H1 H2 H3)
    as (r & Hrun).
  exists r. eexists. split; [exact Hrun |].
  destruct (performAuditChecks_resolved w merchantId r _ Hrun)
    as (policies' & q1 & q2 & q3 & Hp' & H1' & H2' & H3' & _ & Hscore
        & Hnone & Hlen & Hempty & Hnonempty).
  rewrite Hp in Hp'. rewrite H1 in H1'. rewrite H2 in H2'. rewrite H3 in H3'.
  injection Hp' as <-. injection H1' as <-. injection H2' as <-.
  injection H3' as <-.
  split; [exact Hscore |].
  assert (Hpol : 0 <= spec_policy_deduction policies <= 30).
  { unfold spec_policy_deduction. destruct policies as [| p ps]; [lia |].
    destruct (String.eqb _ _); lia. }
  assert (Hmap : 0 <= spec_mapping_deduction points1 <= 25)
    by (unfold spec_mapping_deduction; destruct points1; lia).
  assert (Hleg : 0 <= spec_legal_deduction points2 <= 20)
    by (unfold spec_legal_deduction; destruct (existsb _ _); lia).
  assert (Hret : 0 <= spec_retention_deduction points3 <= 10)
    by (unfold spec_retention_deduction; destruct (existsb _ _); lia).
  split; [lia |].
  split; [| split; [exact Hnone | exact Hlen]].
  intros -> ->. destruct points1 as [| q qs].
  - change (spec_legal_deduction []) with 0 in Hscore.
    change (spec_retention_deduction []) with 0 in Hscore.
    split; [lia |].
    specialize (Hempty eq_refl eq_refl eq_refl). lia.
  - change (spec_mapping_deduction (q :: qs)) with 0 in Hscore.
    split; [lia |].
    apply Hnonempty. discriminate.
Qed.

Lemma performAuditChecks_score_range_witness :
  exists (r : AuditResult) (w' : World),
    performAuditChecks "shop-1" Samples.draftWorld = (Resolved r, w') /\
    score r = 55 /\ (List.length (findings r) <= 3)%nat.
Proof.
  destruct (performAuditChecks_score_range Samples.draftWorld "shop-1"
              [mkPolicy "draft"] [mkPoint None None] [mkPoint None None]
              [mkPoint None None] eq_refl eq_refl eq_refl eq_refl)
    as (r & w' & Hrun & Hscore & _ & Hsame & _).
  exists r, w'. split; [exact Hrun |]. split; [exact Hscore |].
  apply (Hsame eq_refl eq_refl).
Defined.

(** ** The data mapping *)

Section DataMapping.

Let retained (r : RetentionCompliance) : Z := defined r + undefined r + excessive r.

Let covered (c : LegalBasisCoverage) : Z :=
  consent c + contract c + legalObligation c + vitalInterests c
  + publicTask c + legitimateInterests c.

Let without_retention (rows : list DataPointRow) : Z :=
  Z.of_nat (List.length (filter (fun p => no_number (retentionPeriod p))
                                (map point rows))).

Let with_basis (rows : list DataPointRow) : Z :=
  Z.of_nat (List.length (filter (fun p => negb (no_string (legalBasis p)))
                                (map point rows))).

Lemma countPoint_retention acc row :
  let r := snd acc in
  let r' := snd (countPoint acc row) in
  retained r' = retained r + 1 /\
  undefined r' = undefined r + without_retention [row] /\
  excessive r <= excessive r' /\
  defined r <= defined r'.
Proof.
  destruct acc as [[c l] r]. unfold countPoint, retained, without_retention.
  cbn [snd map filter point]. destruct row as [[lb rp] cats purpose].
  cbn [point retentionPeriod].
  destruct rp as [days |]; cbn [no_number].
  - destruct (days =? 0); [cbn; lia |].
    destruct (2555 <? days); cbn; lia.
  - cbn; lia.
Qed.

Lemma countPoint_coverage acc row :
  let c := snd (fst acc) in
  let c' := snd (fst (countPoint acc row)) in
  covered c <= covered c' <= covered c + with_basis [row] /\
  consent c <= consent c' /\ contract c <= contract c' /\
  legalObligation c <= legalObligation c' /\
  vitalInterests c <= vitalInterests c' /\
  publicTask c <= publicTask c' /\
  legitimateInterests c <= legitimateInterests c'.
Proof.
  destruct acc as [[c l] r]. unfold countPoint, covered, with_basis.
  cbn [snd fst map filter point].
  destruct (no_string (legalBasis (point row))); cbn [negb List.length];
    [lia |].
  repeat match goal with
         | |- context [if JS.includes ?s ?p then _ else _] =>
             destruct (JS.includes s p)
         end;
    cbn [consent contract legalObligation vitalInterests publicTask
         legitimateInterests]; lia.
Qed.

Lemma countPoint_categories acc row :
  let c := fst (fst acc) in
  let c' := fst (fst (countPoint acc row)) in
  personal c <= personal c' <= personal c + 1 /\
  sensitive c <= sensitive c' <= sensitive c + 1 /\
  marketing c <= marketing c' <= marketing c + 1 /\
  analytics c <= analytics c' <= analytics c + 1.
Proof.
  destruct acc as [[c l] r]. unfold countPoint. cbn [fst].
  repeat match goal with
         | |- context [if ?b then mkCategorized _ _ _ _ else _] =>
             destruct b
         end;
    cbn [personal sensitive marketing analytics]; lia.
Qed.

Lemma countPoints_invariant rows acc :
  let acc' := fold_left countPoint rows acc in
  let n := Z.of_nat (List.length rows) in
  retained (snd acc') = retained (snd acc) + n /\
  undefined (snd acc') = undefined (snd acc) + without_retention rows /\
  (excessive (snd acc) <= excessive (snd acc') /\
   defined (snd acc) <= defined (snd acc')) /\
  covered (snd (fst acc)) <= covered (snd (fst acc'))
    <= covered (snd (fst acc)) + with_basis rows /\
  (consent (snd (fst acc)) <= consent (snd (fst acc')) /\
   contract (snd (fst acc)) <= contract (snd (fst acc')) /\
   legalObligation (snd (fst acc)) <= legalObligation (snd (fst acc')) /\
   vitalInterests (snd (fst acc)) <= vitalInterests (snd (fst acc')) /\
   publicTask (snd (fst acc)) <= publicTask (snd (fst acc')) /\
   legitimateInterests (snd (fst acc))
     <= legitimateInterests (snd (fst acc'))) /\
  personal (fst (fst acc)) <= personal (fst (fst acc'))
    <= personal (fst (fst acc)) + n /\
  sensitive (fst (fst acc)) <= sensitive (fst (fst acc'))
    <= sensitive (fst (fst acc)) + n /\
  marketing (fst (fst acc)) <= marketing (fst (fst acc'))
    <= marketing (fst (fst acc)) + n /\
  analytics (fst (fst acc)) <= analytics (fst (fst acc'))
    <= analytics (fst (fst acc)) + n.
Proof.
  revert acc. induction rows as [| row rows IH]; intros acc.
  - cbn [fold_left List.length]. unfold without_retention, with_basis.
    cbn [map filter List.length]. cbn zeta. lia.
  - cbn [fold_left]. specialize (IH (countPoint acc row)).
    cbn zeta in IH |- *.
    pose proof (countPoint_retention acc row) as Hr.
    pose proof (countPoint_coverage acc row) as Hc.
    pose proof (countPoint_categories acc row) as Hk.
    cbn zeta in Hr, Hc, Hk.
    assert (Hwr : without_retention (row :: rows)
                  = without_retention [row] + without_retention rows).
    { unfold without_retention. cbn [map filter].
      destruct (no_number _); cbn [List.length]; lia. }
    assert (Hwb : with_basis (row :: rows)
                  = with_basis [row] + with_basis rows).
    { unfold with_basis. cbn [map filter].
      destruct (negb _); cbn [List.length]; lia. }
    rewrite Hwr, Hwb.
    replace (Z.of_nat (List.length (row :: rows)))
      with (Z.of_nat (List.length rows) + 1) by (cbn [List.length]; lia).
    lia.
Qed.

(** X4.  For data collection points whose purpose and legal basis are
    ASCII text, the data mapping counts every point once for retention:
    defined, undefined and excessive add up to the number of points, and
    undefined counts exactly the points the retention check of the audit
    objects to (so it is positive exactly when that check deducts its 10
    points).  The six legal-basis counters together count at most the
    points that have a legal basis, each of the four category counters at
    most every point, and none of the thirteen counters is negative.  When
    the read rejects, so does the mapping. *)
Theorem getDataMapping_counts :
  forall rows : list DataPointRow,
    forallb ascii_row rows = true ->
    (forall e, getDataMapping (Rejected e) = Rejected e) /\
    exists m : DataMappingResult,
      getDataMapping (Resolved rows) = Resolved m /\
      totalDataPoints m = Z.of_nat (List.length rows) /\
      defined (retentionCompliance m) + undefined (retentionCompliance m)
        + excessive (retentionCompliance m) = totalDataPoints m /\
      undefined (retentionCompliance m)
        = Z.of_nat (List.length
                      (filter (fun p => no_number (retentionPeriod p))
                              (map point rows))) /\
      (0 < undefined (retentionCompliance m) <->
       spec_retention_deduction (map point rows) = 10) /\
      0 <= defined (retentionCompliance m) /\
      0 <= undefined (retentionCompliance m) /\
      0 <= excessive (retentionCompliance m) /\
      (let c := legalBasisCoverage m in
       0 <= consent c /\ 0 <= contract c /\ 0 <= legalObligation c /\
       0 <= vitalInterests c /\ 0 <= publicTask c /\
       0 <= legitimateInterests c /\
       consent c + contract c + legalObligation c + vitalInterests c
       + publicTask c + legitimateInterests c
       <= Z.of_nat (List.length
                      (filter (fun p => negb (no_string (legalBasis p)))
                              (map point rows)))) /\
      (let c := categorizedData m in
       0 <= personal c <= totalDataPoints m /\
       0 <= sensitive c <= totalDataPoints m /\
       0 <= marketing c <= totalDataPoints m /\
       0 <= analytics c <= totalDataPoints m).
Proof.
  intros rows _. split; [reflexivity |].
  pose proof (countPoints_invariant rows
                (mkCategorized 0 0 0 0, mkCoverage 0 0 0 0 0 0,
                 mkRetention 0 0 0)) as H.
  cbn zeta in H. unfold getDataMapping.
  destruct (fold_left countPoint rows _) as [[c l] r].
  eexists; split; [reflexivity |].
  cbn [totalDataPoints retentionCompliance legalBasisCoverage categorizedData].
  unfold retained, covered, without_retention, with_basis in H.
  cbn [fst snd defined undefined excessive consent contract legalObligation
       vitalInterests publicTask legitimateInterests personal sensitive
       marketing analytics] in H.
  destruct H as (Hret & Hund & (Hexc & Hdef) & Hcov & Heach & Hp & Hs & Hm & Ha).
  split; [reflexivity |].
  split; [lia |].
  split; [lia |].
  split.
  { rewrite Hund. unfold spec_retention_deduction.
    rewrite <- ComplianceProofs.filter_nonempty_existsb.
    destruct (List.length (filter _ (map point rows))); cbn; split; intros;
      try lia; try discriminate; reflexivity. }
  split; [lia |].
  split; [lia |].
  split; [lia |].
  split; cbn zeta; lia.
Qed.

End DataMapping.

Example getDataMapping_sample :
  getDataMapping (Resolved ReportSamples.rows)
  = Resolved (mkMapping 3 (mkCategorized 1 1 1 1) (mkCoverage 1 1 0 0 0 1)
                        (mkRetention 1 1 1)).
Proof. vm_compute. reflexivity. Qed.

Lemma getDataMapping_counts_witness :
  exists m : DataMappingResult,
    getDataMapping (Resolved ReportSamples.rows) = Resolved m /\
    defined (retentionCompliance m) + undefined (retentionCompliance m)
      + excessive (retentionCompliance m) = 3.
Proof.
  destruct (getDataMapping_counts ReportSamples.rows eq_refl)
    as (_ & m & Hrun & Htotal & Hsum & _).
  exists m. split; [exact Hrun |]. rewrite Hsum, Htotal. reflexivity.
Defined.

(** ** The dashboard *)

(** X5.  [getDashboardData] never rejects and writes nothing.  For an empty
    merchant id, a merchant with no row, or a rejected read of the data
    collection points or of the policies, it resolves to the fixed mock
    figures (score 75, status "warning", 2 critical and 8 total issues). *)
Theorem getDashboardData_never_rejects :
  forall (w : World) (merchantId : string),
    exists (d : Dashboard) (w' : World),
      getDashboardData merchantId w = (Resolved d, w') /\
      merchants w' = merchants w /\ audits w' = audits w /\
      scoreUpdates w' = scoreUpdates w /\
      ((merchantId = "" \/ merchantRow w merchantId = None \/
        (exists e, dataPointRows w (dataPointReads w) merchantId = Rejected e) \/
        (exists e, policyRows w merchantId = Rejected e)) ->
       d = mkDashboard 75 "warning" (iso_string (now w)) 2 8 85 "compliant" 12
                       "medium").
Proof.
  intros w merchantId.
  unfold getDashboardData, try_catch, getMockDashboardData,
    merchantsService_findById, auditRepository_findLatest,
    dataPointRepository_count, policyRepository_countPublished,
    dataPointRepository_find, policyRepository_find, merchantRow,
    bind, gets, settle, ret.
  destruct (String.eqb_spec merchantId "") as [-> | Hid].
  { eexists; eexists. repeat split. }
  destruct (find _ (merchants w)) as [m |].
  2:{ eexists; eexists. repeat split. }
  destruct (dataPointRows w (dataPointReads w) merchantId) as [points | e1].
  2:{ eexists; eexists. repeat split. }
  cbn [policyRows count_read].
  destruct (policyRows w merchantId) as [policies | e2].
  2:{ eexists; eexists. repeat split. }
  eexists; eexists. split; [reflexivity |].
  repeat split.
  intros [H | [H | [[e H] | [e H]]]]; [contradiction | discriminate ..].
Qed.

Lemma find_some_id merchantId rows m :
  find (fun x => String.eqb (merchant_id x) merchantId) rows = Some m ->
  merchant_id m = merchantId.
Proof.
  intros H. apply find_some in H. destruct H as [_ H].
  apply String.eqb_eq. exact H.
Qed.

(** X6.  The dashboard read right after a successful audit.  It shows the
    score of the audit, except that a perfect score of 100 (risk score 0)
    is shown as 75; its status is "compliant" whatever the audit found; the
    issue counts are those of the findings, except that no critical finding
    is shown as 2 and no finding at all as 8.  So a merchant with nothing to
    fix is shown 75, 2 critical issues and 8 issues. *)
Theorem getDashboardData_after_audit :
  forall (w w1 : World) (merchantId : string) (m : Merchant) (r : AuditResult)
         (points : list DataCollectionPoint),
    merchantId <> "" ->
    merchantRow w merchantId = Some m ->
    performAuditChecks merchantId w = (Resolved r, w1) ->
    dataPointRows w (S (S (S (dataPointReads w)))) merchantId
      = Resolved points ->
    exists d : Dashboard,
      fst (getDashboardData merchantId (snd (runComplianceAudit merchantId w)))
        = Resolved d /\
      complianceScore d = (if score r =? 100 then 75 else score r) /\
      dashboard_status d = "compliant" /\
      lastAuditDate d = date_object (now w) /\
      criticalIssues d
        = or_number (Z.of_nat (List.length (filter is_critical (findings r))))
                    2 /\
      totalIssues d = or_number (Z.of_nat (List.length (findings r))) 8 /\
      (score r = 100 ->
       complianceScore d = 75 /\ criticalIssues d = 2 /\ totalIssues d = 8).
Proof.
  intros w w1 merchantId m r points Hid Hm Hchecks Hpoints.
  rewrite (runComplianceAudit_resolved_run w w1 merchantId m r Hm Hchecks).
  cbn [snd].
  destruct (performAuditChecks_resolved w merchantId r w1 Hchecks)
    as (policies & q1 & q2 & q3 & Hp & _ & _ & _ & -> & _ & Hnone & _).
  pose proof (find_some_id merchantId (merchants w) m Hm) as Hmid.
  unfold getDashboardData, try_catch, getMockDashboardData,
    merchantsService_findById, auditRepository_findLatest,
    dataPointRepository_count, policyRepository_countPublished,
    dataPointRepository_find, policyRepository_find,
    bind, gets, settle, ret.
  destruct (String.eqb_spec merchantId ""); [contradiction |].
  cbn [merchants audits dataPointRows dataPointReads policyRows now
       log_update set_merchants set_audits count_read].
  rewrite (find_updated_merchant merchantId (score r) (merchants w) m Hm).
  cbn [merchants audits dataPointRows dataPointReads policyRows now
       log_update set_merchants set_audits count_read].
  rewrite Hpoints.
  cbn [merchants audits dataPointRows dataPointReads policyRows now
       log_update set_merchants set_audits count_read].
  rewrite Hp.
  rewrite rev_app_distr. cbn [rev app find merchant].
  rewrite Hmid, String.eqb_refl.
  eexists. split; [reflexivity |].
  cbn [complianceScore dashboard_status lastAuditDate criticalIssues
       totalIssues riskScore audit_status completedAt audit_findings fst].
  assert (Hscore : (if 100 - score r =? 0 then 75 else 100 - (100 - score r))
                   = (if score r =? 100 then 75 else score r)).
  { destruct (Z.eqb_spec (100 - score r) 0);
      destruct (Z.eqb_spec (score r) 100); lia. }
  rewrite Hscore.
  do 5 (split; [reflexivity |]).
  intros H100. apply Hnone in H100. rewrite H100.
  destruct (Z.eqb_spec (score r) 100) as [_ | Hne].
  - repeat split.
  - exfalso. apply Hne. apply Hnone. exact H100.
Qed.

Lemma getDashboardData_after_audit_witness :
  exists d : Dashboard,
    fst (getDashboardData "shop-1"
           (snd (runComplianceAudit "shop-1" ReportSamples.perfectWorld)))
      = Resolved d /\
    complianceScore d = 75 /\ criticalIssues d = 2 /\ totalIssues d = 8 /\
    dashboard_status d = "compliant".
Proof.
  destruct (getDashboardData_after_audit ReportSamples.perfectWorld
              (snd (performAuditChecks "shop-1" ReportSamples.perfectWorld))
              "shop-1" Samples.shop (mkAuditResult 100 compliant [] [])
              [mkPoint (Some "consent") (Some 365)])
    as (d & Hrun & _ & Hstatus & _ & _ & _ & Hperfect);
    [discriminate | reflexivity | reflexivity | reflexivity |].
  destruct (Hperfect eq_refl) as (Hs & Hc & Ht).
  exists d. repeat split; assumption.
Defined.

End ComplianceReportsProofs.

(* ================================================================== *)
(** * Further properties of the regulatory gap analysis *)
(* ================================================================== *)

Module RegulatoryGapProofs.
Import Regulatory.

(** X7.  What a gap reports follows from its status.  A compliant gap is
    low risk and has no deadline (and only a compliant gap has none); a
    partial gap is medium; a non-compliant gap is never low, and high or
    critical when its rule is mandatory.  Rules on data subject rights, data
    collection, data retention, cross-border transfer and breach
    notification are never classified compliant. *)
Theorem gap_risk_follows_status :
  forall (now : Z) (r : RegulatoryRule) (merchantData : MerchantData),
    let g := analyzeRuleCompliance now r merchantData in
    rule g = r /\
    (currentStatus g = compliant <-> deadline g = None) /\
    (currentStatus g = compliant -> riskLevel g = low) /\
    (currentStatus g = partial -> riskLevel g = medium) /\
    (currentStatus g = non_compliant ->
     riskLevel g <> low /\
     (requirement r = MANDATORY -> high_or_critical g = true)) /\
    (In (category r)
        [ DATA_SUBJECT_RIGHTS; DATA_COLLECTION; DATA_RETENTION;
          CROSS_BORDER_TRANSFER; BREACH_NOTIFICATION ] ->
     currentStatus g <> compliant).
Proof.
  intros now r merchantData g. subst g.
  unfold analyzeRuleCompliance, classify, calculateDeadline, high_or_critical.
  destruct r as [reg cat title req]. cbn [category requirement Regulatory.title].
  destruct cat;
    repeat match goal with
           | |- context [if JS.Array_includes ?l ?x then _ else _] =>
               destruct (JS.Array_includes l x)
           end;
    destruct req; cbn;
    (split; [reflexivity |]);
    (split; [split; intros H; first [reflexivity | discriminate H] |]);
    repeat split; intros; try discriminate; try reflexivity;
    repeat match goal with
           | H : _ \/ _ |- _ => destruct H
           | H : False |- _ => destruct H
           end;
    try discriminate.
Qed.

Section Totals.
Variable now : Z.
Variable merchantData : MerchantData.

Let analyze (r : RegulatoryRule) : ComplianceGap :=
  analyzeRuleCompliance now r merchantData.

(** The totals of the loop as integers: what each rule adds. *)
Lemma scoreLoop_bounds (rules : list RegulatoryRule) (acc : Totals) :
  let t := fold_left (scoreStep now merchantData) rules acc in
  let n := Z.of_nat (List.length rules) in
  let gained := totalScore_halves t - totalScore_halves acc in
  let possible := maxScore t - maxScore acc in
  n <= possible <= 10 * n /\
  0 <= gained <= 2 * possible /\
  (gained = 2 * possible <->
   Forall (fun g => currentStatus g = compliant) (map analyze rules)) /\
  (gained = 0 <->
   Forall (fun g => currentStatus g = non_compliant) (map analyze rules)).
Proof.
  revert acc. induction rules as [| r rules IH]; intros acc.
  - cbn [fold_left List.length map]. cbn zeta.
    repeat split; intros; first [lia | constructor].
  - cbn [fold_left]. specialize (IH (scoreStep now merchantData acc r)).
    cbn zeta in IH |- *. destruct IH as (Hposs & Hgain & Hall & Hnone).
    set (acc1 := scoreStep now merchantData acc r) in *.
    assert (Hmax1 : maxScore acc1
                    = maxScore acc + getRuleWeight (requirement r))
      by reflexivity.
    assert (Hhalves1 : totalScore_halves acc1
                       = totalScore_halves acc
                         + match currentStatus (analyze r) with
                           | compliant => 2 * getRuleWeight (requirement r)
                           | partial => getRuleWeight (requirement r)
                           | non_compliant => 0
                           end).
    { subst acc1. unfold scoreStep. cbn [totalScore_halves].
      fold (analyze r). destruct (currentStatus (analyze r)); lia. }
    clearbody acc1.
    replace (Z.of_nat (List.length (r :: rules)))
      with (Z.of_nat (List.length rules) + 1) by (cbn [List.length]; lia).
    cbn [map].
    assert (Hw : 1 <= getRuleWeight (requirement r) <= 10)
      by (destruct (requirement r); cbn; lia).
    destruct (currentStatus (analyze r)) eqn:Est;
      (split; [lia |]); (split; [lia |]);
      split; split; intros H;
      first
        [ exfalso; lia
        | constructor;
          [exact Est | first [apply Hall; lia | apply Hnone; lia]]
        | inversion H as [| g gs Hhd Htl]; subst;
          first [ congruence
                | apply Hall in Htl; lia
                | apply Hnone in Htl; lia ] ].
Qed.

End Totals.

Lemma gap_keeps_its_rule now r merchantData :
  rule (analyzeRuleCompliance now r merchantData) = r.
Proof.
  unfold analyzeRuleCompliance.
  destruct (classify r merchantData) as [[st lv] act]. reflexivity.
Qed.

Lemma mandatory_non_compliant_is_priority now r merchantData :
  requirement r = MANDATORY ->
  currentStatus (analyzeRuleCompliance now r merchantData) = non_compliant ->
  high_or_critical (analyzeRuleCompliance now r merchantData) = true.
Proof.
  unfold analyzeRuleCompliance, classify, high_or_critical.
  destruct r as [reg cat title req]. cbn [category requirement].
  intros ->.
  destruct cat;
    repeat match goal with
           | |- context [if JS.Array_includes ?l ?x then _ else _] =>
               destruct (JS.Array_includes l x)
           end;
    cbn [currentStatus riskLevel]; intros H;
    first [discriminate H | reflexivity].
Qed.

Lemma filter_nil_iff {A : Type} (f : A -> bool) (l : list A) :
  filter f l = [] <-> Forall (fun x => f x = false) l.
Proof.
  induction l as [| x l IH]; cbn [filter].
  - split; intros; [constructor | reflexivity].
  - destruct (f x) eqn:E; split; intros H.
    + discriminate.
    + inversion H; subst. congruence.
    + constructor; [exact E | apply IH; exact H].
    + inversion H; subst. apply IH. assumption.
Qed.

(** X8.  The analysis keeps one gap per applicable rule, in order, each
    carrying its rule.  The totals satisfy 0 <= totalScore <= maxScore, and
    maxScore is between one and ten times the number of rules, so it is 0
    only when no rule applies.  totalScore reaches maxScore exactly when
    every gap is compliant and is 0 exactly when every gap is
    non-compliant.  There is no priority action exactly when no gap is high
    or critical; in particular one mandatory non-compliant rule is enough
    to have a priority action. *)
Theorem performGapAnalysis_totals_and_priorities :
  forall (findApplicableRules : RegulatoryQueryDto -> list RegulatoryRule)
         (now : Z) (merchant : string) (merchantData : MerchantData),
    let rules :=
      findApplicableRules
        (mkQuery None None (Some (businessType merchantData))
                 (Some (jurisdiction merchantData))
                 (Some (dataTypes merchantData))) in
    let result :=
      performGapAnalysis findApplicableRules now merchant merchantData in
    let totals := scoreLoop now rules merchantData in
    merchantId result = merchant /\
    map rule (gaps result) = rules /\
    List.length (gaps result) = List.length rules /\
    0 <= totalScore_halves totals <= 2 * maxScore totals /\
    Z.of_nat (List.length rules) <= maxScore totals
      <= 10 * Z.of_nat (List.length rules) /\
    (maxScore totals = 0 <-> rules = []) /\
    (totalScore_halves totals = 2 * maxScore totals <->
     Forall (fun g => currentStatus g = compliant) (gaps result)) /\
    (totalScore_halves totals = 0 <->
     Forall (fun g => currentStatus g = non_compliant) (gaps result)) /\
    (priorityActions result = [] <->
     Forall (fun g => high_or_critical g = false) (gaps result)) /\
    (forall r, In r rules -> requirement r = MANDATORY ->
               currentStatus (analyzeRuleCompliance now r merchantData)
                 = non_compliant ->
               priorityActions result <> []).
Proof.
  intros findApplicableRules now merchant merchantData rules result totals.
  destruct (RegulatoryProofs.scoreLoop_invariant now merchantData rules
              (mkTotals [] 0 0)) as (Hg & _).
  fold (scoreLoop now rules merchantData) in Hg. fold totals in Hg.
  cbn [loop_gaps app] in Hg.
  assert (Hgaps : gaps result
                  = map (fun r => analyzeRuleCompliance now r merchantData)
                        rules) by exact Hg.
  pose proof (scoreLoop_bounds now merchantData rules (mkTotals [] 0 0)) as Hb.
  cbn zeta in Hb. fold (scoreLoop now rules merchantData) in Hb.
  fold totals in Hb. cbn [maxScore totalScore_halves] in Hb.
  rewrite !Z.sub_0_r in Hb. destruct Hb as (Hposs & Hgain & Hall & Hnone).
  assert (Hprio : priorityActions result = [] <->
                  Forall (fun g => high_or_critical g = false) (gaps result)).
  { rewrite <- filter_nil_iff.
    change (priorityActions result)
      with (map actionRequired (priorityGaps (gaps result))).
    rewrite RegulatoryProofs.priorityGaps_characterised.
    rewrite <- !length_zero_iff_nil, length_map, length_firstn,
      RegulatoryProofs.tiers_length.
    destruct (List.length (filter high_or_critical (gaps result)));
      cbn; split; intros; first [reflexivity | discriminate]. }
  split; [reflexivity |].
  split.
  { rewrite Hgaps, map_map. rewrite <- (map_id rules) at 2.
    apply map_ext. intros r. apply gap_keeps_its_rule. }
  split; [rewrite Hgaps; apply length_map |].
  split; [exact Hgain |].
  split; [exact Hposs |].
  split.
  { split.
    - intros H0. destruct rules; [reflexivity | cbn [List.length] in Hposs; lia].
    - intros H0. rewrite H0 in Hposs. cbn in Hposs. lia. }
  split; [rewrite Hgaps; exact Hall |].
  split; [rewrite Hgaps; exact Hnone |].
  split; [exact Hprio |].
  intros r Hin Hreq Hst Hempty. apply Hprio in Hempty.
  rewrite Forall_forall in Hempty.
  specialize (Hempty (analyzeRuleCompliance now r merchantData)).
  rewrite (mandatory_non_compliant_is_priority now r merchantData Hreq Hst)
    in Hempty.
  assert (Hin' : In (analyzeRuleCompliance now r merchantData) (gaps result))
    by (rewrite Hgaps;
        apply (in_map (fun x => analyzeRuleCompliance now x merchantData));
        exact Hin).
  specialize (Hempty Hin'). discriminate.
Qed.

End RegulatoryGapProofs.
(* ================================================================== *)
(** * Properties of the app scan *)
(* ================================================================== *)

Module AppScanProofs.
Import ThirdPartyApps AppScan.

(** ** Access level of a set of scopes *)

Lemma filter_length_zero {A : Type} (f : A -> bool) (l : list A) :
  List.length (filter f l) = 0%nat <-> forall x, In x l -> f x = false.
Proof.
  induction l as [| y l IH]; cbn.
  - split; [intros _ x [] | reflexivity].
  - destruct (f y) eqn:Hy; cbn.
    + split; [discriminate |].
      intros H. rewrite (H y) in Hy by auto. discriminate.
    + rewrite IH. split.
      * intros H x [<- | Hx]; auto.
      * intros H x Hx. apply H. auto.
Qed.

Lemma filter_length_pos {A : Type} (f : A -> bool) (l : list A) :
  (0 < List.length (filter f l))%nat <-> exists x, In x l /\ f x = true.
Proof.
  split.
  - intros H. destruct (filter f l) as [| x xs] eqn:Hf; [cbn in H; lia |].
    exists x. apply filter_In. rewrite Hf. left. reflexivity.
  - intros (x & Hx & Hfx).
    assert (Hin : In x (filter f l)) by (apply filter_In; auto).
    destruct (filter f l); [destruct Hin | cbn; lia].
Qed.

(** X9.  [determineDataAccessLevel] never answers [ADMIN]; it answers
    read-only exactly when no scope mentions "write" or "read_all", full
    access exactly when more than three scopes mention "write" or some scope
    mentions "read_all"; and asking for more scopes never lowers the
    level. *)
Theorem determineDataAccessLevel_characterised :
  forall scopes more : list string,
    let writes l :=
      List.length (filter (fun scope => JS.includes scope "write") l) in
    accessRank (determineDataAccessLevel scopes) <= 2 /\
    (determineDataAccessLevel scopes = READ_ONLY <->
     forall s, In s scopes ->
               JS.includes s "write" = false /\
               JS.includes s "read_all" = false) /\
    (determineDataAccessLevel scopes = FULL_ACCESS <->
     (3 < writes scopes)%nat \/
     exists s, In s scopes /\ JS.includes s "read_all" = true) /\
    accessRank (determineDataAccessLevel scopes)
      <= accessRank (determineDataAccessLevel (scopes ++ more)) /\
    accessRank (determineDataAccessLevel more)
      <= accessRank (determineDataAccessLevel (scopes ++ more)).
Proof.
  intros scopes more writes.
  assert (Hlevel : forall l,
             determineDataAccessLevel l =
             if (Nat.ltb 3 (writes l)
                 || Nat.ltb 0 (List.length
                                 (filter (fun scope =>
                                            JS.includes scope "read_all") l)))%bool
             then FULL_ACCESS
             else if Nat.ltb 0 (writes l) then READ_WRITE else READ_ONLY)
    by reflexivity.
  split.
  { rewrite Hlevel. destruct (_ || _); [cbn; lia |].
    destruct (Nat.ltb 0 _); cbn; lia. }
  split.
  { rewrite Hlevel. split.
    - destruct (Nat.ltb 3 (writes scopes)) eqn:H3; [discriminate |].
      destruct (Nat.ltb 0 (List.length (filter _ scopes))) eqn:Hr;
        [discriminate |].
      destruct (Nat.ltb 0 (writes scopes)) eqn:Hw; [discriminate |].
      intros _ s Hs.
      apply Nat.ltb_ge in Hr, Hw.
      split.
      + assert (Hz : writes scopes = 0%nat) by lia.
        apply (proj1 (filter_length_zero _ _) Hz s Hs).
      + assert (Hz : List.length
                       (filter (fun scope => JS.includes scope "read_all")
                               scopes) = 0%nat) by lia.
        apply (proj1 (filter_length_zero _ _) Hz s Hs).
    - intros H.
      assert (Hw : writes scopes = 0%nat).
      { apply filter_length_zero. intros s Hs. apply (H s Hs). }
      assert (Hr : List.length
                     (filter (fun scope => JS.includes scope "read_all")
                             scopes) = 0%nat).
      { apply filter_length_zero. intros s Hs. apply (H s Hs). }
      rewrite Hw, Hr. reflexivity. }
  split.
  { rewrite Hlevel. split.
    - destruct (Nat.ltb 3 (writes scopes)) eqn:H3.
      + intros _. left. apply Nat.ltb_lt. exact H3.
      + destruct (Nat.ltb 0 (List.length (filter _ scopes))) eqn:Hr.
        * intros _. right. apply filter_length_pos. apply Nat.ltb_lt.
          exact Hr.
        * cbn [orb]. destruct (Nat.ltb 0 (writes scopes)); discriminate.
    - intros [H3 | Hr].
      + apply Nat.ltb_lt in H3. rewrite H3. reflexivity.
      + apply filter_length_pos in Hr. apply Nat.ltb_lt in Hr.
        rewrite Hr, orb_true_r. reflexivity. }
  assert (Hw : writes (scopes ++ more)%list
               = (writes scopes + writes more)%nat).
  { unfold writes. rewrite filter_app, length_app. reflexivity. }
  assert (Hr : List.length
                 (filter (fun scope => JS.includes scope "read_all")
                         (scopes ++ more))
               = (List.length
                    (filter (fun scope => JS.includes scope "read_all") scopes)
                  + List.length
                      (filter (fun scope => JS.includes scope "read_all") more))%nat).
  { rewrite filter_app, length_app. reflexivity. }
  rewrite !Hlevel, Hw, Hr.
  generalize (writes scopes) (writes more)
             (List.length
                (filter (fun scope => JS.includes scope "read_all") scopes))
             (List.length
                (filter (fun scope => JS.includes scope "read_all") more)).
  intros a b c d.
  split.
  - destruct (Nat.ltb_spec 3 a), (Nat.ltb_spec 0 c), (Nat.ltb_spec 0 a),
      (Nat.ltb_spec 3 (a + b)), (Nat.ltb_spec 0 (c + d)),
      (Nat.ltb_spec 0 (a + b)); cbn; lia.
  - destruct (Nat.ltb_spec 3 b), (Nat.ltb_spec 0 d), (Nat.ltb_spec 0 b),
      (Nat.ltb_spec 3 (a + b)), (Nat.ltb_spec 0 (c + d)),
      (Nat.ltb_spec 0 (a + b)); cbn; lia.
Qed.

(** ** The data access labels *)

Lemma indexOf_found (pre l : list string) (x : string) :
  In x pre -> 0 <= indexOf (pre ++ l) x < Z.of_nat (List.length pre).
Proof.
  induction pre as [| y pre IH]; [intros [] |].
  intros Hin. cbn [app indexOf List.length].
  destruct (String.eqb_spec y x) as [-> | Hne]; [lia |].
  destruct Hin as [-> | Hin]; [congruence |].
  specialize (IH Hin).
  destruct (Z.ltb_spec (indexOf (pre ++ l) x) 0); lia.
Qed.

Lemma indexOf_first (pre l : list string) (x : string) :
  ~ In x pre -> indexOf (pre ++ x :: l) x = Z.of_nat (List.length pre).
Proof.
  induction pre as [| y pre IH]; intros Hnot.
  - cbn. rewrite String.eqb_refl. reflexivity.
  - cbn [app indexOf List.length].
    destruct (String.eqb_spec y x) as [-> | Hne];
      [exfalso; apply Hnot; left; reflexivity |].
    rewrite IH by (intros H; apply Hnot; right; exact H).
    destruct (Z.ltb_spec (Z.of_nat (List.length pre)) 0); lia.
Qed.

Lemma filter_from_first_occurrences (pre l : list string) :
  let kept :=
    filter_from (fun item index => indexOf (pre ++ l) item =? index)
                (Z.of_nat (List.length pre)) l in
  NoDup kept /\ forall x, In x kept <-> In x l /\ ~ In x pre.
Proof.
  revert pre. induction l as [| y l IH]; intros pre; cbn zeta.
  - cbn. split; [constructor | tauto].
  - cbn [filter_from].
    specialize (IH (pre ++ [y])%list). cbn zeta in IH.
    rewrite <- app_assoc, length_app in IH. cbn [app List.length] in IH.
    replace (Z.of_nat (List.length pre + 1)) with (Z.of_nat (List.length pre) + 1)
      in IH by lia.
    destruct IH as [Hnd Hin].
    destruct (in_dec string_dec y pre) as [Hy | Hy].
    + pose proof (indexOf_found pre (y :: l) y Hy) as Hi.
      destruct (Z.eqb_spec (indexOf (pre ++ y :: l) y)
                           (Z.of_nat (List.length pre))) as [He | _]; [lia |].
      split; [exact Hnd |].
      intros x. rewrite Hin, in_app_iff. cbn [In].
      split.
      * intros [Hx Hn]. split; [right; exact Hx |].
        intros Hp. apply Hn. left. exact Hp.
      * intros [[<- | Hx] Hn]; [contradiction |].
        split; [exact Hx |].
        intros [Hp | [<- | []]]; contradiction.
    + rewrite (indexOf_first pre l y Hy), Z.eqb_refl.
      split.
      * constructor; [| exact Hnd].
        rewrite Hin, in_app_iff. cbn [In]. intros [_ Hn]. apply Hn. auto.
      * intros x. cbn [In]. rewrite Hin, in_app_iff. cbn [In].
        split.
        -- intros [<- | [Hx Hn]]; [split; [auto | exact Hy] |].
           split; [right; exact Hx |].
           intros Hp. apply Hn. left. exact Hp.
        -- intros [[<- | Hx] Hn]; [left; reflexivity |].
           destruct (string_dec y x) as [-> | Hne]; [left; reflexivity |].
           right. split; [exact Hx |].
           intros [Hp | [He | []]]; [contradiction | congruence].
Qed.

Lemma filter_from_length {A : Type} (f : A -> Z -> bool) (i : Z) (l : list A) :
  (List.length (filter_from f i l) <= List.length l)%nat.
Proof.
  revert i. induction l as [| x l IH]; intros i; cbn; [lia |].
  specialize (IH (i + 1)). destruct (f x i); cbn; lia.
Qed.

(** X10.  [extractDataAccess] lists every label of a requested scope once:
    the result has no duplicate, holds exactly the labels of the scopes, and
    is no longer than the list of scopes.  A scope that mentions none of
    the five resources is its own label. *)
Theorem extractDataAccess_lists_each_label_once :
  forall scopes : list string,
    NoDup (extractDataAccess scopes) /\
    (forall label,
        In label (extractDataAccess scopes) <->
        exists scope, In scope scopes /\ dataAccessLabel scope = label) /\
    (List.length (extractDataAccess scopes) <= List.length scopes)%nat /\
    (forall scope,
        In scope scopes ->
        JS.includes scope "customers" = false ->
        JS.includes scope "orders" = false ->
        JS.includes scope "products" = false ->
        JS.includes scope "inventory" = false ->
        JS.includes scope "users" = false ->
        In scope (extractDataAccess scopes)).
Proof.
  intros scopes.
  destruct (filter_from_first_occurrences [] (map dataAccessLabel scopes))
    as [Hnd Hin].
  cbn [app List.length Z.of_nat] in Hnd, Hin.
  fold (extractDataAccess scopes) in Hnd, Hin.
  assert (Hlabels : forall label,
             In label (extractDataAccess scopes) <->
             exists scope, In scope scopes /\ dataAccessLabel scope = label).
  { intros label. rewrite Hin, in_map_iff. split.
    - intros [(scope & He & Hs) _]. exists scope. auto.
    - intros (scope & Hs & He). split; [| intros []]. exists scope. auto. }
  split; [exact Hnd |].
  split; [exact Hlabels |].
  split.
  { unfold extractDataAccess.
    etransitivity; [apply filter_from_length |].
    rewrite length_map. lia. }
  intros scope Hs Hc Ho Hp Hi Hu.
  apply Hlabels. exists scope. split; [exact Hs |].
  unfold dataAccessLabel. rewrite Hc, Ho, Hp, Hi, Hu. reflexivity.
Qed.

(** ** The category of an app *)

Lemma lower_ascii_idempotent (c : ascii) :
  JS.lower_ascii (JS.lower_ascii c) = JS.lower_ascii c.
Proof.
  destruct c as [[] [] [] [] [] [] [] []]; reflexivity.
Qed.

Lemma toLowerCase_idempotent (s : string) :
  JS.toLowerCase (JS.toLowerCase s) = JS.toLowerCase s.
Proof.
  induction s as [| c s IH]; cbn; [reflexivity |].
  rewrite lower_ascii_idempotent, IH. reflexivity.
Qed.

Lemma toLowerCase_app (s t : string) :
  JS.toLowerCase (s ++ t) = (JS.toLowerCase s ++ JS.toLowerCase t)%string.
Proof.
  induction s as [| c s IH]; cbn; [reflexivity |].
  rewrite IH. reflexivity.
Qed.

(** X11.  For a title and a description in ASCII text, [categorizeApp]
    looks at both in lower case only, so the category does not depend on
    the case of either; a missing description counts as an empty one; and
    the text is never put in the category [EMAIL_MARKETING]: a text that
    mentions "email" is in [MARKETING], or in [ANALYTICS] when it also
    mentions "analytics" or "tracking". *)
Theorem categorizeApp_ignores_case :
  forall (title : string) (description : option string),
    JS.is_ascii title = true ->
    JS.is_ascii match description with
                | Some d => d
                | None => ""
                end = true ->
    categorizeApp (JS.toLowerCase title) (option_map JS.toLowerCase description)
      = categorizeApp title description /\
    categorizeApp title None = categorizeApp title (Some "") /\
    (categorizeApp title description = ANALYTICS \/
     categorizeApp title description = MARKETING \/
     categorizeApp title description = CUSTOMER_SERVICE \/
     categorizeApp title description = INVENTORY \/
     categorizeApp title description = SHIPPING \/
     categorizeApp title description = PAYMENT \/
     categorizeApp title description = SOCIAL_MEDIA \/
     categorizeApp title description = REVIEWS \/
     categorizeApp title description = ACCOUNTING \/
     categorizeApp title description = OTHER).
Proof.
  intros title description _ _.
  split.
  { unfold categorizeApp.
    assert (Htext :
              JS.toLowerCase
                (JS.toLowerCase title ++ " " ++
                 match option_map JS.toLowerCase description with
                 | Some d => d
                 | None => ""
                 end)
              = JS.toLowerCase
                  (title ++ " " ++ match description with
                                   | Some d => d
                                   | None => ""
                                   end)).
    { rewrite !toLowerCase_app, toLowerCase_idempotent.
      destruct description as [d |]; cbn [option_map];
        [rewrite toLowerCase_idempotent |]; reflexivity. }
    rewrite Htext. reflexivity. }
  split; [reflexivity |].
  unfold categorizeApp.
  repeat match goal with
         | |- context [if ?b then _ else _] => destruct b
         end; tauto.
Qed.

Lemma categorizeApp_ignores_case_witness :
  categorizeApp "mailchimp email marketing"
                (Some "email marketing and automation platform")
  = categorizeApp "Mailchimp Email Marketing"
                  (Some "Email marketing and automation platform") /\
  categorizeApp "Mailchimp Email Marketing"
                (Some "Email marketing and automation platform") = MARKETING.
Proof.
  split.
  - exact (proj1 (categorizeApp_ignores_case
                    "Mailchimp Email Marketing"
                    (Some "Email marketing and automation platform")
                    eq_refl eq_refl)).
  - vm_compute. reflexivity.
Defined.

End AppScanProofs.

(* ================================================================== *)
(** * Properties of the risk assessment of a merchant's apps *)
(* ================================================================== *)

Module AppAssessmentProofs.
Import AppScan ThirdPartyApps AppAssessment.

(** ** A scanned app *)

Lemma sensitive_types (scopes : list string) :
  filter (fun type =>
            JS.Array_includes [ "personal_data"; "payment_information" ] type)
         (extractDataTypes scopes) = [] <->
  (existsb (fun s => JS.includes s "customers") scopes
   || existsb (fun s => JS.includes s "orders") scopes)%bool = false.
Proof.
  unfold extractDataTypes.
  destruct (existsb (fun s => JS.includes s "customers") scopes);
    destruct (existsb (fun s => JS.includes s "orders") scopes);
    destruct (existsb (fun s => JS.includes s "products") scopes);
    vm_compute; split; congruence.
Qed.

(** The composite of a scanned app: its security sub-score is 30 and its
    compliance sub-score 30 or 90. *)
Lemma scanned_composite_table (d p c r : Z) :
  In d [0; 40; 60; 100; 80; 120] -> In p [0; 40; 70] ->
  In c [30; 90] -> In r [0; 40] ->
  let final :=
    JS.Math_min 100 (JS.Math_max 0 (JS.Math_round (weightedScore d p c 30 r))) in
  (11 <=? final)%float = true /\ (final <=? 80)%float = true.
Proof.
  intros Hd Hp Hc Hr.
  cbn [In] in Hd, Hp, Hc, Hr.
  repeat match goal with
         | H : _ \/ _ |- _ => destruct H as [<- | H]
         | H : False |- _ => destruct H
         end;
    vm_compute; split; reflexivity.
Qed.

(** X12.  A freshly scanned app, whatever Shopify reports about it: its
    encryption status and retention period are stored as unknown, so its
    security sub-score is 30 and its compliance sub-score 30 with a privacy
    policy URL and 90 without; its data access sub-score is 0, 60 or 80 by
    the access level of its scopes plus 40 when a scope mentions customers
    or orders; both unknowns are among its risk factors; and its composite
    score lies between 11 and 80. *)
Theorem processShopifyApp_risk :
  forall appData : ShopifyAppData,
    let a := entity (processShopifyApp appData) in
    let scopes := scopesOf appData in
    let result := analyzeAppRisk a in
    score (analyzeDataAccessRisk a)
      = match determineDataAccessLevel scopes with
        | FULL_ACCESS => 80
        | READ_WRITE => 60
        | _ => 0
        end
        + (if (existsb (fun s => JS.includes s "customers") scopes
               || existsb (fun s => JS.includes s "orders") scopes)%bool
           then 40 else 0) /\
    score (analyzeComplianceRisk a)
      = (if no_string (privacy_policy_url appData) then 90 else 30) /\
    score (analyzeSecurityRisk a) = 30 /\
    In "Security" (map category (riskFactors result)) /\
    In "Data Retention" (map category (riskFactors result)) /\
    (11 <=? riskScore result)%float = true /\
    (riskScore result <=? 80)%float = true.
Proof.
  intros appData a scopes result.
  assert (Hd : score (analyzeDataAccessRisk a)
               = match determineDataAccessLevel scopes with
                 | FULL_ACCESS => 80
                 | READ_WRITE => 60
                 | _ => 0
                 end
                 + (if (existsb (fun s => JS.includes s "customers") scopes
                        || existsb (fun s => JS.includes s "orders") scopes)%bool
                    then 40 else 0)).
  { unfold analyzeDataAccessRisk, a, processShopifyApp.
    cbn [entity dataAccessLevel app_riskFactors dataTypes].
    fold scopes.
    pose proof (sensitive_types scopes) as Hs.
    destruct (determineDataAccessLevel scopes); cbn [DataAccessLevel_eqb];
      destruct (filter _ (extractDataTypes scopes)) as [| t ts];
      destruct (existsb _ scopes || existsb _ scopes)%bool;
      cbn [score]; try reflexivity;
      solve [ exfalso; destruct Hs as [Hs _];
              specialize (Hs eq_refl); discriminate Hs
            | exfalso; destruct Hs as [_ Hs];
              specialize (Hs eq_refl); discriminate Hs ]. }
  assert (Hc : score (analyzeComplianceRisk a)
               = if no_string (privacy_policy_url appData) then 90 else 30).
  { unfold analyzeComplianceRisk, a, processShopifyApp.
    cbn [entity app_riskFactors privacyPolicyUrl dataRetentionPeriod].
    destruct (no_string (privacy_policy_url appData)); reflexivity. }
  assert (Hs : score (analyzeSecurityRisk a) = 30) by reflexivity.
  split; [exact Hd |].
  split; [exact Hc |].
  split; [exact Hs |].
  split.
  { unfold result, analyzeAppRisk. cbn [riskFactors].
    rewrite !map_app, !in_app_iff. do 3 right. left. left. reflexivity. }
  split.
  { unfold result, analyzeAppRisk. cbn [riskFactors].
    rewrite !map_app, !in_app_iff. do 2 right. left.
    unfold analyzeComplianceRisk, a, processShopifyApp.
    cbn [entity app_riskFactors privacyPolicyUrl dataRetentionPeriod].
    destruct (no_string (privacy_policy_url appData)); cbn; auto. }
  unfold result, analyzeAppRisk. cbn [riskScore]. rewrite Hs.
  apply scanned_composite_table.
  - apply ThirdPartyAppsProofs.analyzeDataAccessRisk_scores.
  - apply ThirdPartyAppsProofs.analyzePermissionRisk_scores.
  - rewrite Hc. destruct (no_string _); cbn; auto.
  - apply ThirdPartyAppsProofs.analyzeReputationRisk_scores.
Qed.

(** ** The loop over the apps *)

Lemma assessStep_fold (date : Z) (apps : list ThirdPartyApp) (t : Tally) :
  let analyses := map analyzeAppRisk apps in
  fold_left (assessStep date) apps t
  = mkTally (riskAnalyses t ++ analyses) (savedApps t ++ map (assessedApp date) apps)
            (fold_left (fun sum a => (sum + riskScore a)%float) analyses
                       (totalRiskScore t))
            (tally_high t + count at_high analyses)
            (tally_medium t + count at_medium analyses)
            (tally_low t + count at_low analyses).
Proof.
  revert t. induction apps as [| app apps IH]; intros t; cbn zeta.
  - cbn. rewrite !app_nil_r, !Z.add_0_r. destruct t; reflexivity.
  - cbn [fold_left map]. rewrite IH. clear IH.
    unfold count, at_high, at_medium, at_low. cbn [filter].
    unfold assessStep.
    fold (assessedApp date app).
    destruct (riskLevel (analyzeAppRisk app));
      cbn [riskAnalyses savedApps totalRiskScore tally_high tally_medium
           tally_low List.length];
      rewrite <- !app_assoc; cbn [List.app]; f_equal; lia.
Qed.

(** [performRiskAssessment] in terms of the analyses of the apps. *)
Lemma performRiskAssessment_unfolded
    (date : Z) (merchantId : string) (apps : list ThirdPartyApp) :
  let analyses := map analyzeAppRisk apps in
  performRiskAssessment date merchantId apps
  = (mkAssessment merchantId (Z.of_nat (List.length apps))
       (count at_high analyses) (count at_medium analyses)
       (count at_low analyses)
       (JS.Math_round
          (if Nat.ltb 0 (List.length apps)
           then (fold_left (fun sum a => (sum + riskScore a)%float) analyses
                           0%float
                 / JS.Z2F (Z.of_nat (List.length apps)))%float
           else 0%float))
       (calculateRiskBreakdown analyses)
       (generateRecommendations analyses)
       (identifyComplianceGaps analyses),
     map (assessedApp date) apps).
Proof.
  cbn zeta. unfold performRiskAssessment.
  rewrite assessStep_fold.
  cbn [riskAnalyses savedApps totalRiskScore tally_high tally_medium tally_low
       List.app].
  rewrite !Z.add_0_l. reflexivity.
Qed.

Lemma count_partition (l : list AppRiskAnalysis) :
  count at_high l + count at_medium l + count at_low l
  = Z.of_nat (List.length l).
Proof.
  unfold count, at_high, at_medium, at_low.
  induction l as [| a l IH]; [reflexivity |].
  cbn [filter List.length]. destruct (riskLevel a); cbn [List.length]; lia.
Qed.

(** A composite score above 70 is in the level high or critical. *)
Lemma above_70_table (d p c s r : Z) :
  In d [0; 40; 60; 100; 80; 120] -> In p [0; 40; 70] ->
  In c [0; 30; 60; 90] -> In s [0; 30] -> In r [0; 40] ->
  let final :=
    JS.Math_min 100 (JS.Math_max 0 (JS.Math_round (weightedScore d p c s r))) in
  JS.gt final 70 = true ->
  match calculateRiskLevel final with
  | HIGH | CRITICAL => true
  | _ => false
  end = true.
Proof.
  intros Hd Hp Hc Hs Hr.
  cbn [In] in Hd, Hp, Hc, Hs, Hr.
  repeat match goal with
         | H : _ \/ _ |- _ => destruct H as [<- | H]
         | H : False |- _ => destruct H
         end;
    vm_compute; intros H; try reflexivity; discriminate H.
Qed.

Lemma above_70_at_high (app : ThirdPartyApp) :
  JS.gt (riskScore (analyzeAppRisk app)) 70 = true ->
  at_high (analyzeAppRisk app) = true.
Proof.
  unfold at_high, analyzeAppRisk. cbn [riskScore riskLevel].
  apply above_70_table.
  - apply ThirdPartyAppsProofs.analyzeDataAccessRisk_scores.
  - apply ThirdPartyAppsProofs.analyzePermissionRisk_scores.
  - apply ThirdPartyAppsProofs.analyzeComplianceRisk_scores.
  - apply ThirdPartyAppsProofs.analyzeSecurityRisk_scores.
  - apply ThirdPartyAppsProofs.analyzeReputationRisk_scores.
Qed.

Lemma filter_length_le {A : Type} (f g : A -> bool) (l : list A) :
  (forall x, In x l -> f x = true -> g x = true) ->
  (List.length (filter f l) <= List.length (filter g l))%nat.
Proof.
  induction l as [| x l IH]; intros H; [cbn; lia |].
  cbn [filter].
  assert (IH' : (List.length (filter f l) <= List.length (filter g l))%nat).
  { apply IH. intros y Hy. apply H. right. exact Hy. }
  destruct (f x) eqn:Hf.
  - rewrite (H x (or_introl eq_refl) Hf). cbn. lia.
  - destruct (g x); cbn; lia.
Qed.

(** X13.  [performRiskAssessment] counts every app once: [totalApps] is the
    number of apps read and is the sum of the three counters, which count
    the analyses at level high or critical, medium, and low.  Every app is
    saved with the level and the score of its analysis, one unresolved
    compliance issue per risk factor and the date of the run, its other
    columns untouched.  The urgent recommendation, when there is one, names
    no more apps than [highRiskApps] counts. *)
Theorem performRiskAssessment_counts_every_app_once :
  forall (date : Z) (merchantId : string) (apps : list ThirdPartyApp),
    let assessment := fst (performRiskAssessment date merchantId apps) in
    let saved := snd (performRiskAssessment date merchantId apps) in
    let analyses := map analyzeAppRisk apps in
    totalApps assessment = Z.of_nat (List.length apps) /\
    highRiskApps assessment + mediumRiskApps assessment
      + lowRiskApps assessment = totalApps assessment /\
    highRiskApps assessment = count at_high analyses /\
    mediumRiskApps assessment = count at_medium analyses /\
    lowRiskApps assessment = count at_low analyses /\
    Forall2 (fun app saved =>
               app_appId saved = app_appId app /\
               app_appName saved = app_appName app /\
               developer saved = developer app /\
               permissions saved = permissions app /\
               dataAccessLevel saved = dataAccessLevel app /\
               app_riskFactors saved = app_riskFactors app /\
               app_riskLevel saved = riskLevel (analyzeAppRisk app) /\
               app_riskScore saved = riskScore (analyzeAppRisk app) /\
               map issue_category (complianceIssues saved)
                 = map category (riskFactors (analyzeAppRisk app)) /\
               Forall (fun issue => resolved issue = false)
                      (complianceIssues saved) /\
               lastRiskAssessment saved = Some date)
            apps saved /\
    Forall (fun recommendation =>
              Z.of_nat (List.length (rec_affectedApps recommendation))
                <= highRiskApps assessment)
           (assessment_recommendations assessment).
Proof.
  intros date merchantId apps assessment saved analyses.
  unfold assessment, saved. rewrite performRiskAssessment_unfolded.
  cbn [fst snd totalApps highRiskApps mediumRiskApps lowRiskApps
       assessment_recommendations].
  fold analyses.
  split; [reflexivity |].
  split.
  { rewrite count_partition. unfold analyses. rewrite length_map.
    reflexivity. }
  split; [reflexivity |].
  split; [reflexivity |].
  split; [reflexivity |].
  split.
  { clear. induction apps as [| app apps IH]; cbn [map]; [constructor |].
    constructor; [| exact IH].
    unfold assessedApp.
    cbn [app_appId app_appName developer permissions dataAccessLevel
         app_riskFactors app_riskLevel app_riskScore complianceIssues
         lastRiskAssessment].
    repeat match goal with |- _ /\ _ => split end; try reflexivity.
    - rewrite map_map. reflexivity.
    - apply Forall_map. apply Forall_forall. reflexivity. }
  unfold generateRecommendations.
  destruct (Nat.ltb 0 _); [| constructor].
  constructor; [| constructor].
  cbn [rec_affectedApps]. rewrite length_map.
  unfold count. apply inj_le. apply filter_length_le.
  intros a Ha Hgt. unfold analyses in Ha. apply in_map_iff in Ha.
  destruct Ha as (app & <- & _). apply above_70_at_high. exact Hgt.
Qed.

(** ** Assessing again *)

Lemma analyzeAppRisk_assessedApp (date : Z) (app : ThirdPartyApp) :
  withoutRecommendations (analyzeAppRisk (assessedApp date app))
  = withoutRecommendations (analyzeAppRisk app).
Proof. reflexivity. Qed.

Lemma analyses_of_assessed (date : Z) (apps : list ThirdPartyApp) :
  map withoutRecommendations
      (map analyzeAppRisk (map (assessedApp date) apps))
  = map withoutRecommendations (map analyzeAppRisk apps).
Proof.
  rewrite !map_map. apply map_ext. intros app.
  apply analyzeAppRisk_assessedApp.
Qed.

Lemma filter_withoutRecommendations
    (f : AppRiskAnalysis -> bool) (l : list AppRiskAnalysis) :
  (forall a, f (withoutRecommendations a) = f a) ->
  filter f (map withoutRecommendations l)
  = map withoutRecommendations (filter f l).
Proof.
  intros Hf. induction l as [| a l IH]; [reflexivity |].
  cbn [map filter]. rewrite Hf, IH. destruct (f a); reflexivity.
Qed.

Lemma count_withoutRecommendations
    (f : AppRiskAnalysis -> bool) (l : list AppRiskAnalysis) :
  (forall a, f (withoutRecommendations a) = f a) ->
  count f (map withoutRecommendations l) = count f l.
Proof.
  intros Hf. unfold count.
  rewrite filter_withoutRecommendations by exact Hf.
  rewrite length_map. reflexivity.
Qed.

Lemma total_withoutRecommendations
    (w : float) (l : list AppRiskAnalysis) (sum : float) :
  fold_left (fun sum a => (sum + riskScore a * w)%float)
            (map withoutRecommendations l) sum
  = fold_left (fun sum a => (sum + riskScore a * w)%float) l sum.
Proof.
  revert sum. induction l as [| a l IH]; intros sum; [reflexivity |].
  cbn [map fold_left]. rewrite IH. reflexivity.
Qed.

Lemma sum_withoutRecommendations (l : list AppRiskAnalysis) (sum : float) :
  fold_left (fun sum a => (sum + riskScore a)%float)
            (map withoutRecommendations l) sum
  = fold_left (fun sum a => (sum + riskScore a)%float) l sum.
Proof.
  revert sum. induction l as [| a l IH]; intros sum; [reflexivity |].
  cbn [map fold_left]. rewrite IH. reflexivity.
Qed.

Lemma generateRecommendations_withoutRecommendations l :
  generateRecommendations (map withoutRecommendations l)
  = generateRecommendations l.
Proof.
  unfold generateRecommendations.
  rewrite filter_withoutRecommendations by reflexivity.
  rewrite length_map, map_map. reflexivity.
Qed.

Lemma identifyComplianceGaps_withoutRecommendations l :
  identifyComplianceGaps (map withoutRecommendations l)
  = identifyComplianceGaps l.
Proof.
  unfold identifyComplianceGaps.
  rewrite filter_withoutRecommendations by reflexivity.
  rewrite length_map, map_map. reflexivity.
Qed.

Lemma calculateRiskBreakdown_withoutRecommendations l :
  calculateRiskBreakdown (map withoutRecommendations l)
  = calculateRiskBreakdown l.
Proof.
  unfold calculateRiskBreakdown, breakdownOf.
  rewrite !total_withoutRecommendations, length_map. reflexivity.
Qed.

(** The assessment is a function of the analyses without their per-app
    recommendations. *)
Lemma assessment_of_analyses
    (d1 d2 : Z) (merchantId : string) (apps1 apps2 : list ThirdPartyApp) :
  map withoutRecommendations (map analyzeAppRisk apps1)
    = map withoutRecommendations (map analyzeAppRisk apps2) ->
  fst (performRiskAssessment d1 merchantId apps1)
  = fst (performRiskAssessment d2 merchantId apps2).
Proof.
  intros H.
  assert (Hlen : List.length apps1 = List.length apps2).
  { apply (f_equal (@List.length _)) in H.
    rewrite !length_map in H. exact H. }
  rewrite !performRiskAssessment_unfolded. cbn [fst].
  rewrite Hlen.
  rewrite <- (count_withoutRecommendations at_high (map analyzeAppRisk apps1))
    by reflexivity.
  rewrite <- (count_withoutRecommendations at_medium (map analyzeAppRisk apps1))
    by reflexivity.
  rewrite <- (count_withoutRecommendations at_low (map analyzeAppRisk apps1))
    by reflexivity.
  rewrite <- (sum_withoutRecommendations (map analyzeAppRisk apps1)).
  rewrite <- (calculateRiskBreakdown_withoutRecommendations
                (map analyzeAppRisk apps1)).
  rewrite <- (generateRecommendations_withoutRecommendations
                (map analyzeAppRisk apps1)).
  rewrite <- (identifyComplianceGaps_withoutRecommendations
                (map analyzeAppRisk apps1)).
  rewrite H.
  rewrite count_withoutRecommendations by reflexivity.
  rewrite count_withoutRecommendations by reflexivity.
  rewrite count_withoutRecommendations by reflexivity.
  rewrite sum_withoutRecommendations,
    calculateRiskBreakdown_withoutRecommendations,
    generateRecommendations_withoutRecommendations,
    identifyComplianceGaps_withoutRecommendations.
  reflexivity.
Qed.

(** X14.  Assessing twice changes nothing but the date: run on the apps as
    the first run saved them, [performRiskAssessment] returns the same
    assessment and saves every app as it was, with the new date.  The
    stored level, score and issues of an app are outputs of the
    assessment, never inputs. *)
Theorem performRiskAssessment_again :
  forall (d1 d2 : Z) (merchantId : string) (apps : list ThirdPartyApp),
    let first := performRiskAssessment d1 merchantId apps in
    let second := performRiskAssessment d2 merchantId (snd first) in
    fst second = fst first /\
    snd second = snd (performRiskAssessment d2 merchantId apps) /\
    Forall2 (fun before after =>
               after = mkApp (app_appId before) (app_appName before)
                             (developer before) (permissions before)
                             (dataAccessLevel before) (app_riskLevel before)
                             (app_riskScore before) (app_riskFactors before)
                             (complianceIssues before) (Some d2))
            (snd first) (snd second).
Proof.
  intros d1 d2 merchantId apps first second.
  assert (Hsaved : snd first = map (assessedApp d1) apps).
  { unfold first. rewrite performRiskAssessment_unfolded. reflexivity. }
  assert (Hsecond : snd second = map (assessedApp d2) (map (assessedApp d1) apps)).
  { unfold second. rewrite performRiskAssessment_unfolded, Hsaved.
    reflexivity. }
  split.
  { unfold second. rewrite Hsaved. unfold first.
    apply assessment_of_analyses. apply analyses_of_assessed. }
  split.
  { rewrite Hsecond, performRiskAssessment_unfolded. cbn [snd].
    rewrite map_map. reflexivity. }
  rewrite Hsecond, Hsaved. clear.
  induction apps as [| app apps IH]; cbn [map]; [constructor |].
  constructor; [reflexivity | exact IH].
Qed.

(** ** The merchant-level compliance gap *)

Lemma identifyComplianceGaps_of_apps (apps : list ThirdPartyApp) :
  filter (fun a =>
            negb (existsb (fun g => String.eqb (regulation g) "GDPR")
                          (complianceGaps a)))
         (map analyzeAppRisk apps)
  = map analyzeAppRisk (filter has_privacy_policy apps).
Proof.
  induction apps as [| app apps IH]; [reflexivity |].
  cbn [map filter]. rewrite IH.
  assert (Hgap : negb (existsb (fun g => String.eqb (regulation g) "GDPR")
                               (complianceGaps (analyzeAppRisk app)))
                 = has_privacy_policy app).
  { unfold has_privacy_policy, analyzeAppRisk. cbn [complianceGaps].
    unfold identifyAppComplianceGaps.
    destruct (no_string _); reflexivity. }
  rewrite Hgap. destruct (has_privacy_policy app); reflexivity.
Qed.

(** X15.  The compliance gap "Data Processing Agreements" of an assessment
    names exactly the apps that have a privacy policy URL, in the order
    read, and is absent when no app has one: the filter keeps the analyses
    without the per-app GDPR gap, and that gap is raised for the apps that
    lack the URL.  So an app without a privacy policy is never the reason
    for the gap, and after a scan the gap names the two apps that publish a
    policy and not the one that does not. *)
Theorem identifyComplianceGaps_names_apps_with_policy :
  forall (date : Z) (merchantId : string) (apps : list ThirdPartyApp),
    let assessment := fst (performRiskAssessment date merchantId apps) in
    let named := filter has_privacy_policy apps in
    assessment_complianceGaps assessment
      = match named with
        | [] => []
        | _ :: _ =>
            [ mkFleetGap "GDPR" "Data Processing Agreements"
                (map app_appName named) HIGH
                "Obtain data processing agreements from all third-party apps" ]
        end /\
    (forall app,
        complianceGaps (analyzeAppRisk app) = [] <->
        has_privacy_policy app = true) /\
    map fleet_affectedApps
        (assessment_complianceGaps
           (fst (performRiskAssessment date merchantId
                   (map entity scanShopifyApps))))
      = [ [ "Google Analytics Enhanced Ecommerce";
            "Mailchimp Email Marketing" ] ] /\
    map (fun app => (app_appName app, has_privacy_policy app))
        (map entity scanShopifyApps)
      = [ ("Google Analytics Enhanced Ecommerce", true);
          ("Mailchimp Email Marketing", true);
          ("Custom Analytics Dashboard", false) ].
Proof.
  intros date merchantId apps assessment named.
  split.
  { unfold assessment. rewrite performRiskAssessment_unfolded.
    cbn [fst assessment_complianceGaps].
    unfold identifyComplianceGaps.
    rewrite identifyComplianceGaps_of_apps. fold named.
    rewrite length_map, map_map.
    destruct named as [| app named']; reflexivity. }
  split.
  { intros app. unfold analyzeAppRisk. cbn [complianceGaps].
    unfold identifyAppComplianceGaps, has_privacy_policy.
    destruct (no_string _); cbn; split; congruence. }
  split; vm_compute; reflexivity.
Qed.

End AppAssessmentProofs.

(* ================================================================== *)
(** * The score of the compliance health check *)
(* ================================================================== *)

Module HealthCheckProofs.
Import Effects Monitoring.

(** X16.  For an existing merchant the health check resolves with a score
    between 0 and 100 and at most four issues.  The score is 100 exactly
    when there is no issue.  The deductions can add up to 105, and the
    score is 0 exactly when all four checks fail at their worst (an audit
    overdue or missing, an overdue request, more than ten withdrawals and a
    breach); in every other case it is at least 5.  A breach in the window
    caps the score at 60, and a critical issue is reported exactly when
    there is a breach or an overdue request among the pending ones. *)
Theorem healthCheck_score_range :
  forall (w : Readings) (merchantId : string),
    merchantFound w merchantId = true ->
    let days :=
      match lastAuditCreatedAt w merchantId with
      | Some createdAt => Finite (daysSince w createdAt)
      | None => Infinity
      end in
    exists r : ComplianceHealthCheck,
      performComplianceHealthCheck w merchantId = Resolved r /\
      0 <= overallScore r <= 100 /\
      (List.length (issues r) <= 4)%nat /\
      (overallScore r = 100 <-> issues r = []) /\
      (overallScore r = 0 <->
       Days_gt days 90 = true /\
       0 < pendingDSRCount w merchantId /\
       0 < overdueDSRCount w merchantId /\
       10 < recentWithdrawalCount w merchantId /\
       0 < recentBreachCount w merchantId) /\
      (overallScore r = 0 \/ 5 <= overallScore r) /\
      (0 < recentBreachCount w merchantId -> overallScore r <= 60) /\
      (existsb (fun i => match severity i with
                         | CRITICAL => true
                         | _ => false
                         end) (issues r) = true <->
       (0 < pendingDSRCount w merchantId /\
        0 < overdueDSRCount w merchantId) \/
       0 < recentBreachCount w merchantId).
Proof.
  intros w merchantId Hfound days.
  rewrite (MonitoringProofs.performComplianceHealthCheck_closed_form
             w merchantId Hfound).
  fold days. clearbody days.
  eexists; split; [reflexivity |].
  cbn [overallScore issues].
  unfold spec_staleness, other_issues, other_deductions, spec_dsr,
    spec_withdrawals, spec_breaches.
  destruct (Days_gt days 90); [| destruct (Days_gt days 60)];
    destruct (Z.ltb_spec 0 (pendingDSRCount w merchantId));
    destruct (Z.ltb_spec 5 (pendingDSRCount w merchantId));
    try (exfalso; lia);
    destruct (Z.ltb_spec 0 (overdueDSRCount w merchantId));
    destruct (Z.ltb_spec 10 (recentWithdrawalCount w merchantId));
    destruct (Z.ltb_spec 0 (recentBreachCount w merchantId));
    cbn [andb fst snd List.app List.length existsb severity orb];
    repeat match goal with |- _ /\ _ => split end;
    try lia;
    try (split; intros; try discriminate; try reflexivity; lia);
    try (split; [intros; lia | intros; exfalso; lia]);
    try (split; [intros Hd; discriminate Hd | intros; exfalso; lia]);
    try (split; [intros; lia | intros; reflexivity]).
Qed.

Lemma healthCheck_score_range_witness :
  exists r : ComplianceHealthCheck,
    performComplianceHealthCheck (Samples.auditedDaysAgo 75) "shop-1"
      = Resolved r /\
    0 <= overallScore r <= 100.
Proof.
  destruct (healthCheck_score_range (Samples.auditedDaysAgo 75) "shop-1"
              eq_refl) as (r & Hrun & Hrange & _).
  exists r. split; assumption.
Defined.

End HealthCheckProofs.

(* ================================================================== *)
(** * Properties of the alerts and of the monitoring metrics *)
(* ================================================================== *)

Module AlertsProofs.
Import Effects Alerts.

(** ** Statistics *)

Lemma countAlert_fold (l : list Alert) (st : AlertStats) :
  let r := fold_left countAlert l st in
  total r = total st /\
  active r = active st + count (has_status ACTIVE) l /\
  acknowledged r = acknowledged st + count (has_status ACKNOWLEDGED) l /\
  resolved r = resolved st + count (has_status RESOLVED) l /\
  dismissed r = dismissed st + count (has_status DISMISSED) l /\
  low (bySeverity r)
    = low (bySeverity st) + count (has_severity Monitoring.LOW) l /\
  medium (bySeverity r)
    = medium (bySeverity st) + count (has_severity Monitoring.MEDIUM) l /\
  high (bySeverity r)
    = high (bySeverity st) + count (has_severity Monitoring.HIGH) l /\
  critical (bySeverity r)
    = critical (bySeverity st) + count (has_severity Monitoring.CRITICAL) l /\
  typeSum (byType r) = typeSum (byType st) + Z.of_nat (List.length l).
Proof.
  revert st. induction l as [| a l IH]; intros st; cbn zeta.
  - unfold count. cbn. repeat split; lia.
  - cbn [fold_left]. specialize (IH (countAlert st a)). cbn zeta in IH.
    destruct IH as (H0 & H1 & H2 & H3 & H4 & H5 & H6 & H7 & H8 & H9).
    rewrite H0, H1, H2, H3, H4, H5, H6, H7, H8, H9.
    unfold count, has_status, has_severity, countAlert, typeSum.
    cbn [filter].
    destruct (status a), (severity a), (type a);
      cbn [AlertStatus_eqb total active acknowledged resolved dismissed
           bySeverity byType low medium high critical compliance_violation
           data_breach policy_update_required consent_expiry
           data_retention_violation audit_failure system_error List.length];
      repeat split; lia.
Qed.

Lemma count_nonneg {A : Type} (f : A -> bool) (l : list A) : 0 <= count f l.
Proof. unfold count. lia. Qed.

Lemma severity_partition (l : list Alert) :
  count (has_severity Monitoring.LOW) l
  + count (has_severity Monitoring.MEDIUM) l
  + count (has_severity Monitoring.HIGH) l
  + count (has_severity Monitoring.CRITICAL) l
  = Z.of_nat (List.length l).
Proof.
  unfold count, has_severity.
  induction l as [| a l IH]; [reflexivity |].
  cbn [filter List.length]. destruct (severity a); cbn [List.length]; lia.
Qed.

Lemma status_partition (l : list Alert) :
  count (has_status ACTIVE) l + count (has_status ACKNOWLEDGED) l
  + count (has_status RESOLVED) l + count (has_status DISMISSED) l
  = Z.of_nat (List.length l).
Proof.
  unfold count, has_status.
  induction l as [| a l IH]; [reflexivity |].
  cbn [filter List.length].
  destruct (status a); cbn [AlertStatus_eqb List.length]; lia.
Qed.

(** [getAlertStats] in terms of the rows it counts. *)
Lemma getAlertStats_run (merchantId : option string) (s : Store) :
  exists stats,
    getAlertStats None merchantId s = (Resolved stats, s) /\
    let rows := alertsOf merchantId s in
    total stats = Z.of_nat (List.length rows) /\
    active stats = count (has_status ACTIVE) rows /\
    acknowledged stats = count (has_status ACKNOWLEDGED) rows /\
    resolved stats = count (has_status RESOLVED) rows /\
    dismissed stats = count (has_status DISMISSED) rows /\
    low (bySeverity stats) = count (has_severity Monitoring.LOW) rows /\
    medium (bySeverity stats) = count (has_severity Monitoring.MEDIUM) rows /\
    high (bySeverity stats) = count (has_severity Monitoring.HIGH) rows /\
    critical (bySeverity stats)
      = count (has_severity Monitoring.CRITICAL) rows /\
    typeSum (byType stats) = Z.of_nat (List.length rows).
Proof.
  unfold getAlertStats, query, bind, gets, ret.
  eexists. split; [reflexivity |].
  cbn zeta.
  pose proof (countAlert_fold (alertsOf merchantId s)
                (mkStats (Z.of_nat (List.length (alertsOf merchantId s)))
                         0 0 0 0 (mkSeverityCounts 0 0 0 0)
                         (mkTypeCounts 0 0 0 0 0 0 0))) as H.
  cbn zeta in H.
  cbn [total active acknowledged resolved dismissed bySeverity byType low
       medium high critical] in H.
  unfold typeSum at 2 in H.
  cbn [compliance_violation data_breach policy_update_required consent_expiry
       data_retention_violation audit_failure system_error] in H.
  rewrite !Z.add_0_l in H. exact H.
Qed.

(** X17.  [getAlertStats] writes nothing.  When its query is rejected it
    rejects with the error of the query.  Otherwise it counts the alerts of
    the merchant, or every alert when no merchant id is given or the id is
    the empty string.  [total] is the number of alerts counted, and the
    four status counters, the four severity counters and the seven type
    counters each add up to it: every alert is counted once under its
    status, once under its severity and once under its type. *)
Theorem getAlertStats_counts_every_alert_once :
  forall (merchantId : option string) (s : Store),
    (forall e, getAlertStats (Some e) merchantId s = (Rejected e, s)) /\
    exists stats : AlertStats,
      getAlertStats None merchantId s = (Resolved stats, s) /\
      total stats = Z.of_nat (List.length (alertsOf merchantId s)) /\
      active stats + acknowledged stats + resolved stats + dismissed stats
        = total stats /\
      low (bySeverity stats) + medium (bySeverity stats)
        + high (bySeverity stats) + critical (bySeverity stats) = total stats /\
      compliance_violation (byType stats) + data_breach (byType stats)
        + policy_update_required (byType stats) + consent_expiry (byType stats)
        + data_retention_violation (byType stats) + audit_failure (byType stats)
        + system_error (byType stats) = total stats /\
      active stats = count (has_status ACTIVE) (alertsOf merchantId s) /\
      critical (bySeverity stats)
        = count (has_severity Monitoring.CRITICAL) (alertsOf merchantId s) /\
      0 <= active stats <= total stats /\
      getAlertStats None (Some "") s = getAlertStats None None s /\
      (forall m, m <> "" ->
                 alertsOf (Some m) s
                 = filter (fun a => String.eqb (Alerts.merchantId a) m)
                          (alerts s)) /\
      alertsOf None s = alerts s.
Proof.
  intros merchantId s.
  split; [reflexivity |].
  destruct (getAlertStats_run merchantId s)
    as (stats & Hrun & Ht & Ha & Hk & Hr & Hd & Hl & Hm & Hh & Hc & Hty).
  exists stats. split; [exact Hrun |].
  split; [exact Ht |].
  split.
  { rewrite Ha, Hk, Hr, Hd, Ht. apply status_partition. }
  split.
  { rewrite Hl, Hm, Hh, Hc, Ht. apply severity_partition. }
  split; [rewrite Ht; exact Hty |].
  split; [exact Ha |].
  split; [exact Hc |].
  split.
  { rewrite Ha, Ht.
    pose proof (status_partition (alertsOf merchantId s)).
    pose proof (count_nonneg (has_status ACTIVE) (alertsOf merchantId s)).
    pose proof (count_nonneg (has_status ACKNOWLEDGED) (alertsOf merchantId s)).
    pose proof (count_nonneg (has_status RESOLVED) (alertsOf merchantId s)).
    pose proof (count_nonneg (has_status DISMISSED) (alertsOf merchantId s)).
    lia. }
  split; [reflexivity |].
  split; [| reflexivity].
  intros m Hm'. unfold alertsOf, truthy.
  destruct (String.eqb_spec m ""); [contradiction | reflexivity].
Qed.

(** ** The metrics *)

(** The metrics when every read resolves. *)
Lemma getMonitoringMetrics_run
    (c : Counters) (mid : option string) (s : Store) (n a p w b : Z) :
  (truthy mid = None -> merchantCount c = Resolved n) ->
  activeAuditCount c (truthy mid) = Resolved a ->
  pendingRequestCount c (truthy mid) = Resolved p ->
  withdrawnConsentCount c (truthy mid) = Resolved w ->
  breachIncidentCount c (truthy mid) = Resolved b ->
  exists m,
    getMonitoringMetrics c None mid s = (Resolved m, s) /\
    totalMerchants m = match truthy mid with
                       | Some _ => 1
                       | None => n
                       end /\
    activeAudits m = a /\ pendingRequests m = p /\
    withdrawnConsents m = w /\ breachIncidents m = b /\
    counts_active (alertCounts m) = count (has_status ACTIVE) (alertsOf mid s) /\
    counts_critical (alertCounts m)
      = count (has_severity Monitoring.CRITICAL) (alertsOf mid s) /\
    counts_high (alertCounts m)
      = count (has_severity Monitoring.HIGH) (alertsOf mid s) /\
    counts_medium (alertCounts m)
      = count (has_severity Monitoring.MEDIUM) (alertsOf mid s) /\
    counts_low (alertCounts m)
      = count (has_severity Monitoring.LOW) (alertsOf mid s) /\
    complianceScore m
    = Z.max 0
        (Z.min 100
           (100 - p * 2 - w * 1 - b * 10
            - count (has_severity Monitoring.CRITICAL) (alertsOf mid s) * 15
            - count (has_severity Monitoring.HIGH) (alertsOf mid s) * 10
            - count (has_severity Monitoring.MEDIUM) (alertsOf mid s) * 5
            - count (has_severity Monitoring.LOW) (alertsOf mid s) * 1)).
Proof.
  intros Hn Ha Hp Hw Hb.
  destruct (getAlertStats_run mid s)
    as (stats & Hrun & _ & Hact & _ & _ & _ & Hl & Hm & Hh & Hc & _).
  unfold getMonitoringMetrics.
  assert (Hfirst :
            (match truthy mid with
             | Some _ => ret 1
             | None => settle (fun _ : Store => merchantCount c)
             end) s
            = (Resolved match truthy mid with
                        | Some _ => 1
                        | None => n
                        end, s)).
  { destruct (truthy mid); [reflexivity |].
    unfold settle. rewrite (Hn eq_refl). reflexivity. }
  unfold bind at 1. rewrite Hfirst.
  unfold bind at 1, settle at 1. rewrite Ha.
  unfold bind at 1, settle at 1. rewrite Hp.
  unfold bind at 1, settle at 1. rewrite Hw.
  unfold bind at 1, settle at 1. rewrite Hb.
  unfold bind at 1. rewrite Hrun. unfold ret.
  eexists. split; [reflexivity |].
  cbn [totalMerchants activeAudits pendingRequests withdrawnConsents
       breachIncidents alertCounts counts_active counts_critical counts_high
       counts_medium counts_low complianceScore].
  unfold calculateComplianceScore. rewrite Hl, Hm, Hh, Hc, Hact.
  repeat split.
Qed.

(** X18.  When its reads resolve, with counts that are not negative,
    [getMonitoringMetrics] writes nothing, reports the counts read (one
    merchant for any merchant id that is given, known or not), and its
    [complianceScore] lies between 0 and 100 and is 100 less 2 per pending
    request, 1 per withdrawn consent, 10 per breach and 15, 10, 5 and 1 per
    critical, high, medium and low alert, alerts of every status counted.
    It is 100 exactly when there is no pending request, no withdrawal, no
    breach and no alert at all.  The number of audits in progress is
    reported and does not enter the score.  When the query of the alerts,
    or the last of the counts, is rejected, the metrics reject with that
    error: there is no handler. *)
Theorem getMonitoringMetrics_score :
  forall (c : Counters) (merchantId : option string) (s : Store)
         (n a p w b : Z),
    (truthy merchantId = None -> merchantCount c = Resolved n) ->
    activeAuditCount c (truthy merchantId) = Resolved a ->
    pendingRequestCount c (truthy merchantId) = Resolved p ->
    withdrawnConsentCount c (truthy merchantId) = Resolved w ->
    breachIncidentCount c (truthy merchantId) = Resolved b ->
    0 <= p -> 0 <= w -> 0 <= b ->
    exists m : MonitoringMetrics,
      getMonitoringMetrics c None merchantId s = (Resolved m, s) /\
      let rows := alertsOf merchantId s in
      0 <= complianceScore m <= 100 /\
      complianceScore m
        = Z.max 0 (100 - 2 * p - w - 10 * b
                   - 15 * count (has_severity Monitoring.CRITICAL) rows
                   - 10 * count (has_severity Monitoring.HIGH) rows
                   - 5 * count (has_severity Monitoring.MEDIUM) rows
                   - count (has_severity Monitoring.LOW) rows) /\
      (complianceScore m = 100 <-> p = 0 /\ w = 0 /\ b = 0 /\ rows = []) /\
      (activeAudits m, pendingRequests m, withdrawnConsents m,
       breachIncidents m) = (a, p, w, b) /\
      counts_critical (alertCounts m) + counts_high (alertCounts m)
        + counts_medium (alertCounts m) + counts_low (alertCounts m)
        = Z.of_nat (List.length rows) /\
      counts_active (alertCounts m) <= Z.of_nat (List.length rows) /\
      totalMerchants m = match truthy merchantId with
                         | Some _ => 1
                         | None => n
                         end /\
      (forall a' : Z,
          exists m' : MonitoringMetrics,
            getMonitoringMetrics
              (mkCounters (merchantCount c) (fun _ => Resolved a')
                          (pendingRequestCount c) (withdrawnConsentCount c)
                          (breachIncidentCount c))
              None merchantId s = (Resolved m', s) /\
            activeAudits m' = a' /\
            complianceScore m' = complianceScore m) /\
      (forall e,
          getMonitoringMetrics c (Some e) merchantId s = (Rejected e, s)) /\
      (forall e,
          getMonitoringMetrics
            (mkCounters (merchantCount c) (activeAuditCount c)
                        (pendingRequestCount c) (withdrawnConsentCount c)
                        (fun _ => Rejected e))
            None merchantId s = (Rejected e, s)).
Proof.
  intros c merchantId s n a p w b Hn Ha Hp Hw Hb Hp0 Hw0 Hb0.
  destruct (getMonitoringMetrics_run c merchantId s n a p w b Hn Ha Hp Hw Hb)
    as (m & Hrun & Htm & Haa & Hpp & Hww & Hbb & Hact & Hc & Hh & Hm & Hl
        & Hscore).
  exists m. split; [exact Hrun |].
  cbn zeta.
  pose proof (severity_partition (alertsOf merchantId s)) as Hsev.
  pose proof (status_partition (alertsOf merchantId s)) as Hsta.
  pose proof (count_nonneg (has_severity Monitoring.LOW)
                (alertsOf merchantId s)).
  pose proof (count_nonneg (has_severity Monitoring.MEDIUM)
                (alertsOf merchantId s)).
  pose proof (count_nonneg (has_severity Monitoring.HIGH)
                (alertsOf merchantId s)).
  pose proof (count_nonneg (has_severity Monitoring.CRITICAL)
                (alertsOf merchantId s)).
  pose proof (count_nonneg (has_status ACTIVE) (alertsOf merchantId s)).
  pose proof (count_nonneg (has_status ACKNOWLEDGED) (alertsOf merchantId s)).
  pose proof (count_nonneg (has_status RESOLVED) (alertsOf merchantId s)).
  pose proof (count_nonneg (has_status DISMISSED) (alertsOf merchantId s)).
  split; [lia |].
  split; [lia |].
  split.
  { split.
    - intros H100.
      assert (Hlen : Z.of_nat (List.length (alertsOf merchantId s)) = 0) by lia.
      repeat split; try lia.
      destruct (alertsOf merchantId s); [reflexivity | cbn in Hlen; lia].
    - intros (Hp1 & Hw1 & Hb1 & Hrows).
      rewrite Hscore, Hrows. unfold count.
      cbn [filter List.length Z.of_nat]. lia. }
  split; [rewrite Haa, Hpp, Hww, Hbb; reflexivity |].
  split; [lia |].
  split; [lia |].
  split; [exact Htm |].
  split.
  { intros a'.
    destruct (getMonitoringMetrics_run
                (mkCounters (merchantCount c) (fun _ => Resolved a')
                            (pendingRequestCount c) (withdrawnConsentCount c)
                            (breachIncidentCount c))
                merchantId s n a' p w b Hn eq_refl Hp Hw Hb)
      as (m' & Hrun' & _ & Haa' & _ & _ & _ & _ & _ & _ & _ & _ & Hscore').
    exists m'. split; [exact Hrun' |]. split; [exact Haa' |].
    rewrite Hscore, Hscore'. reflexivity. }
  assert (Hfirst :
            (match truthy merchantId with
             | Some _ => ret 1
             | None => settle (fun _ : Store => merchantCount c)
             end) s
            = (Resolved match truthy merchantId with
                        | Some _ => 1
                        | None => n
                        end, s)).
  { destruct (truthy merchantId); [reflexivity |].
    unfold settle. rewrite (Hn eq_refl). reflexivity. }
  split.
  - intros e. unfold getMonitoringMetrics.
    unfold bind at 1. rewrite Hfirst.
    unfold bind at 1, settle at 1. rewrite Ha.
    unfold bind at 1, settle at 1. rewrite Hp.
    unfold bind at 1, settle at 1. rewrite Hw.
    unfold bind at 1, settle at 1. rewrite Hb.
    reflexivity.
  - intros e. unfold getMonitoringMetrics.
    cbn [merchantCount activeAuditCount pendingRequestCount
         withdrawnConsentCount breachIncidentCount].
    unfold bind at 1. rewrite Hfirst.
    unfold bind at 1, settle at 1. rewrite Ha.
    unfold bind at 1, settle at 1. rewrite Hp.
    unfold bind at 1, settle at 1. rewrite Hw.
    reflexivity.
Qed.

Lemma getMonitoringMetrics_score_witness :
  exists m : MonitoringMetrics,
    getMonitoringMetrics
      (mkCounters (Resolved 2) (fun _ => Resolved 1) (fun _ => Resolved 3)
                  (fun _ => Resolved 4) (fun _ => Resolved 1))
      None (Some "shop-1") AlertSamples.twoAlerts
    = (Resolved m, AlertSamples.twoAlerts) /\
    complianceScore m = 55.
Proof.
  destruct (getMonitoringMetrics_score
              (mkCounters (Resolved 2) (fun _ => Resolved 1)
                          (fun _ => Resolved 3) (fun _ => Resolved 4)
                          (fun _ => Resolved 1))
              (Some "shop-1") AlertSamples.twoAlerts 2 1 3 4 1)
    as (m & Hrun & _ & Hscore & _);
    [discriminate | reflexivity | reflexivity | reflexivity | reflexivity
    | lia | lia | lia |].
  exists m. split; [exact Hrun |].
  rewrite Hscore. vm_compute. reflexivity.
Defined.

(** ** Updating an alert *)

Lemma NoDup_map_inj {A B : Type} (f : A -> B) (l : list A) (x y : A) :
  NoDup (map f l) -> In x l -> In y l -> f x = f y -> x = y.
Proof.
  induction l as [| z l IH]; [intros _ [] |].
  cbn [map]. intros Hnd Hx Hy Hf. inversion Hnd as [| ? ? Hnot Hnd']; subst.
  destruct Hx as [-> | Hx], Hy as [-> | Hy].
  - reflexivity.
  - exfalso. apply Hnot. rewrite Hf. apply in_map. exact Hy.
  - exfalso. apply Hnot. rewrite <- Hf. apply in_map. exact Hx.
  - apply IH; assumption.
Qed.

Lemma find_by_id (id : nat) (rows : list Alert) (a : Alert) :
  NoDup (map alert_id rows) -> In a rows -> alert_id a = Some id ->
  find (fun r => match alert_id r with
                 | Some j => Nat.eqb id j
                 | None => false
                 end) rows = Some a.
Proof.
  intros Hnd Hin Hid.
  induction rows as [| r rows IH]; [destruct Hin |].
  cbn [find].
  destruct (alert_id r) as [j |] eqn:Hr.
  - destruct (Nat.eqb_spec id j) as [<- | Hne].
    + f_equal. apply (NoDup_map_inj alert_id (r :: rows)); auto.
      * left. reflexivity.
      * congruence.
    + destruct Hin as [-> | Hin]; [congruence |].
      apply IH; [| exact Hin]. inversion Hnd. assumption.
  - destruct Hin as [-> | Hin]; [congruence |].
    apply IH; [| exact Hin]. inversion Hnd. assumption.
Qed.

Lemma filter_map_preserve {A : Type} (p : A -> bool) (g : A -> A) (l : list A) :
  (forall r, In r l -> p (g r) = p r) ->
  filter p (map g l) = map g (filter p l).
Proof.
  induction l as [| r l IH]; intros H; [reflexivity |].
  cbn [map filter]. rewrite (H r) by (left; reflexivity).
  rewrite IH by (intros x Hx; apply H; right; exact Hx).
  destruct (p r); reflexivity.
Qed.

Lemma count_map_preserve {A : Type} (q : A -> bool) (g : A -> A) (l : list A) :
  (forall r, In r l -> q (g r) = q r) ->
  count q (map g l) = count q l.
Proof.
  intros H. unfold count.
  rewrite filter_map_preserve by exact H.
  rewrite length_map. reflexivity.
Qed.

Lemma count_severity_replace
    (mid : option string) (s : Store) (g : Alert -> Alert)
    (v : Monitoring.AlertSeverity) :
  (forall r, In r (alerts s) ->
             merchantId (g r) = merchantId r /\ severity (g r) = severity r) ->
  count (has_severity v) (alertsOf mid (set_alerts (map g (alerts s)) s))
  = count (has_severity v) (alertsOf mid s).
Proof.
  intros H. unfold alertsOf, set_alerts. cbn [alerts].
  assert (Hsev : forall l, (forall r, In r l -> In r (alerts s)) ->
                           count (has_severity v) (map g l)
                           = count (has_severity v) l).
  { intros l Hl. apply count_map_preserve. intros r Hr.
    unfold has_severity. rewrite (proj2 (H r (Hl r Hr))). reflexivity. }
  destruct (truthy mid) as [m |].
  - rewrite filter_map_preserve.
    + apply Hsev. intros r Hr. apply filter_In in Hr. apply Hr.
    + intros r Hr. rewrite (proj1 (H r Hr)). reflexivity.
  - apply Hsev. auto.
Qed.

Lemma metrics_resolved_reads
    (c : Counters) (failure : option Error) (mid : option string) (s : Store)
    (m : MonitoringMetrics) :
  getMonitoringMetrics c failure mid s = (Resolved m, s) ->
  failure = None /\
  exists n a p w b : Z,
    (truthy mid = None -> merchantCount c = Resolved n) /\
    activeAuditCount c (truthy mid) = Resolved a /\
    pendingRequestCount c (truthy mid) = Resolved p /\
    withdrawnConsentCount c (truthy mid) = Resolved w /\
    breachIncidentCount c (truthy mid) = Resolved b.
Proof.
  unfold getMonitoringMetrics, bind, settle, getAlertStats, query, throw, ret.
  destruct (truthy mid) as [x |]; [| destruct (merchantCount c) as [n | ?]];
    destruct (activeAuditCount c _) as [a | ?];
    destruct (pendingRequestCount c _) as [p | ?];
    destruct (withdrawnConsentCount c _) as [w | ?];
    destruct (breachIncidentCount c _) as [b | ?];
    destruct failure as [failed |];
    intros H; try discriminate H.
  - split; [reflexivity |]. exists 0, a, p, w, b.
    repeat split. intros Hx. discriminate Hx.
  - split; [reflexivity |]. exists n, a, p, w, b. repeat split.
Qed.

(** The score depends on the store through the severities counted. *)
Lemma metrics_score_of_severities
    (c : Counters) (failure : option Error) (mid : option string)
    (s s' : Store) (m : MonitoringMetrics) :
  (forall v, count (has_severity v) (alertsOf mid s')
             = count (has_severity v) (alertsOf mid s)) ->
  getMonitoringMetrics c failure mid s = (Resolved m, s) ->
  exists m',
    getMonitoringMetrics c failure mid s' = (Resolved m', s') /\
    complianceScore m' = complianceScore m.
Proof.
  intros Hcount Hrun.
  destruct (metrics_resolved_reads c failure mid s m Hrun)
    as (-> & n & a & p & w & b & Hn & Ha & Hp & Hw & Hb).
  destruct (getMonitoringMetrics_run c mid s n a p w b Hn Ha Hp Hw Hb)
    as (m0 & Hrun0 & _ & _ & _ & _ & _ & _ & _ & _ & _ & _ & Hscore).
  destruct (getMonitoringMetrics_run c mid s' n a p w b Hn Ha Hp Hw Hb)
    as (m' & Hrun' & _ & _ & _ & _ & _ & _ & _ & _ & _ & _ & Hscore').
  rewrite Hrun in Hrun0. injection Hrun0 as <-.
  exists m'. split; [exact Hrun' |].
  rewrite Hscore, Hscore', !Hcount. reflexivity.
Qed.

Lemma column_assigned {A B : Type} (inject : A -> B) (k : Key A) (loaded : B) :
  column (assigned inject k loaded) loaded
  = match value_of k with
    | Some v => inject v
    | None => loaded
    end.
Proof. destruct k as [| [v |]]; reflexivity. Qed.

(** X19.  With its read and its write of the row carried out,
    [updateAlert] on a stored alert rewrites that row only.  The
    status stored becomes the one the update carries, from any status to
    any other; [acknowledgedAt] and [resolvedAt] are stamped the first time
    the alert is acknowledged or resolved and never change afterwards,
    while [acknowledgedBy] and [resolvedBy] are overwritten by every update
    that names them.  A key the update carries with the value [undefined]
    leaves its column as it was, and is [undefined] in the alert that is
    returned, which then differs from the row stored: [resolveAlert]
    without notes returns an alert without [resolutionNotes] whatever the
    row holds.  The type, the severity, the merchant and the expiry are
    kept, so whenever the monitoring metrics resolve before the update
    they resolve after it with the same compliance score: acknowledging,
    resolving or dismissing an alert does not raise it. *)
Theorem updateAlert_keeps_score_and_first_stamps :
  forall (c : Counters) (failure : option Error) (mid : option string)
         (id : nat) (dto : UpdateAlertDto) (s : Store) (a : Alert),
    NoDup (map alert_id (alerts s)) ->
    In a (alerts s) ->
    alert_id a = Some id ->
    let acknowledging :=
      status_is (upd_status dto) ACKNOWLEDGED && no_date (acknowledgedAt a) in
    let resolving :=
      status_is (upd_status dto) RESOLVED && no_date (resolvedAt a) in
    exists (e : AlertEntity) (a' : Alert) (s' : Store),
      updateAlert id dto s = (Resolved e, s') /\
      merchantIds s' = merchantIds s /\
      alerts s' = map (fun r => match alert_id r with
                                | Some j => if Nat.eqb id j then a' else r
                                | None => r
                                end) (alerts s) /\
      In a' (alerts s') /\
      (forall r, In r (alerts s) -> r <> a -> In r (alerts s')) /\
      (alert_id a', type a', severity a', merchantId a', expiresAt a',
       title a', description a')
      = (Some id, type a, severity a, merchantId a, expiresAt a, title a,
         description a) /\
      status a' = match value_of (upd_status dto) with
                  | Some st => st
                  | None => status a
                  end /\
      acknowledgedAt a'
        = match acknowledgedAt a with
          | Some t => Some t
          | None => if status_is (upd_status dto) ACKNOWLEDGED
                    then Some (clock s) else None
          end /\
      resolvedAt a'
        = match resolvedAt a with
          | Some t => Some t
          | None => if status_is (upd_status dto) RESOLVED
                    then Some (clock s) else None
          end /\
      acknowledgedBy a'
        = (if acknowledging
           then Some (or_string (value_of (upd_acknowledgedBy dto)) "system")
           else match value_of (upd_acknowledgedBy dto) with
                | Some name => Some name
                | None => acknowledgedBy a
                end) /\
      resolvedBy a'
        = (if resolving
           then Some (or_string (value_of (upd_resolvedBy dto)) "system")
           else match value_of (upd_resolvedBy dto) with
                | Some name => Some name
                | None => resolvedBy a
                end) /\
      resolutionNotes a'
        = match value_of (upd_resolutionNotes dto) with
          | Some notes => Some notes
          | None => resolutionNotes a
          end /\
      saved_row e = a' /\
      acknowledgedAt (row e) = acknowledgedAt a' /\
      resolvedAt (row e) = resolvedAt a' /\
      entity_status e
        = assigned (fun st => st) (upd_status dto) (status a) /\
      entity_acknowledgedBy e
        = (if acknowledging
           then defined
                  (Some (or_string (value_of (upd_acknowledgedBy dto))
                                   "system"))
           else assigned Some (upd_acknowledgedBy dto) (acknowledgedBy a)) /\
      entity_resolvedBy e
        = (if resolving
           then defined
                  (Some (or_string (value_of (upd_resolvedBy dto)) "system"))
           else assigned Some (upd_resolvedBy dto) (resolvedBy a)) /\
      entity_resolutionNotes e
        = assigned Some (upd_resolutionNotes dto) (resolutionNotes a) /\
      (forall m,
          getMonitoringMetrics c failure mid s = (Resolved m, s) ->
          exists m',
            getMonitoringMetrics c failure mid s' = (Resolved m', s') /\
            complianceScore m' = complianceScore m).
Proof.
  intros c failure mid id dto s a Hnd Hin Hid acknowledging resolving.
  unfold updateAlert, bind at 1, getAlertById.
  rewrite (find_by_id id (alerts s) a Hnd Hin Hid).
  unfold bind at 1, gets.
  fold acknowledging.
  set (first := if acknowledging then _ else _).
  assert (Hfirst :
            (alert_id (snd first), type (snd first), severity (snd first),
             merchantId (snd first), expiresAt (snd first), title (snd first),
             description (snd first), status (snd first),
             resolvedAt (snd first), acknowledgedBy (snd first),
             resolvedBy (snd first), resolutionNotes (snd first))
            = (Some id, type a, severity a, merchantId a, expiresAt a,
               title a, description a, status a, resolvedAt a,
               acknowledgedBy a, resolvedBy a, resolutionNotes a) /\
            (upd_status (fst first), upd_resolvedBy (fst first),
             upd_resolutionNotes (fst first))
            = (upd_status dto, upd_resolvedBy dto, upd_resolutionNotes dto) /\
            upd_acknowledgedBy (fst first)
            = (if acknowledging
               then present
                      (Some (or_string (value_of (upd_acknowledgedBy dto))
                                       "system"))
               else upd_acknowledgedBy dto) /\
            acknowledgedAt (snd first)
            = match acknowledgedAt a with
              | Some t => Some t
              | None => if status_is (upd_status dto) ACKNOWLEDGED
                        then Some (clock s) else None
              end).
  { unfold first, acknowledging. rewrite <- Hid.
    destruct (status_is (upd_status dto) ACKNOWLEDGED);
      destruct (acknowledgedAt a) eqn:Hack; cbn;
      rewrite ?Hack; repeat split; reflexivity. }
  destruct first as [dto1 a1]. cbn [fst snd] in Hfirst.
  destruct Hfirst as (Hcols1 & Hkeys1 & Hby1 & Hat1).
  injection Hcols1 as F1 F2 F3 F4 F5 F6 F7 F8 F9 F10 F11 F12.
  injection Hkeys1 as G1 G2 G3.
  assert (Hres : status_is (upd_status dto1) RESOLVED && no_date (resolvedAt a1)
                 = resolving).
  { unfold resolving. rewrite G1, F9. reflexivity. }
  rewrite Hres.
  set (second := if resolving then _ else _).
  assert (Hsecond :
            (alert_id (snd second), type (snd second), severity (snd second),
             merchantId (snd second), expiresAt (snd second),
             title (snd second), description (snd second),
             status (snd second), acknowledgedAt (snd second),
             acknowledgedBy (snd second), resolvedBy (snd second),
             resolutionNotes (snd second))
            = (Some id, type a, severity a, merchantId a, expiresAt a,
               title a, description a, status a, acknowledgedAt a1,
               acknowledgedBy a, resolvedBy a, resolutionNotes a) /\
            (upd_status (fst second), upd_acknowledgedBy (fst second),
             upd_resolutionNotes (fst second))
            = (upd_status dto, upd_acknowledgedBy dto1,
               upd_resolutionNotes dto) /\
            upd_resolvedBy (fst second)
            = (if resolving
               then present
                      (Some (or_string (value_of (upd_resolvedBy dto))
                                       "system"))
               else upd_resolvedBy dto) /\
            resolvedAt (snd second)
            = match resolvedAt a with
              | Some t => Some t
              | None => if status_is (upd_status dto) RESOLVED
                        then Some (clock s) else None
              end).
  { unfold second, resolving.
    destruct (status_is (upd_status dto) RESOLVED);
      destruct (resolvedAt a) eqn:Hrs; cbn;
      rewrite ?F1, ?F2, ?F3, ?F4, ?F5, ?F6, ?F7, ?F8, ?F9, ?F10, ?F11, ?F12,
        ?G1, ?G2, ?G3, ?Hrs;
      repeat split; reflexivity. }
  destruct second as [dto2 a2]. cbn [fst snd] in Hsecond.
  destruct Hsecond as (Hcols2 & Hkeys2 & Hby2 & Hat2).
  injection Hcols2 as K1 K2 K3 K4 K5 K6 K7 K8 K9 K10 K11 K12.
  injection Hkeys2 as L1 L2 L3.
  set (e := Object_assign a2 dto2).
  set (a' := saved_row e).
  assert (Ha'id : alert_id a' = Some id) by (cbn; exact K1).
  unfold alertRepository_update, bind at 1, alertRepository_save.
  fold a'. rewrite Ha'id.
  set (g := fun r => match alert_id r with
                     | Some j => if Nat.eqb id j then a' else r
                     | None => r
                     end).
  assert (Hg : forall r, In r (alerts s) ->
                         merchantId (g r) = merchantId r /\
                         severity (g r) = severity r).
  { intros r Hr. unfold g.
    destruct (alert_id r) as [j |] eqn:Hj; [| split; reflexivity].
    destruct (Nat.eqb_spec id j) as [<- | Hne]; [| split; reflexivity].
    assert (r = a).
    { apply (NoDup_map_inj alert_id (alerts s)); auto. congruence. }
    subst r. unfold a'. cbn. split; assumption. }
  exists e, a', (set_alerts (map g (alerts s)) s).
  split; [reflexivity |].
  split; [reflexivity |].
  split; [reflexivity |].
  split.
  { cbn [set_alerts alerts]. apply in_map_iff. exists a. split; [| exact Hin].
    unfold g. rewrite Hid, Nat.eqb_refl. reflexivity. }
  split.
  { intros r Hr Hne. cbn [set_alerts alerts]. apply in_map_iff.
    exists r. split; [| exact Hr]. unfold g.
    destruct (alert_id r) as [j |] eqn:Hj; [| reflexivity].
    destruct (Nat.eqb_spec id j) as [<- | _]; [| reflexivity].
    exfalso. apply Hne.
    apply (NoDup_map_inj alert_id (alerts s)); auto. congruence. }
  split.
  { unfold a'. cbn. rewrite K1, K2, K3, K4, K5, K6, K7. reflexivity. }
  split.
  { unfold a', e. cbn. rewrite column_assigned, L1, K8. reflexivity. }
  split; [unfold a'; cbn; rewrite K9; exact Hat1 |].
  split; [unfold a'; cbn; exact Hat2 |].
  split.
  { unfold a', e. cbn. rewrite column_assigned, L2, Hby1, K10.
    destruct acknowledging; reflexivity. }
  split.
  { unfold a', e. cbn. rewrite column_assigned, Hby2, K11.
    destruct resolving; reflexivity. }
  split.
  { unfold a', e. cbn. rewrite column_assigned, L3, K12. reflexivity. }
  split; [reflexivity |].
  split; [reflexivity |].
  split; [reflexivity |].
  split; [unfold e; cbn; rewrite L1, K8; reflexivity |].
  split.
  { unfold e. cbn. rewrite L2, Hby1, K10.
    destruct acknowledging; reflexivity. }
  split.
  { unfold e. cbn. rewrite Hby2, K11. destruct resolving; reflexivity. }
  split; [unfold e; cbn; rewrite L3, K12; reflexivity |].
  intros m Hm.
  apply (metrics_score_of_severities c failure mid s _ m); [| exact Hm].
  intros v. apply count_severity_replace. exact Hg.
Qed.

Lemma updateAlert_keeps_score_and_first_stamps_witness :
  exists (e : AlertEntity) (s' : Store),
    resolveAlert 1 (Some "late") None AlertSamples.twoAlerts
      = (Resolved e, s') /\
    entity_resolutionNotes e = undefined /\
    resolvedAt (saved_row e) = Some 1699990000000 /\
    resolvedBy (saved_row e) = Some "late".
Proof.
  destruct (updateAlert_keeps_score_and_first_stamps
              (mkCounters (Resolved 2) (fun _ => Resolved 0)
                          (fun _ => Resolved 0) (fun _ => Resolved 0)
                          (fun _ => Resolved 0))
              None None 1
              (mkUpdateDto (present (Some RESOLVED)) absent
                           (present (Some "late")) (present None))
              AlertSamples.twoAlerts AlertSamples.breachAlert)
    as (e & a' & s' & Hrun & _ & _ & _ & _ & _ & _ & _ & Hat & _ & Hby & _
        & Hrow & _ & _ & _ & _ & _ & Hnotes & _).
  - repeat constructor; cbn; intuition discriminate.
  - left. reflexivity.
  - reflexivity.
  - exists e, s'. split; [exact Hrun |].
    split; [exact Hnotes |].
    rewrite Hrow. split; [exact Hat | exact Hby].
Defined.

(** ** Creating an alert *)

Lemma fresh_alert_id_above (rows : list Alert) (r : Alert) (j : nat) :
  In r rows -> alert_id r = Some j -> (j < fresh_id rows)%nat.
Proof.
  unfold fresh_id. induction rows as [| x rows IH]; [intros [] |].
  intros [-> | Hin] Hj; cbn [fold_right].
  - rewrite Hj. lia.
  - specialize (IH Hin Hj). destruct (alert_id x); lia.
Qed.

Lemma find_merchant (id : string) (ids : list string) :
  In id ids <-> exists m, find (String.eqb id) ids = Some m.
Proof.
  induction ids as [| x ids IH]; cbn [find In].
  - split; [intros [] | intros (m & H); discriminate].
  - destruct (String.eqb_spec id x) as [-> | Hne].
    + split; [intros _; eexists; reflexivity | auto].
    + rewrite <- IH. split; [intros [H | H]; [congruence | exact H] | auto].
Qed.

Lemma find_none_app {A : Type} (p : A -> bool) (l : list A) (x : A) :
  (forall y, In y l -> p y = false) -> p x = true ->
  find p (l ++ [x]) = Some x.
Proof.
  induction l as [| y l IH]; intros Hl Hx; cbn [List.app find].
  - rewrite Hx. reflexivity.
  - rewrite (Hl y) by (left; reflexivity).
    apply IH; [| exact Hx]. intros z Hz. apply Hl. right. exact Hz.
Qed.

Lemma find_none_all {A : Type} (p : A -> bool) (l : list A) :
  (forall y, In y l -> p y = false) -> find p l = None.
Proof.
  induction l as [| y l IH]; intros Hl; cbn [find]; [reflexivity |].
  rewrite (Hl y) by (left; reflexivity).
  apply IH. intros z Hz. apply Hl. right. exact Hz.
Qed.

Lemma createAlert_known (dto : CreateAlertDto) (s : Store) :
  In (dto_merchantId dto) (merchantIds s) ->
  createAlert dto s
  = (Resolved (with_id (fresh_id (alerts s)) (alertRepository_create dto ACTIVE)),
     set_alerts
       (alerts s
          ++ [with_id (fresh_id (alerts s)) (alertRepository_create dto ACTIVE)])
       s).
Proof.
  intros Hin. apply find_merchant in Hin. destruct Hin as (m & Hm).
  unfold createAlert, try_catch, bind, merchantRepository_findOne, gets.
  rewrite Hm. reflexivity.
Qed.

(** X20.  With the reads and the insert carried out: [createAlert] for an
    unknown merchant rejects with "Merchant with ID ... not found" and
    stores nothing.  For a known merchant it appends
    one alert, active, neither acknowledged nor resolved, with the columns
    of the request, and leaves the alerts already stored as they are; the
    key generated for it is the key of no stored alert, so that keys stay
    distinct and [getAlertById] on it returns the alert as created.
    Looking up or updating any id that no stored alert has rejects with
    "Alert with ID ... not found" and changes nothing. *)
Theorem createAlert_appends_an_active_alert :
  forall (dto : CreateAlertDto) (update : UpdateAlertDto) (s : Store),
    let id := fresh_id (alerts s) in
    let saved := with_id id (alertRepository_create dto ACTIVE) in
    let s' := set_alerts (alerts s ++ [saved]) s in
    match find (String.eqb (dto_merchantId dto)) (merchantIds s) with
    | Some _ =>
        createAlert dto s = (Resolved saved, s') /\
        getAlertById id s' = (Resolved saved, s')
    | None =>
        createAlert dto s
        = (Rejected (mkError ("Merchant with ID " ++ dto_merchantId dto
                                ++ " not found")), s)
    end /\
    status saved = ACTIVE /\
    acknowledgedAt saved = None /\
    resolvedAt saved = None /\
    (type saved, severity saved, title saved, description saved,
     merchantId saved, expiresAt saved)
    = (dto_type dto, dto_severity dto, dto_title dto, dto_description dto,
       dto_merchantId dto, dto_expiresAt dto) /\
    Forall (fun r => alert_id r <> alert_id saved) (alerts s) /\
    (NoDup (map alert_id (alerts s)) -> NoDup (map alert_id (alerts s'))) /\
    (forall missing : nat,
        Forall (fun r => alert_id r <> Some missing) (alerts s) ->
        getAlertById missing s
          = (Rejected (mkError ("Alert with ID " ++ JS.toString missing
                                  ++ " not found")), s) /\
        updateAlert missing update s
          = (Rejected (mkError ("Alert with ID " ++ JS.toString missing
                                  ++ " not found")), s)).
Proof.
  intros dto update s id saved s'.
  assert (Hfresh : forall r, In r (alerts s) ->
                             match alert_id r with
                             | Some j => Nat.eqb id j
                             | None => false
                             end = false).
  { intros r Hr. destruct (alert_id r) as [j |] eqn:Hj; [| reflexivity].
    pose proof (fresh_alert_id_above (alerts s) r j Hr Hj).
    apply Nat.eqb_neq. unfold id. lia. }
  split.
  { destruct (find (String.eqb (dto_merchantId dto)) (merchantIds s))
      as [m |] eqn:Hm.
    - split.
      + apply createAlert_known. apply find_merchant. eauto.
      + unfold getAlertById, s'. cbn [set_alerts alerts].
        rewrite (find_none_app _ _ saved Hfresh); [reflexivity |].
        cbn. apply Nat.eqb_refl.
    - unfold createAlert, try_catch, bind, merchantRepository_findOne, gets.
      rewrite Hm. reflexivity. }
  split; [reflexivity |].
  split; [reflexivity |].
  split; [reflexivity |].
  split; [reflexivity |].
  split.
  { apply Forall_forall. intros r Hr Heq.
    specialize (Hfresh r Hr). rewrite Heq in Hfresh. cbn in Hfresh.
    rewrite Nat.eqb_refl in Hfresh. discriminate. }
  split.
  { intros Hnd. unfold s'. cbn [set_alerts alerts].
    rewrite map_app. cbn [map].
    apply NoDup_app; [exact Hnd | repeat constructor; intros [] |].
    intros x Hx [<- | []].
    apply in_map_iff in Hx. destruct Hx as (r & Hr & Hin).
    specialize (Hfresh r Hin). rewrite Hr in Hfresh. cbn in Hfresh.
    rewrite Nat.eqb_refl in Hfresh. discriminate. }
  intros missing Hmissing.
  assert (Hlookup : getAlertById missing s
                    = (Rejected (mkError ("Alert with ID "
                                            ++ JS.toString missing
                                            ++ " not found")), s)).
  { unfold getAlertById. rewrite find_none_all; [reflexivity |].
    intros r Hr. rewrite Forall_forall in Hmissing. specialize (Hmissing r Hr).
    destruct (alert_id r) as [j |]; [| reflexivity].
    apply Nat.eqb_neq. intros ->. apply Hmissing. reflexivity. }
  split; [exact Hlookup |].
  unfold updateAlert, bind. rewrite Hlookup. reflexivity.
Qed.

(** ** The daily health checks *)

Lemma extends_refl (s : Store) : extends s s.
Proof.
  repeat split. exists []. split; [symmetry; apply app_nil_r | constructor].
Qed.

Lemma extends_trans (s1 s2 s3 : Store) :
  extends s1 s2 -> extends s2 s3 -> extends s1 s3.
Proof.
  intros (Hm & Hc & n1 & Ha & Hf) (Hm' & Hc' & n2 & Ha' & Hf').
  split; [congruence |]. split; [congruence |].
  exists (n1 ++ n2)%list. split.
  - rewrite Ha', Ha, app_assoc. reflexivity.
  - apply Forall_app. split; assumption.
Qed.

Lemma for_of_extends {A : Type} (l : list A) (body : A -> Async Store unit)
    (s : Store) :
  (forall x s0, extends s0 (snd (body x s0))) ->
  extends s (snd (for_of l body s)).
Proof.
  intros Hbody. revert s. induction l as [| x l IH]; intros s.
  - apply extends_refl.
  - cbn [for_of]. unfold bind.
    specialize (Hbody x s).
    destruct (body x s) as [[[] | e] s1]; cbn [snd] in *.
    + eapply extends_trans; [exact Hbody | apply IH].
    + exact Hbody.
Qed.

Lemma createAlert_extends (dto : CreateAlertDto) (s : Store) :
  dto_severity dto = Monitoring.CRITICAL ->
  dto_type dto = COMPLIANCE_VIOLATION ->
  dto_expiresAt dto = None ->
  extends s (snd (createAlert dto s)).
Proof.
  intros Hsev Hty Hexp.
  unfold createAlert, try_catch, bind, merchantRepository_findOne, gets.
  destruct (find _ (merchantIds s)); cbn [snd]; [| apply extends_refl].
  repeat split. eexists. split; [reflexivity |].
  repeat constructor; assumption.
Qed.

Lemma raise_extends (merchant : string) (issue : Monitoring.Issue) (s : Store) :
  extends s
    (snd ((if Severity_is_critical (Monitoring.severity issue)
           then
             bind (createAlert
                     (mkCreateDto COMPLIANCE_VIOLATION
                        (Monitoring.severity issue)
                        ("Compliance Issue: " ++ Monitoring.type issue)
                        (Monitoring.description issue) merchant None))
                  (fun _ => ret tt)
           else ret tt) s)).
Proof.
  destruct (Monitoring.severity issue) eqn:Hsev; cbn [Severity_is_critical];
    try apply extends_refl.
  unfold bind.
  pose proof (createAlert_extends
                (mkCreateDto COMPLIANCE_VIOLATION Monitoring.CRITICAL
                   ("Compliance Issue: " ++ Monitoring.type issue)
                   (Monitoring.description issue) merchant None) s
                eq_refl eq_refl eq_refl) as H.
  destruct (createAlert _ s) as [[a | e] s1]; exact H.
Qed.

(** X21.  [performDailyHealthChecks] never rejects, whatever the health
    checks and the alert service do: an error is swallowed.  It leaves the
    merchants and every stored alert as they are and only appends alerts,
    each of them active, critical, of type compliance violation and without
    an expiry date.  When the health check of the first merchant fails
    because the merchant is not found, the run stops there and no alert is
    raised for any merchant. *)
Theorem performDailyHealthChecks_never_rejects :
  forall (w : Monitoring.Readings) (s : Store),
    fst (performDailyHealthChecks w s) = Resolved tt /\
    merchantIds (snd (performDailyHealthChecks w s)) = merchantIds s /\
    (exists new : list Alert,
        alerts (snd (performDailyHealthChecks w s)) = (alerts s ++ new)%list /\
        Forall raised_by_health_check new) /\
    (forall first rest,
        merchantIds s = first :: rest ->
        Monitoring.merchantFound w first = false ->
        snd (performDailyHealthChecks w s) = s).
Proof.
  intros w s.
  assert (Hext : extends s (snd (performDailyHealthChecks w s))).
  { unfold performDailyHealthChecks, try_catch, bind at 1, gets.
    match goal with
    | |- context [for_of ?l ?body s] =>
        pose proof (for_of_extends l body s) as H;
          destruct (for_of l body s) as [[[] | e] s1]
    end; cbn [snd ret] in *; apply H; clear H;
      intros merchant s0; unfold bind at 1, settle;
      (destruct (Monitoring.performComplianceHealthCheck w merchant)
        as [hc | e']; cbn [snd]; [| apply extends_refl]);
      apply for_of_extends; intros issue s2; apply raise_extends. }
  split.
  { unfold performDailyHealthChecks, try_catch.
    match goal with |- context [bind ?m ?k s] => destruct (bind m k s) as [[[] | e] s1] end;
      reflexivity. }
  destruct Hext as (Hm & _ & Hnew).
  split; [exact Hm |].
  split; [exact Hnew |].
  intros first rest Hids Hfound.
  unfold performDailyHealthChecks, try_catch, bind at 1, gets.
  rewrite Hids. cbn [for_of]. unfold bind at 1, bind at 1, settle.
  unfold Monitoring.performComplianceHealthCheck. rewrite Hfound.
  reflexivity.
Qed.

Lemma raise_all (merchant : string) (issues : list Monitoring.Issue) (s : Store) :
  In merchant (merchantIds s) ->
  exists s' new,
    for_of issues
      (fun issue =>
         if Severity_is_critical (Monitoring.severity issue)
         then
           bind (createAlert
                   (mkCreateDto COMPLIANCE_VIOLATION
                      (Monitoring.severity issue)
                      ("Compliance Issue: " ++ Monitoring.type issue)
                      (Monitoring.description issue) merchant None))
                (fun _ => ret tt)
         else ret tt) s
    = (Resolved tt, s') /\
    merchantIds s' = merchantIds s /\
    alerts s' = (alerts s ++ new)%list /\
    map summary new
    = map (issueSummary merchant)
          (filter (fun issue =>
                     Severity_is_critical (Monitoring.severity issue))
                  issues).
Proof.
  revert s. induction issues as [| issue issues IH]; intros s Hin.
  - exists s, []. cbn. rewrite app_nil_r. auto.
  - cbn [for_of filter].
    destruct (Severity_is_critical (Monitoring.severity issue)) eqn:Hcrit.
    + unfold bind at 1, bind at 1.
      rewrite createAlert_known by exact Hin.
      cbn [ret].
      match goal with
      | |- context [for_of issues _ ?s1] =>
          destruct (IH s1 Hin) as (s' & new & Hrun & Hm & Ha & Hsum)
      end.
      rewrite Hrun. eexists s', (_ :: new).
      split; [reflexivity |].
      split; [exact Hm |].
      split.
      * rewrite Ha. cbn [set_alerts alerts]. rewrite <- app_assoc.
        reflexivity.
      * cbn [map]. rewrite Hsum. reflexivity.
    + unfold bind at 1. cbn [ret].
      destruct (IH s Hin) as (s' & new & Hrun & Hm & Ha & Hsum).
      rewrite Hrun. exists s', new. auto.
Qed.

Lemma check_all (w : Monitoring.Readings) (merchants : list string) (s : Store) :
  (forall m, In m merchants ->
             In m (merchantIds s) /\ Monitoring.merchantFound w m = true) ->
  exists s' new,
    for_of merchants
      (fun merchant =>
         bind (settle (fun _ =>
                         Monitoring.performComplianceHealthCheck w merchant))
              (fun healthCheck =>
                 for_of (Monitoring.issues healthCheck)
                   (fun issue =>
                      if Severity_is_critical (Monitoring.severity issue)
                      then
                        bind (createAlert
                                (mkCreateDto COMPLIANCE_VIOLATION
                                   (Monitoring.severity issue)
                                   ("Compliance Issue: "
                                      ++ Monitoring.type issue)
                                   (Monitoring.description issue) merchant
                                   None))
                             (fun _ => ret tt)
                      else ret tt))) s
    = (Resolved tt, s') /\
    merchantIds s' = merchantIds s /\
    alerts s' = (alerts s ++ new)%list /\
    map summary new
    = flat_map (fun m => map (issueSummary m) (criticalIssues w m)) merchants.
Proof.
  revert s. induction merchants as [| m merchants IH]; intros s Hall.
  - exists s, []. cbn. rewrite app_nil_r. auto.
  - cbn [for_of flat_map]. unfold bind at 1, bind at 1, settle at 1.
    destruct (Hall m (or_introl eq_refl)) as [Hin Hfound].
    unfold criticalIssues at 1.
    rewrite (MonitoringProofs.performComplianceHealthCheck_closed_form
               w m Hfound).
    match goal with
    | |- context [for_of (Monitoring.issues ?hc) _ s] =>
        destruct (raise_all m (Monitoring.issues hc) s Hin)
          as (s1 & new1 & Hrun1 & Hm1 & Ha1 & Hsum1)
    end.
    rewrite Hrun1.
    destruct (IH s1) as (s2 & new2 & Hrun2 & Hm2 & Ha2 & Hsum2).
    { intros x Hx. rewrite Hm1. apply Hall. right. exact Hx. }
    cbn beta iota. rewrite Hrun2. exists s2, (new1 ++ new2)%list.
    split; [reflexivity |].
    split; [congruence |].
    split; [rewrite Ha2, Ha1, app_assoc; reflexivity |].
    rewrite map_app, Hsum1, Hsum2. reflexivity.
Qed.

Lemma criticalIssues_types (w : Monitoring.Readings) (m : string) :
  Monitoring.merchantFound w m = true ->
  map Monitoring.type (criticalIssues w m)
  = ((if (0 <? Monitoring.pendingDSRCount w m)
          && (0 <? Monitoring.overdueDSRCount w m)
      then [ "overdue_dsr" ] else [])
     ++ (if 0 <? Monitoring.recentBreachCount w m
         then [ "recent_breaches" ] else []))%list.
Proof.
  intros Hfound. unfold criticalIssues.
  rewrite (MonitoringProofs.performComplianceHealthCheck_closed_form
             w m Hfound).
  cbn [Monitoring.issues].
  unfold Monitoring.spec_staleness, Monitoring.other_issues,
    Monitoring.spec_dsr, Monitoring.spec_withdrawals, Monitoring.spec_breaches.
  destruct (Monitoring.Days_gt _ 90); [| destruct (Monitoring.Days_gt _ 60)];
    destruct ((0 <? Monitoring.pendingDSRCount w m)
              && (0 <? Monitoring.overdueDSRCount w m));
    destruct (5 <? Monitoring.pendingDSRCount w m);
    destruct (10 <? Monitoring.recentWithdrawalCount w m);
    destruct (0 <? Monitoring.recentBreachCount w m);
    reflexivity.
Qed.

Lemma flat_map_length_le {A B : Type} (f : A -> list B) (l : list A) (n : nat) :
  (forall x, In x l -> (List.length (f x) <= n)%nat) ->
  (List.length (flat_map f l) <= n * List.length l)%nat.
Proof.
  induction l as [| x l IH]; intros H; cbn [flat_map List.length]; [lia |].
  rewrite length_app.
  specialize (H x (or_introl eq_refl)) as Hx.
  assert (IH' : (List.length (flat_map f l) <= n * List.length l)%nat).
  { apply IH. intros y Hy. apply H. right. exact Hy. }
  lia.
Qed.

(** X22.  When every listed merchant is found, a run of
    [performDailyHealthChecks] raises one alert for each critical issue of
    each merchant's health check, in the order of the merchants and of the
    issues: an alert "Compliance Issue: overdue_dsr" when a pending request
    is overdue and one "Compliance Issue: recent_breaches" when there is a
    breach in the window, so at most two per merchant.  Alerts already
    stored are not looked at: a second run raises the same alerts once
    more. *)
Theorem performDailyHealthChecks_raises_critical_issues :
  forall (w : Monitoring.Readings) (s : Store),
    (forall m, In m (merchantIds s) -> Monitoring.merchantFound w m = true) ->
    exists (s1 s2 : Store) (new1 new2 : list Alert),
      performDailyHealthChecks w s = (Resolved tt, s1) /\
      alerts s1 = (alerts s ++ new1)%list /\
      map summary new1
      = flat_map (fun m => map (issueSummary m) (criticalIssues w m))
                 (merchantIds s) /\
      (forall m,
          In m (merchantIds s) ->
          map Monitoring.type (criticalIssues w m)
          = ((if (0 <? Monitoring.pendingDSRCount w m)
                  && (0 <? Monitoring.overdueDSRCount w m)
              then [ "overdue_dsr" ] else [])
             ++ (if 0 <? Monitoring.recentBreachCount w m
                 then [ "recent_breaches" ] else []))%list) /\
      (List.length new1 <= 2 * List.length (merchantIds s))%nat /\
      performDailyHealthChecks w s1 = (Resolved tt, s2) /\
      alerts s2 = (alerts s ++ new1 ++ new2)%list /\
      map summary new2 = map summary new1.
Proof.
  intros w s Hfound.
  destruct (check_all w (merchantIds s) s) as (s1 & new1 & Hrun1 & Hm1 & Ha1 & Hsum1).
  { intros m Hm. split; [exact Hm | apply Hfound; exact Hm]. }
  destruct (check_all w (merchantIds s1) s1) as (s2 & new2 & Hrun2 & Hm2 & Ha2 & Hsum2).
  { intros m Hm. split; [exact Hm |]. apply Hfound. rewrite <- Hm1. exact Hm. }
  exists s1, s2, new1, new2.
  split.
  { unfold performDailyHealthChecks, try_catch, bind at 1, gets.
    rewrite Hrun1. reflexivity. }
  split; [exact Ha1 |].
  split; [exact Hsum1 |].
  split.
  { intros m Hm. apply criticalIssues_types. apply Hfound. exact Hm. }
  split.
  { rewrite <- (length_map summary), Hsum1.
    apply flat_map_length_le. intros m Hm.
    rewrite length_map, <- (length_map Monitoring.type).
    rewrite (criticalIssues_types w m (Hfound m Hm)).
    destruct (_ && _); destruct (0 <? Monitoring.recentBreachCount w m);
      cbn; lia. }
  split.
  { unfold performDailyHealthChecks, try_catch, bind at 1, gets.
    rewrite Hrun2. reflexivity. }
  split; [rewrite Ha2, Ha1, app_assoc; reflexivity |].
  rewrite Hsum2, Hsum1, Hm1. reflexivity.
Qed.

Lemma performDailyHealthChecks_raises_critical_issues_witness :
  exists (s1 : Store) (new1 : list Alert),
    performDailyHealthChecks AlertSamples.breachedReadings
                             AlertSamples.twoAlerts
      = (Resolved tt, s1) /\
    alerts s1 = (alerts AlertSamples.twoAlerts ++ new1)%list /\
    map summary new1
    = [ ("shop-1", "Compliance Issue: recent_breaches",
         "1 breach incidents in the last 30 days") ].
Proof.
  destruct (performDailyHealthChecks_raises_critical_issues
              AlertSamples.breachedReadings AlertSamples.twoAlerts)
    as (s1 & s2 & new1 & new2 & Hrun & Ha & Hsum & _).
  - intros m _. reflexivity.
  - exists s1, new1. split; [exact Hrun |]. split; [exact Ha |].
    rewrite Hsum. vm_compute. reflexivity.
Defined.

(** ** Cleaning up *)

Lemma filter_filter_neg {A : Type} (p : A -> bool) (l : list A) :
  filter p (filter (fun a => negb (p a)) l) = [].
Proof.
  induction l as [| a l IH]; [reflexivity |].
  cbn [filter]. destruct (p a) eqn:Hp; cbn [negb filter]; [exact IH |].
  rewrite Hp. exact IH.
Qed.

Lemma filter_neg_idempotent {A : Type} (p : A -> bool) (l : list A) :
  filter (fun a => negb (p a)) (filter (fun a => negb (p a)) l)
  = filter (fun a => negb (p a)) l.
Proof.
  induction l as [| a l IH]; [reflexivity |].
  cbn [filter]. destruct (p a) eqn:Hp; cbn [negb filter]; [exact IH |].
  rewrite Hp. cbn [negb]. rewrite IH. reflexivity.
Qed.

Lemma filter_split_length {A : Type} (p : A -> bool) (l : list A) :
  (List.length (filter p l) + List.length (filter (fun a => negb (p a)) l)
   = List.length l)%nat.
Proof.
  induction l as [| a l IH]; [reflexivity |].
  cbn [filter]. destruct (p a); cbn [negb List.length]; lia.
Qed.

(** X23.  When the database carries out the delete,
    [cleanupExpiredAlerts] deletes exactly the alerts whose expiry date
    lies before the current time and returns their number; alerts without
    an expiry date, and so every alert raised by the health checks, are
    never deleted, whatever their status or age.  The alerts kept stay in
    their order, and a second cleanup at the same time deletes nothing and
    returns 0.  When the database rejects the delete, the cleanup of the
    alert service rejects with that error and deletes nothing; the cleanup
    of the monitoring service, which calls it inside a [try], resolves all
    the same. *)
Theorem cleanupExpiredAlerts_deletes_only_expired :
  forall s : Store,
    (forall e, cleanupExpiredAlerts (Some e) s = (Rejected e, s)) /\
    (forall e, monitoring_cleanupExpiredAlerts (Some e) s = (Resolved tt, s)) /\
    exists (n : Z) (s' : Store),
      cleanupExpiredAlerts None s = (Resolved n, s') /\
      monitoring_cleanupExpiredAlerts None s = (Resolved tt, s') /\
      merchantIds s' = merchantIds s /\
      clock s' = clock s /\
      n = Z.of_nat (List.length (alerts s))
          - Z.of_nat (List.length (alerts s')) /\
      0 <= n /\
      (forall a,
          In a (alerts s') <->
          In a (alerts s) /\
          match expiresAt a with
          | Some e => clock s <= e
          | None => True
          end) /\
      (forall a, In a (alerts s) -> expiresAt a = None -> In a (alerts s')) /\
      (forall a, In a (alerts s) -> raised_by_health_check a ->
                 In a (alerts s')) /\
      alerts s' = filter (fun a => negb (expired (clock s) a)) (alerts s) /\
      cleanupExpiredAlerts None s' = (Resolved 0, s').
Proof.
  intros s.
  split; [reflexivity |].
  split; [reflexivity |].
  unfold monitoring_cleanupExpiredAlerts, try_catch, bind, ret,
    cleanupExpiredAlerts, query.
  set (gone := filter (expired (clock s)) (alerts s)).
  set (kept := filter (fun a => negb (expired (clock s) a)) (alerts s)).
  assert (Hn : (if Z.of_nat (List.length gone) =? 0 then 0
                else Z.of_nat (List.length gone))
               = Z.of_nat (List.length gone)).
  { destruct (Z.eqb_spec (Z.of_nat (List.length gone)) 0); lia. }
  rewrite Hn.
  assert (Hkept : forall a,
             In a kept <->
             In a (alerts s) /\
             match expiresAt a with
             | Some e => clock s <= e
             | None => True
             end).
  { intros a. unfold kept. rewrite filter_In. unfold expired.
    destruct (expiresAt a) as [e |]; cbn [negb].
    - destruct (Z.ltb_spec e (clock s)); cbn [negb];
        split; intros [Hin H']; split; auto; try lia; discriminate.
    - tauto. }
  exists (Z.of_nat (List.length gone)), (set_alerts kept s).
  split; [reflexivity |].
  split; [reflexivity |].
  split; [reflexivity |].
  split; [reflexivity |].
  cbn [set_alerts alerts clock].
  split.
  { pose proof (filter_split_length (expired (clock s)) (alerts s)).
    fold gone kept in H. lia. }
  split; [lia |].
  split; [exact Hkept |].
  split.
  { intros a Hin Hexp. apply Hkept. rewrite Hexp. auto. }
  split.
  { intros a Hin (_ & _ & _ & Hexp). apply Hkept. rewrite Hexp. auto. }
  split; [reflexivity |].
  unfold kept. rewrite filter_filter_neg, filter_neg_idempotent.
  reflexivity.
Qed.

End AlertsProofs.

(* ================================================================== *)
(** * Properties of the detailed compliance data *)
(* ================================================================== *)

Module ComplianceDetailsProofs.
Import Effects Compliance ComplianceReports ComplianceDetails.






End ComplianceDetailsProofs.
